(** * Fiscal-period sales metrics: a shallow embedding of [ytd_calculations.py]

    The development follows the Python module function by function:
    [get_fiscal_year], [get_ytd_date_range], [calculate_ytd_metrics],
    [calculate_deltas], [get_monthly_trends], [get_category_performance].

    - Dates are Python [datetime] values: calendar fields plus the time of
      day, with the proleptic Gregorian ordinal arithmetic of the [datetime]
      module behind [d - timedelta(days=n)].
    - Numbers are IEEE 754 binary64 values ([spec_float] with [prec = 53],
      [emax = 1024]); the sum of a group is pandas' compensated sum.
    - A [DataFrame] is an ordered list of named, typed columns; the caller's
      frames live in a store, so that column assignment is visible to every
      holder of the reference.
    - Python exceptions are results carrying the exception class. *)

From Stdlib Require Import ZArith List String Ascii Bool Lia.
From Stdlib Require Import Floats.SpecFloat.
From stdpp Require Import gmap strings list sorting.

Local Open Scope string_scope.
Local Open Scope list_scope.
Local Open Scope Z_scope.

(** ** Python exceptions and results *)

(** An exception is identified by the name of its class. *)
Definition exn := string.
Definition ValueError : exn := "ValueError".
Definition KeyError : exn := "KeyError".
Definition TypeError : exn := "TypeError".
Definition OverflowError : exn := "OverflowError".
Definition AttributeError : exn := "AttributeError".
(** Raised by the model when a frame reference is dangling, which no Python
    program can observe. *)
Definition ReferenceError : exn := "ReferenceError".

Inductive result (A : Type) :=
  | Ok (a : A)
  | Raise (e : exn).
Arguments Ok {A} a.
Arguments Raise {A} e.

Definition rbind {A B} (r : result A) (k : A -> result B) : result B :=
  match r with
  | Ok a => k a
  | Raise e => Raise e
  end.

Notation "'let*' x := c1 'in' c2" := (rbind c1 (fun x => c2))
  (at level 10, x name, c1 at level 100, c2 at level 200).

Fixpoint rmap {A B} (f : A -> result B) (l : list A) : result (list B) :=
  match l with
  | [] => Ok []
  | a :: l' => let* b := f a in let* bs := rmap f l' in Ok (b :: bs)
  end.

(** ** [str(int)] and the slice [s[-2:]] *)

Definition digit_char (d : Z) : ascii := ascii_of_nat (48 + Z.to_nat d).

Fixpoint str_digits (fuel : nat) (n : Z) (acc : string) : string :=
  match fuel with
  | O => acc
  | S fuel' =>
      let acc' := String (digit_char (n mod 10)) acc in
      if n <? 10 then acc' else str_digits fuel' (n / 10) acc'
  end.

(** Decimal numeral of an integer, as [str] prints it. *)
Definition py_str (n : Z) : string :=
  if n <? 0
  then String "-" (str_digits (S (Z.to_nat (Z.log2 (- n)))) (- n) EmptyString)
  else str_digits (S (Z.to_nat (Z.log2 n))) n EmptyString.

(** [s[-2:]]: the last two characters, or all of [s] when it is shorter. *)
Definition last_two (s : string) : string :=
  String.substring (String.length s - 2)%nat 2 s.

(** [int(s)] on a string of decimal digits; used to state that [py_str]
    prints the whole number. *)
Definition digit_value (c : ascii) : Z := Z.of_nat (nat_of_ascii c) - 48.

Fixpoint int_of_digits (s : string) (acc : Z) : Z :=
  match s with
  | EmptyString => acc
  | String c s' => int_of_digits s' (10 * acc + digit_value c)
  end.

Definition int_of_str (s : string) : Z := int_of_digits s 0.

(** Specification: the last two decimal digits of a natural number, tens
    first; a number below ten has only one. *)
Definition last_two_digits (n : Z) : string :=
  if n <? 10 then String (digit_char n) EmptyString
  else String (digit_char (n / 10 mod 10)) (String (digit_char (n mod 10)) EmptyString).

(** Specification: the label of the fiscal year that starts in calendar
    year [start]:
    ["FY {start}-{last two digits of start + 1}"]. *)
Definition fy_label (start : Z) : string :=
  ("FY " ++ py_str start ++ "-" ++ last_two_digits (start + 1))%string.

(** ** [datetime] *)

(** [tod] is the time of day in nanoseconds since midnight. *)
Record datetime := mk_datetime {
  year : Z;
  month : Z;
  day : Z;
  tod : Z
}.

Definition _is_leap (y : Z) : bool :=
  (y mod 4 =? 0) && (negb (y mod 100 =? 0) || (y mod 400 =? 0)).

Definition _DAYS_IN_MONTH (m : Z) : Z :=
  match m with
  | 1 => 31 | 2 => 28 | 3 => 31 | 4 => 30 | 5 => 31 | 6 => 30
  | 7 => 31 | 8 => 31 | 9 => 30 | 10 => 31 | 11 => 30 | 12 => 31
  | _ => -1
  end.

Definition _DAYS_BEFORE_MONTH (m : Z) : Z :=
  match m with
  | 1 => 0 | 2 => 31 | 3 => 59 | 4 => 90 | 5 => 120 | 6 => 151
  | 7 => 181 | 8 => 212 | 9 => 243 | 10 => 273 | 11 => 304 | 12 => 334
  | _ => -1
  end.

Definition _days_before_year (y : Z) : Z :=
  let y := y - 1 in y * 365 + y / 4 - y / 100 + y / 400.

Definition _days_in_month (y m : Z) : Z :=
  if (m =? 2) && _is_leap y then 29 else _DAYS_IN_MONTH m.

Definition _days_before_month (y m : Z) : Z :=
  _DAYS_BEFORE_MONTH m + (if (2 <? m) && _is_leap y then 1 else 0).

Definition _ymd2ord (y m d : Z) : Z :=
  _days_before_year y + _days_before_month y m + d.

Definition _DI400Y : Z := 146097.
Definition _DI100Y : Z := 36524.
Definition _DI4Y : Z := 1461.
Definition _MAXORDINAL : Z := 3652059.

Definition _ord2ymd (n : Z) : Z * Z * Z :=
  let n := n - 1 in
  let n400 := n / _DI400Y in
  let n := n mod _DI400Y in
  let y := n400 * 400 + 1 in
  let n100 := n / _DI100Y in
  let n := n mod _DI100Y in
  let n4 := n / _DI4Y in
  let n := n mod _DI4Y in
  let n1 := n / 365 in
  let n := n mod 365 in
  let y := y + (n100 * 100 + n4 * 4 + n1) in
  if (n1 =? 4) || (n100 =? 4) then (y - 1, 12, 31)
  else
    let leapyear := (n1 =? 3) && (negb (n4 =? 24) || (n100 =? 3)) in
    let m := Z.shiftr (n + 50) 5 in
    let preceding :=
      _DAYS_BEFORE_MONTH m + (if (2 <? m) && leapyear then 1 else 0) in
    if n <? preceding
    then
      let m := m - 1 in
      let preceding :=
        preceding - (_DAYS_IN_MONTH m + (if (m =? 2) && leapyear then 1 else 0)) in
      (y, m, n - preceding + 1)
    else (y, m, n - preceding + 1).

(** The last steps of [_ord2ymd]: month and day of the zero-based day [n]
    of a year. *)
Definition month_day (n : Z) (leapyear : bool) : Z * Z :=
  let m := Z.shiftr (n + 50) 5 in
  let preceding := _DAYS_BEFORE_MONTH m + (if (2 <? m) && leapyear then 1 else 0) in
  if n <? preceding
  then
    let m := m - 1 in
    let preceding :=
      preceding - (_DAYS_IN_MONTH m + (if (m =? 2) && leapyear then 1 else 0)) in
    (m, n - preceding + 1)
  else (m, n - preceding + 1).

Definition NS_PER_DAY : Z := 86400 * 1000000000.

(** The range checks of the [datetime] constructor. *)
Definition valid_date (d : datetime) : Prop :=
  1 <= year d <= 9999 /\ 1 <= month d <= 12 /\
  1 <= day d <= _days_in_month (year d) (month d) /\
  0 <= tod d < NS_PER_DAY.

(** [datetime(y, m, d)]: midnight of the given day; [ValueError] when a
    field is out of range. *)
Definition datetime_new (y m d : Z) : result datetime :=
  if (1 <=? y) && (y <=? 9999) && (1 <=? m) && (m <=? 12) &&
     (1 <=? d) && (d <=? _days_in_month y m)
  then Ok (mk_datetime y m d 0)
  else Raise ValueError.

Definition toordinal (d : datetime) : Z := _ymd2ord (year d) (month d) (day d).

(** [d - timedelta(days=n)]: the time of day is kept, the day moves back [n]
    ordinals; [OverflowError] when the result leaves [1 .. _MAXORDINAL].
    (A pandas [Timestamp] has a narrower range, 1677 to 2262; the range of
    [datetime] is used for both.) *)
Definition sub_days (d : datetime) (n : Z) : result datetime :=
  let o := toordinal d - n in
  if (0 <? o) && (o <=? _MAXORDINAL)
  then let '(y, m, dd) := _ord2ymd o in Ok (mk_datetime y m dd (tod d))
  else Raise OverflowError.

(** Chronological order, as [<=] and [>=] compare datetimes. *)
Definition dt_leb (a b : datetime) : bool :=
  if year a =? year b then
    if month a =? month b then
      if day a =? day b then tod a <=? tod b
      else day a <? day b
    else month a <? month b
  else year a <? year b.

(** Specification: [a] is not later than [b]. *)
Definition dt_le (a b : datetime) : Prop :=
  year a < year b \/
  (year a = year b /\
   (month a < month b \/
    (month a = month b /\
     (day a < day b \/ (day a = day b /\ tod a <= tod b))))).

(** ** [get_fiscal_year] *)

Definition get_fiscal_year (date : datetime) : string :=
  let '(fy_start, fy_end) :=
    if 4 <=? month date
    then (year date, year date + 1)
    else (year date - 1, year date) in
  ("FY " ++ py_str fy_start ++ "-" ++ last_two (py_str fy_end))%string.

(** ** [get_ytd_date_range] *)

Definition get_ytd_date_range (as_of_date : datetime) : result (datetime * datetime) :=
  rbind (if 4 <=? month as_of_date
         then datetime_new (year as_of_date) 4 1
         else datetime_new (year as_of_date - 1) 4 1)
        (fun fiscal_year_start => Ok (fiscal_year_start, as_of_date)).


(** ** Numeric columns *)

(** What aggregation needs from a numeric dtype: the additive identity, the
    addition and the subtraction of the dtype, and the test for a missing
    value (NaN). *)
Class Numeric (V : Type) := {
  zero : V;
  add : V -> V -> V;
  sub : V -> V -> V;
  isna : V -> bool
}.

(** IEEE 754 binary64, the dtype [float64]. *)
Definition float64 : Type := spec_float.

Definition b64_add : float64 -> float64 -> float64 := SFadd 53 1024.
Definition b64_sub : float64 -> float64 -> float64 := SFsub 53 1024.
Definition b64_mul : float64 -> float64 -> float64 := SFmul 53 1024.
Definition b64_div : float64 -> float64 -> float64 := SFdiv 53 1024.
Definition b64_abs : float64 -> float64 := SFabs.
Definition b64_ltb : float64 -> float64 -> bool := SFltb.
Definition b64_of_Z (z : Z) : float64 := binary_normalize 53 1024 z 0 false.
Definition b64_zero : float64 := S754_zero false.
Definition b64_isnan (x : float64) : bool :=
  match x with S754_nan => true | _ => false end.

#[export] Instance float64_numeric : Numeric float64 :=
  {| zero := b64_zero; add := b64_add; sub := b64_sub; isna := b64_isnan |}.

(** The dtype [int64]: 64-bit two's-complement integers, whose arithmetic
    wraps around; an [int64] column has no missing value. *)
Definition wrap64 (z : Z) : Z := (z + 2 ^ 63) mod 2 ^ 64 - 2 ^ 63.

#[export] Instance int64_numeric : Numeric Z :=
  {| zero := 0;
     add := fun a b => wrap64 (a + b);
     sub := fun a b => wrap64 (a - b);
     isna := fun _ => false |}.

(** Specification: the sum of whole numbers, and the sum of their absolute
    values. *)
Fixpoint exact_sum (l : list Z) : Z :=
  match l with
  | [] => 0
  | z :: l => z + exact_sum l
  end.

Fixpoint abs_sum (l : list Z) : Z :=
  match l with
  | [] => 0
  | z :: l => Z.abs z + abs_sum l
  end.

(** ** Timestamps and sales records *)

(** A cell of a datetime column: a datetime or the missing value [NaT]. *)
Inductive timestamp :=
  | NaT
  | TS (t : datetime).

Module Sales.
(** One row of the sales frame, as the filters and group-bys see it. *)
Record row (V : Type) := mk {
  date : timestamp;
  product_name : option string;
  sales_amount : V;
  quantity : V
}.
Arguments mk {V} _ _ _ _.
Arguments date {V} _.
Arguments product_name {V} _.
Arguments sales_amount {V} _.
Arguments quantity {V} _.
End Sales.

(** Per-period totals of one product. *)
Record PeriodTotals (V : Type) := mk_totals {
  ytd_sales : V;
  ytd_quantity : V;
  pytd_sales : V;
  pytd_quantity : V;
  p1ytd_sales : V;
  p1ytd_quantity : V
}.
Arguments mk_totals {V} _ _ _ _ _ _.
Arguments ytd_sales {V} _.
Arguments ytd_quantity {V} _.
Arguments pytd_sales {V} _.
Arguments pytd_quantity {V} _.
Arguments p1ytd_sales {V} _.
Arguments p1ytd_quantity {V} _.

(** One row of the frame returned by [calculate_ytd_metrics]. *)
Record ProductMetrics (V : Type) := mk_metrics {
  product_name : string;
  totals : PeriodTotals V;
  as_of_date : datetime;
  fiscal_year : string
}.
Arguments mk_metrics {V} _ _ _ _.
Arguments product_name {V} _.
Arguments totals {V} _.
Arguments as_of_date {V} _.
Arguments fiscal_year {V} _.

(** ** Group-by with sums *)

Section GroupBy.
Context {K : Type} `{EqDecision K}.
Context (le : K -> K -> Prop) `{forall x y, Decision (le x y)}.
Context {V : Type} `{Numeric V}.

(** [sum] of a group is pandas' [group_sum]: missing values are skipped and
    the others are added in row order by a compensated (Kahan) summation.
    For each value [val] the loop computes

      y = val - compensation;  t = sumx + y;
      compensation = t - sumx - y;  sumx = t

    and resets a compensation that is not a number (which an infinite [val]
    gives) to zero. Both start at zero, so the sum of no value is zero. *)
Definition group_sum_step (acc : V * V) (val : V) : V * V :=
  let '(sumx, compensation) := acc in
  let y := sub val compensation in
  let t := add sumx y in
  let compensation := sub (sub t sumx) y in
  (t, if isna compensation then zero else compensation).

Definition group_sum (l : list V) : V :=
  fst (fold_left group_sum_step (List.filter (fun v => negb (isna v)) l) (zero, zero)).

(** The group keys: rows whose key is missing are dropped, every key occurs
    once, keys are sorted. *)
Definition group_keys (ks : list (option K)) : list K :=
  merge_sort le (remove_dups (omap id ks)).

Definition group_rows (k : K) (rows : list (option K * (V * V))) : list (V * V) :=
  map snd (List.filter (fun r => bool_decide (fst r = Some k)) rows).

(** [groupby(key).agg({a: 'sum', b: 'sum'}).reset_index()] *)
Definition groupby_sum (rows : list (option K * (V * V))) : list (K * (V * V)) :=
  map (fun k =>
         let g := group_rows k rows in
         (k, (group_sum (map fst g), group_sum (map snd g))))
      (group_keys (map fst rows)).
End GroupBy.

(** ** Period filter and per-product aggregation *)

Section Core.
Context {V : Type} `{Numeric V}.

(** [(df['date'] >= start) & (df['date'] <= end)]: a comparison with [NaT]
    is false. *)
Definition in_period (start end_ : datetime) (r : Sales.row V) : bool :=
  match Sales.date r with
  | TS t => dt_leb start t && dt_leb t end_
  | NaT => false
  end.

Definition sales_key_values (r : Sales.row V) : option string * (V * V) :=
  (Sales.product_name r, (Sales.sales_amount r, Sales.quantity r)).

(** One of the three [..._summary] frames: the filtered rows grouped by
    product with summed amount and quantity. *)
Definition aggregate (records : list (Sales.row V)) (start end_ : datetime)
  : list (string * (V * V)) :=
  groupby_sum String.le (map sales_key_values (List.filter (in_period start end_) records)).

(** ** Outer merge on [product_name] *)

Definition rows_of_key {A} (k : string) (l : list (string * A)) : list A :=
  map snd (List.filter (fun r => bool_decide (fst r = k)) l).

(** The rows of one key in an outer merge: the pairs of left and right
    rows, a missing side being null. *)
Definition merge_key {A B} (k : string) (ls : list A) (rs : list B)
  : list (string * (option A * option B)) :=
  match ls, rs with
  | [], rs => map (fun r => (k, (None, Some r))) rs
  | ls, [] => map (fun l => (k, (Some l, None))) ls
  | ls, rs => flat_map (fun l => map (fun r => (k, (Some l, Some r))) rs) ls
  end.

(** [left.merge(right, on='product_name', how='outer')]: the keys of both
    sides, sorted, each with its rows. *)
Definition outer_merge {A B} (left : list (string * A)) (right : list (string * B))
  : list (string * (option A * option B)) :=
  flat_map (fun k => merge_key k (rows_of_key k left) (rows_of_key k right))
           (merge_sort String.le (remove_dups (map fst left ++ map fst right))).

(** [fillna(0)] on one numeric cell. *)
Definition fillna0 (o : option V) : V :=
  match o with
  | Some v => if isna v then zero else v
  | None => zero
  end.

(** Lines 119-127: both merges, [fillna(0)], and the two scalar columns. *)
Definition assemble (ytd_summary pytd_summary p1ytd_summary : list (string * (V * V)))
  (as_of : datetime) (current_fy : string) : list (ProductMetrics V) :=
  let metrics := outer_merge ytd_summary pytd_summary in
  let metrics := outer_merge metrics p1ytd_summary in
  map (fun '(k, (yp, p1)) =>
         let ytd := match yp with Some (y, _) => y | None => None end in
         let pytd := match yp with Some (_, p) => p | None => None end in
         mk_metrics k
           (mk_totals (fillna0 (option_map fst ytd)) (fillna0 (option_map snd ytd))
                      (fillna0 (option_map fst pytd)) (fillna0 (option_map snd pytd))
                      (fillna0 (option_map fst p1)) (fillna0 (option_map snd p1)))
           as_of current_fy)
      metrics.
End Core.

(** Specification: the totals that a summary holds for a product, zero when
    the product has no row. *)
Definition summary_row {V} (summary : list (string * (V * V))) (p : string)
  : option (string * (V * V)) :=
  List.find (fun r => bool_decide (fst r = p)) summary.

Definition summary_sales {V} `{Numeric V} (summary : list (string * (V * V)))
  (p : string) : V :=
  match summary_row summary p with
  | Some r => fst (snd r)
  | None => zero
  end.

Definition summary_quantity {V} `{Numeric V} (summary : list (string * (V * V)))
  (p : string) : V :=
  match summary_row summary p with
  | Some r => snd (snd r)
  | None => zero
  end.

(** ** The three comparison windows *)

Record Windows := mk_windows {
  ytd_start : datetime;   ytd_end : datetime;
  pytd_start : datetime;  pytd_end : datetime;
  p1ytd_start : datetime; p1ytd_end : datetime
}.

(** Lines 79-87 of [calculate_ytd_metrics]. *)
Definition period_windows (as_of_date : datetime) : result Windows :=
  let* range := get_ytd_date_range as_of_date in
  let '(ytd_start, ytd_end) := range in
  let* pytd_start := sub_days ytd_start 365 in
  let* pytd_end := sub_days ytd_end 365 in
  let* p1ytd_start := sub_days ytd_start 730 in
  let* p1ytd_end := sub_days ytd_end 730 in
  Ok (mk_windows ytd_start ytd_end pytd_start pytd_end p1ytd_start p1ytd_end).

(** Lines 95-127: the rows of the returned frame, from the rows of the sales
    frame and the windows. *)
Definition metrics_rows {V} `{Numeric V} (records : list (Sales.row V))
  (w : Windows) (as_of : datetime) (current_fy : string) : list (ProductMetrics V) :=
  let ytd_summary := aggregate records (ytd_start w) (ytd_end w) in
  let pytd_summary := aggregate records (pytd_start w) (pytd_end w) in
  let p1ytd_summary := aggregate records (p1ytd_start w) (p1ytd_end w) in
  assemble ytd_summary pytd_summary p1ytd_summary as_of current_fy.

(** [df['date'].max()]: the latest datetime of the column, [NaT] being
    skipped; [NaT] when there is none. *)
Definition ts_max (l : list timestamp) : timestamp :=
  fold_left (fun acc t =>
               match acc, t with
               | NaT, _ => t
               | _, NaT => acc
               | TS a, TS b => if dt_leb a b then TS b else TS a
               end) l NaT.

(** ** [calculate_deltas], cell by cell *)

(** [.replace([float('inf'), -float('inf')], 0)] on one cell. *)
Definition replace_inf (x : float64) : float64 :=
  match x with
  | S754_infinity _ => b64_zero
  | _ => x
  end.

(** The cell of a growth column: [((a - b) / b * 100)] with infinities
    replaced. *)
Definition growth_pct (a b : float64) : float64 :=
  replace_inf (b64_mul (b64_div (b64_sub a b) b) (b64_of_Z 100)).

(** [lambda x: 'Growing' if x > 0 else ('Declining' if x < 0 else 'Stable')] *)
Definition classify (x : float64) : string :=
  if b64_ltb b64_zero x then "Growing"
  else if b64_ltb x b64_zero then "Declining"
  else "Stable".

(** ** DataFrames *)

Inductive column :=
  | ColStr (l : list (option string))
  | ColTime (l : list timestamp)
  | ColNum (l : list float64)
  | ColPeriod (l : list (option (Z * Z))).

(** The columns in order; pandas allows two columns of one name. *)
Definition DataFrame : Type := list (string * column).

Definition named (name : string) (c : string * column) : bool :=
  String.eqb (fst c) name.

(** [df[name]] read as a Series: [KeyError] when there is no such column;
    with several columns of that name the value is a frame, which each use in
    this module rejects with [ValueError]. *)
Definition getitem (df : DataFrame) (name : string) : result column :=
  match List.filter (named name) df with
  | [] => Raise KeyError
  | [c] => Ok (snd c)
  | _ => Raise ValueError
  end.

(** [df[name] = c]: replaces the column in place, or appends it. *)
Definition setitem (df : DataFrame) (name : string) (c : column) : DataFrame :=
  if existsb (named name) df
  then map (fun x => if named name x then (name, c) else x) df
  else df ++ [(name, c)].

(** [df.rename(columns={old: new})] *)
Definition rename (df : DataFrame) (old new : string) : DataFrame :=
  map (fun x => if named old x then (new, snd x) else x) df.

(** A column expression, evaluated against a frame. *)
Definition expr : Type := DataFrame -> result column.

Definition col (name : string) : expr := fun df => getitem df name.

Definition lift2 (f : column -> column -> result column) (a b : expr) : expr :=
  fun df => let* x := a df in let* y := b df in f x y.

Definition lift1 (f : column -> result column) (a : expr) : expr :=
  fun df => let* x := a df in f x.

(** Element-wise arithmetic of two numeric columns of one frame. *)
Definition col_binop (f : float64 -> float64 -> float64) (a b : column) : result column :=
  match a, b with
  | ColNum x, ColNum y => Ok (ColNum (zip_with f x y))
  | _, _ => Raise TypeError
  end.

Definition col_map (f : float64 -> float64) (a : column) : result column :=
  match a with
  | ColNum x => Ok (ColNum (map f x))
  | _ => Raise TypeError
  end.

Definition col_classify (a : column) : result column :=
  match a with
  | ColNum x => Ok (ColStr (map (fun v => Some (classify v)) x))
  | _ => Raise TypeError
  end.

Definition e_sub : expr -> expr -> expr := lift2 (col_binop b64_sub).
Definition e_div : expr -> expr -> expr := lift2 (col_binop b64_div).
Definition e_times (k : Z) : expr -> expr := lift1 (col_map (fun v => b64_mul v (b64_of_Z k))).
Definition e_replace_inf : expr -> expr := lift1 (col_map replace_inf).
Definition e_abs : expr -> expr := lift1 (col_map b64_abs).
Definition e_classify : expr -> expr := lift1 col_classify.

(** [df[name] = e] on a frame value. *)
Definition assign_frame (df : DataFrame) (name : string) (e : expr) : result DataFrame :=
  let* c := e df in Ok (setitem df name c).

(** Lines 144-163, applied to the copy [df]. *)
Definition deltas_frame (df : DataFrame) : result DataFrame :=
  let* df := assign_frame df "delta_ytd_pytd" (e_sub (col "ytd_sales") (col "pytd_sales")) in
  let* df := assign_frame df "delta_ytd_p1ytd" (e_sub (col "ytd_sales") (col "p1ytd_sales")) in
  let* df := assign_frame df "delta_pytd_p1ytd" (e_sub (col "pytd_sales") (col "p1ytd_sales")) in
  let* df := assign_frame df "growth_ytd_vs_pytd_pct"
    (e_replace_inf (e_times 100 (e_div (e_sub (col "ytd_sales") (col "pytd_sales")) (col "pytd_sales")))) in
  let* df := assign_frame df "growth_ytd_vs_p1ytd_pct"
    (e_replace_inf (e_times 100 (e_div (e_sub (col "ytd_sales") (col "p1ytd_sales")) (col "p1ytd_sales")))) in
  let* df := assign_frame df "qty_delta_ytd_pytd" (e_sub (col "ytd_quantity") (col "pytd_quantity")) in
  let* df := assign_frame df "qty_delta_ytd_p1ytd" (e_sub (col "ytd_quantity") (col "p1ytd_quantity")) in
  let* df := assign_frame df "abs_delta_ytd_pytd" (e_abs (col "delta_ytd_pytd")) in
  let* df := assign_frame df "performance" (e_classify (col "delta_ytd_pytd")) in
  Ok df.

(** ** The store of frames *)

Abbreviation store := (list DataFrame).

(** A computation on the store; an exception leaves the writes made before
    it in place. *)
Definition M (A : Type) : Type := store -> store * result A.

Definition ret {A} (a : A) : M A := fun s => (s, Ok a).

Definition bind {A B} (m : M A) (k : A -> M B) : M B :=
  fun s =>
    match m s with
    | (s', Ok a) => k a s'
    | (s', Raise e) => (s', Raise e)
    end.

Notation "'let!' x := c1 'in' c2" := (bind c1 (fun x => c2))
  (at level 10, x name, c1 at level 100, c2 at level 200).

Definition lift {A} (r : result A) : M A := fun s => (s, r).

Definition read (l : nat) : M DataFrame :=
  fun s =>
    match s !! l with
    | Some df => (s, Ok df)
    | None => (s, Raise ReferenceError)
    end.

Definition write (l : nat) (df : DataFrame) : M unit :=
  fun s => (<[l := df]> s, Ok tt).

(** A new frame object. *)
Definition alloc (df : DataFrame) : M nat :=
  fun s => (s ++ [df], Ok (length s)).

(** [df.copy()] *)
Definition copy (l : nat) : M nat :=
  let! df := read l in alloc df.

(** [df[name] = e], on the frame object at [l]. *)
Definition assign (l : nat) (name : string) (e : expr) : M unit :=
  let! df := read l in
  let! df' := lift (assign_frame df name e) in
  write l df'.

(** Specification: [keeps n m post] says that, run on a store of at least
    [n] frames, [m] leaves the first [n] frames as they are, removes no
    frame, and its value satisfies [post]. *)
Definition keeps {A} (n : nat) (m : M A) (post : A -> Prop) : Prop :=
  forall s : store,
    (n <= length s)%nat ->
    take n (fst (m s)) = take n s /\
    (length s <= length (fst (m s)))%nat /\
    forall a, snd (m s) = Ok a -> post a.

(** Specification: two frames with the same columns under every name outside
    [names]. *)
Definition same_except (names : list string) (frame frame' : DataFrame) : Prop :=
  forall name c, name ∉ names -> In (name, c) frame' <-> In (name, c) frame.

(** Specification: [touches df names m] says that, of the frames that exist
    before the call, [m] changes only the one at [df], and in it only columns named in [names]. *)
Definition touches {A} (df : nat) (names : list string) (m : M A) : Prop :=
  forall (s : store) frame,
    s !! df = Some frame ->
    exists frame' tail,
      fst (m s) = <[df := frame']> s ++ tail /\ same_except names frame frame'.

(** ** [calculate_deltas] *)

Definition calculate_deltas (metrics : nat) : M nat :=
  let! df := copy metrics in
  let! frame := read df in
  let! frame' := lift (deltas_frame frame) in
  let! _ := write df frame' in
  ret df.

(** ** Reading the sales frame *)

Definition str_col (df : DataFrame) (name : string) : result (list (option string)) :=
  let* c := getitem df name in
  match c with ColStr l => Ok l | _ => Raise TypeError end.

Definition num_col (df : DataFrame) (name : string) : result (list float64) :=
  let* c := getitem df name in
  match c with ColNum l => Ok l | _ => Raise TypeError end.

Definition time_col (df : DataFrame) (name : string) : result (list timestamp) :=
  let* c := getitem df name in
  match c with ColTime l => Ok l | _ => Raise TypeError end.

Definition period_col (df : DataFrame) (name : string) : result (list (option (Z * Z))) :=
  let* c := getitem df name in
  match c with ColPeriod l => Ok l | _ => Raise TypeError end.

(** The rows that the filters, [groupby('product_name')] and the two sums
    read: the key column first, then the summed columns. The documented
    input has a [str] key and numeric amounts; another dtype is rejected. *)
Definition sales_records (df : DataFrame) : result (list (Sales.row float64)) :=
  let* dates := time_col df "date" in
  let* names := str_col df "product_name" in
  let* amounts := num_col df "sales_amount" in
  let* quantities := num_col df "quantity" in
  Ok (zip_with (fun dn aq => Sales.mk (fst dn) (snd dn) (fst aq) (snd aq))
               (zip dates names) (zip amounts quantities)).

(** The frame returned by [calculate_ytd_metrics]. *)
Definition metrics_frame (rows : list (ProductMetrics float64)) : DataFrame :=
  [ ("product_name", ColStr (map (fun r => Some (product_name r)) rows));
    ("ytd_sales", ColNum (map (fun r => ytd_sales (totals r)) rows));
    ("ytd_quantity", ColNum (map (fun r => ytd_quantity (totals r)) rows));
    ("pytd_sales", ColNum (map (fun r => pytd_sales (totals r)) rows));
    ("pytd_quantity", ColNum (map (fun r => pytd_quantity (totals r)) rows));
    ("p1ytd_sales", ColNum (map (fun r => p1ytd_sales (totals r)) rows));
    ("p1ytd_quantity", ColNum (map (fun r => p1ytd_quantity (totals r)) rows));
    ("as_of_date", ColTime (map (fun r => TS (as_of_date r)) rows));
    ("fiscal_year", ColStr (map (fun r => Some (fiscal_year r)) rows)) ].

(** ** Monthly keys *)

(** A group key of [get_monthly_trends]: the month as (year, month), the
    fiscal-year label, the product. *)
Definition MonthKey : Type := (Z * Z) * string * string.

Definition lex (c1 c2 : comparison) : comparison :=
  match c1 with Eq => c2 | _ => c1 end.

Definition month_key_compare (a b : MonthKey) : comparison :=
  let '((ya, ma), fa, na) := a in
  let '((yb, mb), fb, nb) := b in
  lex (ya ?= yb) (lex (ma ?= mb) (lex (String.compare fa fb) (String.compare na nb))).

Definition month_key_le (a b : MonthKey) : Prop :=
  match month_key_compare a b with Gt => False | _ => True end.

#[export] Instance month_key_le_dec (a b : MonthKey) : Decision (month_key_le a b).
Proof. unfold month_key_le. destruct (month_key_compare a b); apply _. Defined.

(** [get_fiscal_year] applied to a cell of a datetime column. The fields of
    [NaT] are NaN: the comparison [month >= 4] is false, and both years
    print as [nan]. *)
Definition fiscal_year_of_cell (t : timestamp) : string :=
  match t with
  | TS d => get_fiscal_year d
  | NaT => "FY nan-an"
  end.

Definition to_period_M (c : column) : result column :=
  match c with
  | ColTime l =>
      Ok (ColPeriod (map (fun t => match t with
                                   | TS d => Some (year d, month d)
                                   | NaT => None
                                   end) l))
  | _ => Raise AttributeError
  end.

Definition apply_get_fiscal_year (c : column) : result column :=
  match c with
  | ColTime l => Ok (ColStr (map (fun t => Some (fiscal_year_of_cell t)) l))
  | _ => Raise TypeError
  end.

(** The rows that the three-key group-by of [get_monthly_trends] reads. *)
Definition monthly_records (df : DataFrame)
  : result (list (option MonthKey * (float64 * float64))) :=
  let* months := period_col df "year_month" in
  let* years := str_col df "fiscal_year" in
  let* names := str_col df "product_name" in
  let* amounts := num_col df "sales_amount" in
  let* quantities := num_col df "quantity" in
  Ok (zip_with (fun k aq => (k, aq))
        (zip_with (fun my n =>
                     match fst my, snd my, n with
                     | Some ym, Some fy, Some p => Some (ym, fy, p)
                     | _, _, _ => None
                     end)
                  (zip months years) names)
        (zip amounts quantities)).

(** The returned frame, [year_month] converted back with [to_timestamp]. *)
Definition monthly_frame (rows : list (MonthKey * (float64 * float64))) : DataFrame :=
  [ ("year_month",
     ColTime (map (fun r => TS (mk_datetime (fst (fst (fst (fst r)))) (snd (fst (fst (fst r)))) 1 0)) rows));
    ("fiscal_year", ColStr (map (fun r => Some (snd (fst (fst r)))) rows));
    ("product_name", ColStr (map (fun r => Some (snd (fst r))) rows));
    ("sales_amount", ColNum (map (fun r => fst (snd r)) rows));
    ("quantity", ColNum (map (fun r => snd (snd r)) rows)) ].

(** [series.map(d)] for a dict [d] with [str] keys. *)
Definition map_dict (d : gmap string string) (c : column) : result column :=
  match c with
  | ColStr l => Ok (ColStr (map (fun o => match o with
                                          | Some s => d !! s
                                          | None => None
                                          end) l))
  | ColTime l => Ok (ColStr (map (fun _ => None) l))
  | ColNum l => Ok (ColStr (map (fun _ => None) l))
  | ColPeriod l => Ok (ColStr (map (fun _ => None) l))
  end.

(** Lines 72-73. With an all-[NaT] (or empty) column the maximum is [NaT],
    whose [year] is NaN, and [datetime(nan, 4, 1)] in
    [get_ytd_date_range] raises [TypeError]. *)
Definition resolve_as_of (dates : list timestamp) (as_of_date : option datetime)
  : result datetime :=
  match as_of_date with
  | Some a => Ok a
  | None =>
      match ts_max dates with
      | TS a => Ok a
      | NaT => Raise TypeError
      end
  end.

(** Lines 72-127: the returned frame, computed from the sales frame whose
    date column has been converted. The four [print] calls of lines 89-92
    only format values already computed and are left out. *)
Definition metrics_of_frame (frame : DataFrame) (as_of_date : option datetime)
  : result DataFrame :=
  let* dates := time_col frame "date" in
  let* as_of := resolve_as_of dates as_of_date in
  let current_fy := get_fiscal_year as_of in
  let* w := period_windows as_of in
  let* records := sales_records frame in
  Ok (metrics_frame (metrics_rows records w as_of current_fy)).

(** The frame returned by [get_monthly_trends], computed from the sales frame
    with its two added columns. *)
Definition monthly_of_frame (frame : DataFrame) : result DataFrame :=
  let* records := monthly_records frame in
  Ok (monthly_frame (groupby_sum month_key_le records)).

(** ** The functions that take the sales frame *)

Section Pipeline.
(** [pd.to_datetime] on one string and on one number (epoch offset); [None]
    when the library rejects the value. *)
Variable parse_date : string -> option timestamp.
Variable from_epoch : float64 -> option timestamp.

(** [pd.to_datetime(series)], with the default [errors='raise']. *)
Definition to_datetime (c : column) : result column :=
  match c with
  | ColTime l => Ok (ColTime l)
  | ColStr l =>
      let* ts := rmap (fun o =>
                         match o with
                         | None => Ok NaT
                         | Some s =>
                             match parse_date s with
                             | Some t => Ok t
                             | None => Raise ValueError
                             end
                         end) l in
      Ok (ColTime ts)
  | ColNum l =>
      let* ts := rmap (fun v =>
                         match from_epoch v with
                         | Some t => Ok t
                         | None => Raise ValueError
                         end) l in
      Ok (ColTime ts)
  | ColPeriod _ => Raise TypeError
  end.

Definition calculate_ytd_metrics (df : nat) (as_of_date : option datetime) : M nat :=
  let! _ := assign df "date" (lift1 to_datetime (col "date")) in
  let! frame := read df in
  let! metrics := lift (metrics_of_frame frame as_of_date) in
  alloc metrics.

Definition get_monthly_trends (df : nat) : M nat :=
  let! _ := assign df "date" (lift1 to_datetime (col "date")) in
  let! _ := assign df "year_month" (lift1 to_period_M (col "date")) in
  let! _ := assign df "fiscal_year" (lift1 apply_get_fiscal_year (col "date")) in
  let! frame := read df in
  let! monthly := lift (monthly_of_frame frame) in
  alloc monthly.

Definition get_category_performance (df : nat) (product_category_map : gmap string string)
  : M nat :=
  let! df_with_cat := copy df in
  let! _ := assign df_with_cat "category"
              (lift1 (map_dict product_category_map) (col "product_name")) in
  let! frame := read df_with_cat in
  let! renamed := alloc (rename frame "category" "product_name") in
  let! metrics := calculate_ytd_metrics renamed None in
  let! metrics := calculate_deltas metrics in
  let! frame := read metrics in
  alloc (rename frame "product_name" "category").
End Pipeline.

(** ** Vocabulary of the further properties *)

(** Specification: the calendar year in which the fiscal year of a date
    starts. *)
Definition fiscal_start_year (d : datetime) : Z :=
  if 4 <=? month d then year d else year d - 1.

(** Specification: a string of decimal digits. *)
Definition is_digit (c : ascii) : bool :=
  (48 <=? nat_of_ascii c)%nat && (nat_of_ascii c <=? 57)%nat.

Fixpoint all_digits (s : string) : bool :=
  match s with
  | EmptyString => true
  | String c s' => is_digit c && all_digits s'
  end.

(** Specification: the names of the nine columns that [calculate_deltas]
    writes, in the order of its assignments. *)
Definition delta_columns : list string :=
  ["delta_ytd_pytd"; "delta_ytd_p1ytd"; "delta_pytd_p1ytd";
   "growth_ytd_vs_pytd_pct"; "growth_ytd_vs_p1ytd_pct";
   "qty_delta_ytd_pytd"; "qty_delta_ytd_p1ytd"; "abs_delta_ytd_pytd"; "performance"].

(** Specification: a frame with the nine columns assigned from the six
    columns of totals, each cell computed from the cells of its own row. *)
Definition with_deltas (df : DataFrame)
  (ytd pytd p1ytd ytd_q pytd_q p1ytd_q : list float64) : DataFrame :=
  let df := setitem df "delta_ytd_pytd" (ColNum (zip_with b64_sub ytd pytd)) in
  let df := setitem df "delta_ytd_p1ytd" (ColNum (zip_with b64_sub ytd p1ytd)) in
  let df := setitem df "delta_pytd_p1ytd" (ColNum (zip_with b64_sub pytd p1ytd)) in
  let df := setitem df "growth_ytd_vs_pytd_pct" (ColNum (zip_with growth_pct ytd pytd)) in
  let df := setitem df "growth_ytd_vs_p1ytd_pct" (ColNum (zip_with growth_pct ytd p1ytd)) in
  let df := setitem df "qty_delta_ytd_pytd" (ColNum (zip_with b64_sub ytd_q pytd_q)) in
  let df := setitem df "qty_delta_ytd_p1ytd" (ColNum (zip_with b64_sub ytd_q p1ytd_q)) in
  let df := setitem df "abs_delta_ytd_pytd"
              (ColNum (map b64_abs (zip_with b64_sub ytd pytd))) in
  setitem df "performance"
    (ColStr (map (fun x => Some (classify x)) (zip_with b64_sub ytd pytd))).

(** The six columns of totals that [calculate_deltas] reads. *)
Definition total_columns : list string :=
  ["ytd_sales"; "pytd_sales"; "p1ytd_sales";
   "ytd_quantity"; "pytd_quantity"; "p1ytd_quantity"].
(** * Properties *)

(** ** Decimal numerals *)

Lemma string_app_assoc (a b c : string) :
  ((a ++ b) ++ c = a ++ (b ++ c))%string.
Proof.
  induction a as [|x a IH]; [reflexivity|].
  change (String x ((a ++ b) ++ c) = String x (a ++ (b ++ c)))%string.
  now rewrite IH.
Qed.

Lemma string_length_app (a b : string) :
  String.length (a ++ b) = (String.length a + String.length b)%nat.
Proof.
  induction a as [|x a IH]; [reflexivity|].
  change (S (String.length (a ++ b)) = S (String.length a + String.length b)).
  now rewrite IH.
Qed.

Lemma str_digits_acc (fuel : nat) (n : Z) (acc : string) :
  str_digits fuel n acc = (str_digits fuel n EmptyString ++ acc)%string.
Proof.
  revert n acc. induction fuel as [|fuel IH]; intros n acc; [reflexivity|].
  cbn [str_digits]. destruct (n <? 10); [reflexivity|].
  rewrite IH. rewrite (IH _ (String _ EmptyString)).
  now rewrite string_app_assoc.
Qed.

Lemma last_two_app (p : string) (a b : ascii) :
  last_two (p ++ String a (String b EmptyString)) = String a (String b EmptyString).
Proof.
  unfold last_two. rewrite string_length_app. cbn [String.length].
  replace (String.length p + 2 - 2)%nat with (String.length p) by lia.
  induction p as [|x p IH]; [reflexivity|]. exact IH.
Qed.

Lemma log2_div10 (n : Z) : 10 <= n -> Z.log2 (n / 10) < Z.log2 n.
Proof.
  intros Hn.
  assert (Hq : 0 < n / 10) by (Z.to_euclidean_division_equations; lia).
  assert (Hle : 2 * (n / 10) <= n) by (Z.to_euclidean_division_equations; lia).
  apply Z.log2_le_mono in Hle. rewrite Z.log2_double in Hle by lia. lia.
Qed.

Lemma last_two_py_str (n : Z) : 0 <= n -> last_two (py_str n) = last_two_digits n.
Proof.
  intros Hn. unfold py_str, last_two_digits.
  destruct (Z.ltb_spec n 0) as [?|_]; [lia|].
  cbn [str_digits]. destruct (Z.ltb_spec n 10) as [Hlt|Hge].
  - rewrite Z.mod_small by lia. reflexivity.
  - assert (Hlog : 3 <= Z.log2 n).
    { change 3 with (Z.log2 10). apply Z.log2_le_mono. lia. }
    destruct (Z.to_nat (Z.log2 n)) as [|fuel] eqn:E; [lia|].
    cbn [str_digits]. destruct (n / 10 <? 10); [reflexivity|].
    rewrite str_digits_acc. apply last_two_app.
Qed.

Lemma digit_value_char (d : Z) : 0 <= d < 10 -> digit_value (digit_char d) = d.
Proof.
  intros Hd. unfold digit_value, digit_char.
  rewrite nat_ascii_embedding by lia. lia.
Qed.

Lemma int_of_digits_app (a b : string) (acc : Z) :
  int_of_digits (a ++ b) acc = int_of_digits b (int_of_digits a acc).
Proof.
  revert acc. induction a as [|x a IH]; intros acc; [reflexivity|].
  change (int_of_digits (a ++ b) (10 * acc + digit_value x) =
          int_of_digits b (int_of_digits a (10 * acc + digit_value x))).
  apply IH.
Qed.

Lemma int_of_str_digits (fuel : nat) (n : Z) :
  0 <= n -> Z.log2 n < Z.of_nat fuel ->
  int_of_str (str_digits fuel n EmptyString) = n.
Proof.
  revert n. induction fuel as [|fuel IH]; intros n Hn Hfuel.
  - pose proof (Z.log2_nonneg n). lia.
  - cbn [str_digits]. destruct (Z.ltb_spec n 10) as [Hlt|Hge].
    + unfold int_of_str. cbn [int_of_digits].
      rewrite Z.mod_small, digit_value_char by lia. lia.
    + rewrite str_digits_acc. unfold int_of_str.
      rewrite int_of_digits_app. fold (int_of_str (str_digits fuel (n / 10) EmptyString)).
      rewrite IH.
      * cbn [int_of_digits]. rewrite digit_value_char.
        -- Z.to_euclidean_division_equations; lia.
        -- Z.to_euclidean_division_equations; lia.
      * Z.to_euclidean_division_equations; lia.
      * pose proof (log2_div10 n Hge). lia.
Qed.

(** [str] prints a natural number in full: reading the numeral back gives
    the number. *)
Lemma int_of_str_py_str (n : Z) : 0 <= n -> int_of_str (py_str n) = n.
Proof.
  intros Hn. unfold py_str. destruct (Z.ltb_spec n 0) as [?|_]; [lia|].
  apply int_of_str_digits; [assumption|].
  pose proof (Z.log2_nonneg n). lia.
Qed.

(** ** The fiscal year of a date *)

(** C2. For every valid date, [get_fiscal_year] returns the label of the
    fiscal year that starts in the previous calendar year when the month is
    January to March and in the date's own year when the month is April to
    December; the label is "FY ", the start year, a dash, and the last two
    digits of the following year. The function has no failure case. *)
Theorem get_fiscal_year_spec (d : datetime) :
  valid_date d ->
  (1 <= month d <= 3 -> get_fiscal_year d = fy_label (year d - 1)) /\
  (4 <= month d <= 12 -> get_fiscal_year d = fy_label (year d)).
Proof.
  intros (Hy & _). unfold get_fiscal_year, fy_label.
  split; intros Hm.
  - destruct (Z.leb_spec 4 (month d)) as [?|_]; [lia|].
    rewrite last_two_py_str by lia.
    now replace (year d - 1 + 1) with (year d) by lia.
  - destruct (Z.leb_spec 4 (month d)) as [_|?]; [|lia].
    now rewrite last_two_py_str by lia.
Qed.

Lemma get_fiscal_year_spec_witness :
  (1 <= 2 <= 3 -> get_fiscal_year (mk_datetime 2024 2 29 0) = fy_label 2023) /\
  (4 <= 2 <= 12 -> get_fiscal_year (mk_datetime 2024 2 29 0) = fy_label 2024).
Proof.
  apply (get_fiscal_year_spec (mk_datetime 2024 2 29 0)).
  repeat split; vm_compute; congruence.
Defined.

(** ** Calendar arithmetic *)

Lemma days_before_year_decomp (a b c d : Z) :
  0 <= b <= 3 -> 0 <= c <= 24 -> 0 <= d <= 3 ->
  _days_before_year (a * 400 + 1 + (b * 100 + c * 4 + d)) =
  a * 146097 + b * 36524 + c * 1461 + d * 365.
Proof.
  intros. unfold _days_before_year. cbv zeta.
  Z.to_euclidean_division_equations. lia.
Qed.

Lemma is_leap_decomp (a b c d : Z) :
  0 <= b <= 3 -> 0 <= c <= 24 -> 0 <= d <= 3 ->
  _is_leap (a * 400 + 1 + (b * 100 + c * 4 + d)) =
  (d =? 3) && (negb (c =? 24) || (b =? 3)).
Proof.
  intros. unfold _is_leap.
  destruct (Z.eqb_spec d 3), (Z.eqb_spec c 24), (Z.eqb_spec b 3);
  repeat match goal with |- context [?x =? ?y] => destruct (Z.eqb_spec x y) end; simpl; try reflexivity;
  exfalso; Z.to_euclidean_division_equations; lia.
Qed.

Lemma month_day_spec (n : Z) (leapyear : bool) :
  0 <= n <= 364 ->
  let '(m, d) := month_day n leapyear in
  1 <= m <= 12 /\
  1 <= d <= _DAYS_IN_MONTH m + (if (m =? 2) && leapyear then 1 else 0) /\
  _DAYS_BEFORE_MONTH m + (if (2 <? m) && leapyear then 1 else 0) + d = n + 1.
Proof.
  intros Hn. unfold month_day. cbv zeta.
  rewrite Z.shiftr_div_pow2 by lia. change (2 ^ 5) with 32.
  set (m := (n + 50) / 32).
  assert (Hm : 32 * m <= n + 50 < 32 * m + 32)
    by (subst m; Z.to_euclidean_division_equations; lia).
  assert (Hcases : m = 1 \/ m = 2 \/ m = 3 \/ m = 4 \/ m = 5 \/ m = 6 \/ m = 7 \/
                   m = 8 \/ m = 9 \/ m = 10 \/ m = 11 \/ m = 12) by lia.
  clearbody m.
  destruct leapyear;
  repeat (destruct Hcases as [-> | Hcases]); try subst m; cbn;
  match goal with |- context [n <? ?p] => destruct (Z.ltb_spec n p) end;
  repeat match goal with
         | |- context [Zpos ?a - 1] =>
             let v := eval compute in (Zpos a - 1) in change (Zpos a - 1) with v
         end;
  cbn; lia.
Qed.

Lemma ord2ymd_unfold (o : Z) :
  _ord2ymd o =
  let n0 := o - 1 in
  let n400 := n0 / 146097 in
  let r1 := n0 mod 146097 in
  let n100 := r1 / 36524 in
  let r2 := r1 mod 36524 in
  let n4 := r2 / 1461 in
  let r3 := r2 mod 1461 in
  let n1 := r3 / 365 in
  let n := r3 mod 365 in
  let y := n400 * 400 + 1 + (n100 * 100 + n4 * 4 + n1) in
  if (n1 =? 4) || (n100 =? 4) then (y - 1, 12, 31)
  else
    let '(m, d) := month_day n ((n1 =? 3) && (negb (n4 =? 24) || (n100 =? 3))) in
    (y, m, d).
Proof.
  unfold _ord2ymd, month_day, _DI400Y, _DI100Y, _DI4Y. cbv zeta.
  destruct (_ || _); [reflexivity|].
  match goal with |- context [?a <? ?b] => destruct (a <? b) end; reflexivity.
Qed.

Lemma ord2ymd_roundtrip (o : Z) :
  1 <= o ->
  let '(y, m, d) := _ord2ymd o in
  _ymd2ord y m d = o /\ 1 <= m <= 12 /\ 1 <= d <= _days_in_month y m.
Proof.
  intros Ho. rewrite ord2ymd_unfold. cbv zeta.
  set (n0 := o - 1).
  set (n400 := n0 / 146097). set (r1 := n0 mod 146097).
  set (n100 := r1 / 36524). set (r2 := r1 mod 36524).
  set (n4 := r2 / 1461). set (r3 := r2 mod 1461).
  set (n1 := r3 / 365). set (n := r3 mod 365).
  assert (E1 : n0 = 146097 * n400 + r1 /\ 0 <= r1 < 146097)
    by (subst n400 r1; Z.to_euclidean_division_equations; lia).
  assert (E2 : r1 = 36524 * n100 + r2 /\ 0 <= r2 < 36524)
    by (subst n100 r2; Z.to_euclidean_division_equations; lia).
  assert (E3 : r2 = 1461 * n4 + r3 /\ 0 <= r3 < 1461)
    by (subst n4 r3; Z.to_euclidean_division_equations; lia).
  assert (E4 : r3 = 365 * n1 + n /\ 0 <= n < 365)
    by (subst n1 n; Z.to_euclidean_division_equations; lia).
  clearbody n400 r1 n100 r2 n4 r3 n1 n.
  assert (B100 : 0 <= n100 <= 4) by lia.
  assert (B4 : 0 <= n4 <= 24) by lia.
  assert (B1 : 0 <= n1 <= 4) by lia.
  destruct (Z.eqb_spec n1 4) as [H1|H1]; [|destruct (Z.eqb_spec n100 4) as [H100|H100]];
    cbn [orb].
  - (* last day of a leap year *)
    assert (n100 <= 3 /\ n4 <= 23 /\ n = 0) as (? & ? & ?) by lia.
    replace (n400 * 400 + 1 + (n100 * 100 + n4 * 4 + n1) - 1)
      with (n400 * 400 + 1 + (n100 * 100 + n4 * 4 + 3)) by lia.
    unfold _ymd2ord, _days_before_month, _days_in_month.
    rewrite days_before_year_decomp, is_leap_decomp by lia.
    replace (n4 =? 24) with false by (symmetry; apply Z.eqb_neq; lia).
    cbn. lia.
  - (* last day of a 400-year cycle *)
    assert (n4 = 0 /\ n1 = 0 /\ n = 0) as (? & ? & ?) by lia.
    replace (n400 * 400 + 1 + (n100 * 100 + n4 * 4 + n1) - 1)
      with (n400 * 400 + 1 + (3 * 100 + 24 * 4 + 3)) by lia.
    unfold _ymd2ord, _days_before_month, _days_in_month.
    rewrite days_before_year_decomp, is_leap_decomp by lia.
    cbn. lia.
  - pose proof (month_day_spec n ((n1 =? 3) && (negb (n4 =? 24) || (n100 =? 3)))) as Hmd.
    destruct (month_day n _) as [m d].
    destruct Hmd as (Hm & Hd & Hsum); [lia|].
    unfold _ymd2ord, _days_before_month, _days_in_month.
    rewrite days_before_year_decomp, is_leap_decomp by lia.
    split; [lia|]. split; [lia|].
    destruct ((m =? 2) && _) eqn:E.
    + apply andb_prop in E as [Em _]. apply Z.eqb_eq in Em. subst m. cbn in *. lia.
    + lia.
Qed.

Lemma days_before_year_succ (y : Z) :
  _days_before_year (y + 1) =
  _days_before_year y + 365 + (if _is_leap y then 1 else 0).
Proof.
  unfold _days_before_year, _is_leap. cbv zeta.
  repeat match goal with |- context [?x =? ?y] => destruct (Z.eqb_spec x y) end;
    cbn [andb orb negb]; Z.to_euclidean_division_equations; lia.
Qed.

Lemma days_before_year_mono (y y' : Z) :
  y <= y' -> _days_before_year y <= _days_before_year y'.
Proof.
  intros Hle. unfold _days_before_year. cbv zeta.
  Z.to_euclidean_division_equations. lia.
Qed.

Lemma day_of_year_bounds (y m d : Z) :
  1 <= m <= 12 -> 1 <= d <= _days_in_month y m ->
  1 <= _days_before_month y m + d <= 365 + (if _is_leap y then 1 else 0).
Proof.
  intros Hm Hd. unfold _days_before_month, _days_in_month in *.
  assert (Hcases : m = 1 \/ m = 2 \/ m = 3 \/ m = 4 \/ m = 5 \/ m = 6 \/ m = 7 \/
                   m = 8 \/ m = 9 \/ m = 10 \/ m = 11 \/ m = 12) by lia.
  destruct (_is_leap y);
    repeat (destruct Hcases as [-> | Hcases]); try subst m; cbn in *; lia.
Qed.

Lemma toordinal_bounds (d : datetime) :
  valid_date d -> 1 <= toordinal d <= _MAXORDINAL.
Proof.
  intros (Hy & Hm & Hd & _). unfold toordinal, _ymd2ord.
  pose proof (day_of_year_bounds _ _ _ Hm Hd) as Hdoy.
  pose proof (days_before_year_succ (year d)) as Hsucc.
  pose proof (days_before_year_mono 1 (year d) ltac:(lia)) as Hlo.
  pose proof (days_before_year_mono (year d + 1) 10000 ltac:(lia)) as Hhi.
  change (_days_before_year 1) with 0 in Hlo.
  change (_days_before_year 10000) with 3652059 in Hhi.
  unfold _MAXORDINAL. lia.
Qed.

(** Moving a datetime back by [n] days moves its ordinal by exactly [n] and
    keeps the time of day, whenever the result is a representable date. *)
Lemma sub_days_ok (d : datetime) (n : Z) :
  0 < toordinal d - n <= _MAXORDINAL ->
  exists d', sub_days d n = Ok d' /\
             toordinal d' = toordinal d - n /\ tod d' = tod d.
Proof.
  intros Ho. unfold sub_days. cbv zeta.
  destruct (Z.ltb_spec 0 (toordinal d - n)); [|lia].
  destruct (Z.leb_spec (toordinal d - n) _MAXORDINAL); [|lia].
  cbn [andb].
  pose proof (ord2ymd_roundtrip (toordinal d - n) ltac:(lia)) as Hrt.
  destruct (_ord2ymd (toordinal d - n)) as [[y m] dd].
  eexists. split; [reflexivity|]. split; [apply Hrt|reflexivity].
Qed.

Lemma sub_days_overflow (d : datetime) (n : Z) :
  toordinal d - n <= 0 -> sub_days d n = Raise OverflowError.
Proof.
  intros Ho. unfold sub_days. cbv zeta.
  destruct (Z.ltb_spec 0 (toordinal d - n)); [lia|reflexivity].
Qed.

Lemma get_ytd_date_range_ok (a : datetime) :
  valid_date a -> (month a < 4 -> 2 <= year a) ->
  get_ytd_date_range a =
  Ok (mk_datetime (if 4 <=? month a then year a else year a - 1) 4 1 0, a).
Proof.
  intros (Hy & Hm & _) Hearly. unfold get_ytd_date_range, datetime_new.
  destruct (Z.leb_spec 4 (month a)).
  - replace (_ && _) with true; [reflexivity|].
    symmetry. repeat (apply andb_true_intro; split); try (apply Z.leb_le; lia).
    unfold _days_in_month. cbn. lia.
  - replace (_ && _) with true; [reflexivity|].
    symmetry. repeat (apply andb_true_intro; split); try (apply Z.leb_le; lia).
    unfold _days_in_month. cbn. lia.
Qed.

(** ** The comparison windows *)

(** C3. For every as-of date from 0003-04-01 on (earlier ones leave the
    range of [datetime] when shifted), the three windows exist, the YTD
    window ends at the as-of date, and the PYTD and P1YTD bounds are the YTD
    bounds moved back by exactly 365 and 730 day ordinals with the time of
    day unchanged. *)
Theorem period_windows_shifted (a : datetime) :
  valid_date a -> dt_leb (mk_datetime 3 4 1 0) a = true ->
  exists w, period_windows a = Ok w /\
    ytd_end w = a /\
    toordinal (pytd_start w) = toordinal (ytd_start w) - 365 /\
    tod (pytd_start w) = tod (ytd_start w) /\
    toordinal (pytd_end w) = toordinal (ytd_end w) - 365 /\
    tod (pytd_end w) = tod (ytd_end w) /\
    toordinal (p1ytd_start w) = toordinal (ytd_start w) - 730 /\
    tod (p1ytd_start w) = tod (ytd_start w) /\
    toordinal (p1ytd_end w) = toordinal (ytd_end w) - 730 /\
    tod (p1ytd_end w) = tod (ytd_end w).
Proof.
  intros Hv Hfrom.
  assert (Hyear : 3 <= year a /\ (month a < 4 -> 4 <= year a)).
  { destruct Hv as (Hy & Hm & _). unfold dt_leb in Hfrom. cbn [year month day tod] in Hfrom.
    destruct (Z.eqb_spec 3 (year a)) as [E|E].
    - destruct (Z.eqb_spec 4 (month a)); [lia|].
      apply Z.ltb_lt in Hfrom. lia.
    - apply Z.ltb_lt in Hfrom. lia. }
  destruct Hyear as (Hy3 & Hy4).
  unfold period_windows.
  rewrite get_ytd_date_range_ok by (auto; lia). cbn [rbind].
  set (s := mk_datetime (if 4 <=? month a then year a else year a - 1) 4 1 0).
  assert (Hs : valid_date s).
  { destruct Hv as (Hy & Hm & _). subst s. unfold valid_date. cbn.
    unfold _days_in_month, NS_PER_DAY. cbn.
    destruct (Z.leb_spec 4 (month a)); lia. }
  pose proof (toordinal_bounds s Hs) as Bs.
  pose proof (toordinal_bounds a Hv) as Ba.
  assert (Ls : 730 < toordinal s).
  { subst s. unfold toordinal, _ymd2ord. cbn [year month day].
    pose proof (days_before_year_mono 3 (if 4 <=? month a then year a else year a - 1)
                  ltac:(destruct (Z.leb_spec 4 (month a)); lia)) as Hlo.
    change (_days_before_year 3) with 730 in Hlo.
    unfold _days_before_month. cbn. destruct (_is_leap _); lia. }
  assert (La : 730 < toordinal a).
  { destruct Hv as (Hy & Hm & Hd & _). unfold toordinal, _ymd2ord.
    pose proof (days_before_year_mono 3 (year a) Hy3) as Hlo.
    change (_days_before_year 3) with 730 in Hlo.
    pose proof (day_of_year_bounds _ _ _ Hm Hd). lia. }
  destruct (sub_days_ok s 365) as (ps & -> & Hps & Tps); [lia|].
  destruct (sub_days_ok a 365) as (pe & -> & Hpe & Tpe); [lia|].
  destruct (sub_days_ok s 730) as (qs & -> & Hqs & Tqs); [lia|].
  destruct (sub_days_ok a 730) as (qe & -> & Hqe & Tqe); [lia|].
  cbn [rbind]. eexists. split; [reflexivity|]. cbn.
  repeat split; assumption.
Qed.

Lemma period_windows_shifted_witness :
  exists w, period_windows (mk_datetime 2024 5 15 0) = Ok w /\
    ytd_end w = mk_datetime 2024 5 15 0 /\
    toordinal (pytd_start w) = toordinal (ytd_start w) - 365 /\
    tod (pytd_start w) = tod (ytd_start w) /\
    toordinal (pytd_end w) = toordinal (ytd_end w) - 365 /\
    tod (pytd_end w) = tod (ytd_end w) /\
    toordinal (p1ytd_start w) = toordinal (ytd_start w) - 730 /\
    tod (p1ytd_start w) = tod (ytd_start w) /\
    toordinal (p1ytd_end w) = toordinal (ytd_end w) - 730 /\
    tod (p1ytd_end w) = tod (ytd_end w).
Proof.
  apply (period_windows_shifted (mk_datetime 2024 5 15 0)).
  - repeat split; vm_compute; congruence.
  - vm_compute. reflexivity.
Defined.

(** The shift is a fixed number of days, not a step to the previous fiscal
    year: after a leap day the PYTD window starts on April 2. *)
Example period_windows_leap_year :
  period_windows (mk_datetime 2024 5 15 0) =
  Ok (mk_windows (mk_datetime 2024 4 1 0) (mk_datetime 2024 5 15 0)
                 (mk_datetime 2023 4 2 0) (mk_datetime 2023 5 16 0)
                 (mk_datetime 2022 4 2 0) (mk_datetime 2022 5 16 0)).
Proof. vm_compute. reflexivity. Qed.

(** Before 0003-04-01 there are no windows: the shift leaves the range of
    [datetime]. *)
Example period_windows_out_of_range :
  period_windows (mk_datetime 2 5 1 0) = Raise OverflowError /\
  period_windows (mk_datetime 1 2 1 0) = Raise ValueError.
Proof. split; vm_compute; reflexivity. Qed.

Example get_fiscal_year_ex1 :
  get_fiscal_year (mk_datetime 2023 6 15 0) = "FY 2023-24".
Proof. vm_compute. reflexivity. Qed.

Example get_fiscal_year_ex2 :
  get_fiscal_year (mk_datetime 2024 2 29 0) = "FY 2023-24".
Proof. vm_compute. reflexivity. Qed.

Example get_fiscal_year_ex3 :
  get_fiscal_year (mk_datetime 1999 12 31 0) = "FY 1999-00".
Proof. vm_compute. reflexivity. Qed.

Example sub_days_ex1 :
  sub_days (mk_datetime 2024 4 1 0) 365 = Ok (mk_datetime 2023 4 2 0).
Proof. vm_compute. reflexivity. Qed.

Example sub_days_ex2 :
  sub_days (mk_datetime 2023 4 10 0) 730 = Ok (mk_datetime 2021 4 10 0).
Proof. vm_compute. reflexivity. Qed.

Example toordinal_ex : toordinal (mk_datetime 9999 12 31 0) = _MAXORDINAL.
Proof. vm_compute. reflexivity. Qed.
(** ** Frames and the store *)

Lemma rbind_ok {A B} (r : result A) (k : A -> result B) (b : B) :
  rbind r k = Ok b -> exists a, r = Ok a /\ k a = Ok b.
Proof. destruct r as [a|e]; cbn; [eauto|discriminate]. Qed.

Lemma named_true (name : string) (c : string * column) :
  named name c = true <-> fst c = name.
Proof. unfold named. apply String.eqb_eq. Qed.

Lemma named_false (name : string) (c : string * column) :
  named name c = false <-> fst c <> name.
Proof. unfold named. apply String.eqb_neq. Qed.

Lemma filter_setitem_ne (df : DataFrame) (n n' : string) (c : column) :
  n <> n' -> List.filter (named n') (setitem df n c) = List.filter (named n') df.
Proof.
  intros Hne. unfold setitem. destruct (existsb (named n) df).
  - induction df as [|x df IH]; [reflexivity|]. cbn [map List.filter].
    destruct (named n x) eqn:E.
    + apply named_true in E.
      replace (named n' (n, c)) with false
        by (symmetry; apply named_false; cbn; congruence).
      replace (named n' x) with false
        by (symmetry; apply named_false; congruence).
      exact IH.
    + destruct (named n' x); [f_equal|]; exact IH.
  - rewrite List.filter_app. cbn [List.filter].
    replace (named n' (n, c)) with false
      by (symmetry; apply named_false; cbn; congruence).
    apply app_nil_r.
Qed.

(** Assigning one column does not change what another name reads. *)
Lemma getitem_setitem_ne (df : DataFrame) (n n' : string) (c : column) :
  n <> n' -> getitem (setitem df n c) n' = getitem df n'.
Proof. intros Hne. unfold getitem. now rewrite filter_setitem_ne. Qed.

Lemma In_setitem (df : DataFrame) (n : string) (c : column) :
  In (n, c) (setitem df n c).
Proof.
  unfold setitem. destruct (existsb (named n) df) eqn:E.
  - apply existsb_exists in E as (x & Hx & Hn).
    apply in_map_iff. exists x. now rewrite Hn.
  - apply in_or_app. right. now left.
Qed.

Lemma In_setitem_same (df : DataFrame) (n : string) (c c' : column) :
  In (n, c') (setitem df n c) -> c' = c.
Proof.
  unfold setitem. destruct (existsb (named n) df) eqn:E.
  - intros Hin. apply in_map_iff in Hin as (x & Hx & _).
    destruct (named n x) eqn:Ex.
    + now inversion Hx.
    + subst x. apply named_false in Ex. now cbn in Ex.
  - intros Hin. apply in_app_or in Hin as [Hin|[Hin|[]]].
    + assert (existsb (named n) df = true) as E'; [|congruence].
      apply existsb_exists. exists (n, c'). split; [assumption|].
      now apply named_true.
    + now inversion Hin.
Qed.

Lemma In_setitem_other (df : DataFrame) (n n' : string) (c c' : column) :
  n <> n' -> In (n', c') (setitem df n c) <-> In (n', c') df.
Proof.
  intros Hne. unfold setitem. destruct (existsb (named n) df).
  - rewrite in_map_iff. split.
    + intros (x & Hx & Hin). destruct (named n x); [inversion Hx; congruence|].
      now subst x.
    + intros Hin. exists (n', c'). split; [|assumption].
      replace (named n (n', c')) with false; [reflexivity|].
      symmetry. apply named_false. cbn. congruence.
  - rewrite in_app_iff. cbn. split; [|tauto].
    intros [?|[E|[]]]; [assumption|]. inversion E. congruence.
Qed.

Lemma assign_frame_ok (df df' : DataFrame) (name : string) (e : expr) :
  assign_frame df name e = Ok df' ->
  exists c, e df = Ok c /\ df' = setitem df name c.
Proof.
  unfold assign_frame. intros H. apply rbind_ok in H as (c & Hc & H).
  exists c. split; [assumption|]. now inversion H.
Qed.

Lemma calculate_deltas_ok (metrics df : nat) (s s' : store) :
  calculate_deltas metrics s = (s', Ok df) ->
  exists frame frame',
    s !! metrics = Some frame /\ deltas_frame frame = Ok frame' /\
    df = length s /\ s' = s ++ [frame'].
Proof.
  unfold calculate_deltas, copy, bind, read, alloc, lift, write, ret.
  destruct (s !! metrics) as [frame|] eqn:E; [|discriminate].
  rewrite list_lookup_middle by reflexivity.
  destruct (deltas_frame frame) as [frame'|e] eqn:Ed; [|discriminate].
  intros H. inversion H; subst. exists frame, frame'.
  repeat split; try reflexivity; try assumption.
  rewrite insert_app_r_alt by reflexivity.
  now rewrite Nat.sub_diag.
Qed.

Lemma calculate_deltas_store (metrics : nat) (s : store) :
  exists tail, fst (calculate_deltas metrics s) = s ++ tail.
Proof.
  unfold calculate_deltas, copy, bind, read, alloc, lift, write, ret.
  destruct (s !! metrics) as [frame|] eqn:E; [|exists []; cbn; now rewrite app_nil_r].
  rewrite list_lookup_middle by reflexivity.
  destruct (deltas_frame frame) as [frame'|e]; [|now exists [frame]].
  exists [frame']. cbn. rewrite insert_app_r_alt by reflexivity.
  now rewrite Nat.sub_diag.
Qed.

(** ** Growth percentage *)

Lemma b64_hundred : b64_of_Z 100 = S754_finite false 7036874417766400 (-46).
Proof. vm_compute. reflexivity. Qed.

(** With a zero base the growth cell is zero whenever the numerator is a
    number other than zero. *)
Lemma growth_pct_zero_base (a : float64) (s : bool) :
  b64_isnan a = false -> (forall s', a <> S754_zero s') ->
  growth_pct a (S754_zero s) = b64_zero.
Proof.
  intros Hnan Hnz. unfold growth_pct. rewrite b64_hundred.
  destruct a as [sa|sa| |sa m e]; try discriminate; try (now destruct (Hnz sa));
    reflexivity.
Qed.

(** Zero over zero is NaN, which [replace] leaves alone. *)
Lemma growth_pct_zero_zero (s s' : bool) :
  growth_pct (S754_zero s) (S754_zero s') = S754_nan.
Proof. destruct s, s'; reflexivity. Qed.

(** The growth cell is never infinite. *)
Lemma growth_pct_not_inf (a b : float64) (s : bool) :
  growth_pct a b <> S754_infinity s.
Proof. unfold growth_pct. now destruct (b64_mul _ _). Qed.

Lemma getitem_In (df : DataFrame) (n : string) (c : column) :
  getitem df n = Ok c -> In (n, c) df.
Proof.
  unfold getitem. destruct (List.filter (named n) df) as [|x [|y l]] eqn:E;
    try discriminate.
  intros H. inversion H; subst c.
  assert (Hx : In x (List.filter (named n) df)) by (rewrite E; now left).
  apply filter_In in Hx as (Hin & Hn). apply named_true in Hn.
  destruct x as [n' c']. cbn in *. now subst n'.
Qed.

Lemma growth_column (ytd pytd : list float64) :
  map replace_inf
    (map (fun v => b64_mul v (b64_of_Z 100))
       (zip_with b64_div (zip_with b64_sub ytd pytd) pytd)) =
  zip_with growth_pct ytd pytd.
Proof.
  revert pytd. induction ytd as [|a ytd IH]; intros [|b pytd]; try reflexivity.
  cbn [zip_with map]. now rewrite IH.
Qed.

(** What a successful run of lines 144-163 leaves in the frame. *)
Lemma deltas_frame_ok (df df' : DataFrame) :
  deltas_frame df = Ok df' ->
  exists ytd pytd deltas,
    getitem df "ytd_sales" = Ok (ColNum ytd) /\
    getitem df "pytd_sales" = Ok (ColNum pytd) /\
    deltas = zip_with b64_sub ytd pytd /\
    getitem df' "delta_ytd_pytd" = Ok (ColNum deltas) /\
    In ("growth_ytd_vs_pytd_pct", ColNum (zip_with growth_pct ytd pytd)) df' /\
    In ("performance", ColStr (map (fun x => Some (classify x)) deltas)) df' /\
    (forall c, In ("performance", c) df' ->
               c = ColStr (map (fun x => Some (classify x)) deltas)).
Proof.
  unfold deltas_frame. intros H.
  repeat match type of H with
         | rbind (assign_frame _ _ _) _ = Ok _ =>
             let c := fresh "c" in
             let Hc := fresh "Hc" in
             let f := fresh "df" in
             let Hf := fresh "Hf" in
             apply rbind_ok in H as (f & Hf & H);
             apply assign_frame_ok in Hf as (c & Hc & Hf)
         end.
  inversion H; subst df'. clear H.
  clear Hc0 Hc1 Hc3 Hc4 Hc5 Hc6.
  unfold e_sub, e_div, e_times, e_replace_inf, e_classify, lift1, lift2, col in *.
  subst df8 df7 df6 df5 df4 df3 df2 df1.
  rewrite ?getitem_setitem_ne in * by discriminate.
  destruct (getitem df "ytd_sales") as [x|] eqn:Ey; [|discriminate].
  destruct (getitem df "pytd_sales") as [y|] eqn:Ep; [|discriminate].
  destruct x as [| |ytd|], y as [| |pytd|]; try discriminate.
  cbn in Hc. injection Hc as <-.
  subst df0. rewrite ?getitem_setitem_ne in Hc2 by discriminate.
  rewrite Ey, Ep in Hc2. cbn in Hc2. rewrite growth_column in Hc2.
  injection Hc2 as <-.
  destruct (getitem (setitem df "delta_ytd_pytd" _) "delta_ytd_pytd")
    as [[| |deltas|]|] eqn:Ed; try discriminate.
  cbn in Hc7. injection Hc7 as <-.
  assert (deltas = zip_with b64_sub ytd pytd) as ->.
  { apply getitem_In, In_setitem_same in Ed. now inversion Ed. }
  exists ytd, pytd, (zip_with b64_sub ytd pytd).
  repeat split; try reflexivity.
  - repeat (apply In_setitem_other; [discriminate|]). apply In_setitem.
  - apply In_setitem.
  - intros c. apply In_setitem_same.
Qed.

(** ** Performance label *)

Lemma classify_cases (x : float64) :
  (classify x = "Growing" <-> b64_ltb b64_zero x = true) /\
  (classify x = "Declining" <-> b64_ltb x b64_zero = true) /\
  (classify x = "Stable" <->
     b64_ltb b64_zero x = false /\ b64_ltb x b64_zero = false) /\
  (b64_ltb b64_zero x = true -> b64_ltb x b64_zero = false) /\
  (SFeqb x b64_zero = true -> classify x = "Stable").
Proof.
  unfold classify, b64_ltb, b64_zero, SFltb, SFeqb.
  destruct x as [s|s| |s m e]; try destruct s; cbn;
    repeat split; intros; try discriminate; try reflexivity;
    repeat match goal with H : _ /\ _ |- _ => destruct H end; try discriminate.
Qed.

(** C5. In the frame returned by [calculate_deltas] the [performance] column
    is the label of the [delta_ytd_pytd] column, row by row, and the label of
    a delta [x] is "Growing" exactly when [x > 0], "Declining" exactly when
    [x < 0], and "Stable" exactly when neither holds (as for [x == 0]); the
    two comparisons exclude each other, so the three labels partition the
    rows. *)
Theorem performance_partition (metrics df : nat) (s s' : store) :
  calculate_deltas metrics s = (s', Ok df) ->
  exists frame deltas,
    s' !! df = Some frame /\
    getitem frame "delta_ytd_pytd" = Ok (ColNum deltas) /\
    In ("performance", ColStr (map (fun x => Some (classify x)) deltas)) frame /\
    (forall c, In ("performance", c) frame ->
               c = ColStr (map (fun x => Some (classify x)) deltas)) /\
    forall x : float64,
      (classify x = "Growing" <-> b64_ltb b64_zero x = true) /\
      (classify x = "Declining" <-> b64_ltb x b64_zero = true) /\
      (classify x = "Stable" <->
         b64_ltb b64_zero x = false /\ b64_ltb x b64_zero = false) /\
      (b64_ltb b64_zero x = true -> b64_ltb x b64_zero = false) /\
      (SFeqb x b64_zero = true -> classify x = "Stable").
Proof.
  intros H. apply calculate_deltas_ok in H as (frame & frame' & Hm & Hd & -> & ->).
  apply deltas_frame_ok in Hd as (ytd & pytd & deltas & _ & _ & _ & Hdelta & _ & Hin & Hall).
  exists frame', deltas. split; [now apply list_lookup_middle|].
  split; [assumption|]. split; [assumption|]. split; [assumption|].
  intros x. apply classify_cases.
Qed.

Lemma performance_partition_witness :
  exists s',
    calculate_deltas 0%nat
      [[("ytd_sales", ColNum [b64_of_Z 100]); ("pytd_sales", ColNum [b64_of_Z 80]);
        ("p1ytd_sales", ColNum [b64_of_Z 40]); ("ytd_quantity", ColNum [b64_of_Z 1]);
        ("pytd_quantity", ColNum [b64_of_Z 1]); ("p1ytd_quantity", ColNum [b64_of_Z 1])]]
    = (s', Ok 1%nat) /\
    exists frame deltas,
      s' !! 1%nat = Some frame /\
      getitem frame "delta_ytd_pytd" = Ok (ColNum deltas) /\
      In ("performance", ColStr (map (fun x => Some (classify x)) deltas)) frame /\
      (forall c, In ("performance", c) frame ->
                 c = ColStr (map (fun x => Some (classify x)) deltas)) /\
      forall x : float64,
        (classify x = "Growing" <-> b64_ltb b64_zero x = true) /\
        (classify x = "Declining" <-> b64_ltb x b64_zero = true) /\
        (classify x = "Stable" <->
           b64_ltb b64_zero x = false /\ b64_ltb x b64_zero = false) /\
        (b64_ltb b64_zero x = true -> b64_ltb x b64_zero = false) /\
        (SFeqb x b64_zero = true -> classify x = "Stable").
Proof.
  eexists. split.
  - vm_compute. reflexivity.
  - apply (performance_partition 0%nat 1%nat
             [[("ytd_sales", ColNum [b64_of_Z 100]); ("pytd_sales", ColNum [b64_of_Z 80]);
               ("p1ytd_sales", ColNum [b64_of_Z 40]); ("ytd_quantity", ColNum [b64_of_Z 1]);
               ("pytd_quantity", ColNum [b64_of_Z 1]); ("p1ytd_quantity", ColNum [b64_of_Z 1])]]).
    vm_compute. reflexivity.
Defined.

(** C1. A product that sold only in the P1YTD window has [ytd_sales] and
    [pytd_sales] both zero after [fillna(0)]; its
    [growth_ytd_vs_pytd_pct] is then NaN, not zero: zero over zero is NaN,
    and [replace] only rewrites the infinities. *)
Theorem growth_zero_over_zero_is_nan :
  exists s metrics df frame,
    calculate_ytd_metrics (fun _ => None) (fun _ => None) 0%nat
      (Some (mk_datetime 2023 4 10 0))
      [[("date", ColTime [TS (mk_datetime 2021 4 10 0)]);
        ("product_name", ColStr [Some "A"]);
        ("sales_amount", ColNum [b64_of_Z 40]);
        ("quantity", ColNum [b64_of_Z 1])]] = (s, Ok metrics) /\
    exists s', calculate_deltas metrics s = (s', Ok df) /\
    s' !! df = Some frame /\
    getitem frame "ytd_sales" = Ok (ColNum [b64_zero]) /\
    getitem frame "pytd_sales" = Ok (ColNum [b64_zero]) /\
    getitem frame "growth_ytd_vs_pytd_pct" = Ok (ColNum [S754_nan]).
Proof.
  do 4 eexists. split; [vm_compute; reflexivity|].
  eexists. split; [vm_compute; reflexivity|].
  split; [vm_compute; reflexivity|].
  repeat split; vm_compute; reflexivity.
Qed.
(** ** Group-by *)

Section GroupByFacts.
Context {K : Type} `{EqDecision K}.
Context (le : K -> K -> Prop) `{forall x y, Decision (le x y)}.
Context {V : Type} `{Numeric V}.

Lemma elem_of_group_keys (k : K) (ks : list (option K)) :
  k ∈ group_keys le ks <-> Some k ∈ ks.
Proof.
  unfold group_keys. rewrite merge_sort_Permutation, elem_of_remove_dups.
  rewrite list_elem_of_omap. split.
  - intros (x & Hx & E). cbn in E. now subst x.
  - intros Hk. now exists (Some k).
Qed.

Lemma NoDup_group_keys (ks : list (option K)) : NoDup (group_keys le ks).
Proof.
  unfold group_keys. rewrite merge_sort_Permutation. apply NoDup_remove_dups.
Qed.

Lemma groupby_sum_keys (rows : list (option K * (V * V))) :
  map fst (groupby_sum le rows) = group_keys le (map fst rows).
Proof.
  unfold groupby_sum. rewrite map_map. cbn. apply map_id.
Qed.

Lemma elem_of_groupby_sum (rows : list (option K * (V * V))) (k : K) (a q : V) :
  (k, (a, q)) ∈ groupby_sum le rows <->
  Some k ∈ map fst rows /\
  a = group_sum (map fst (group_rows k rows)) /\
  q = group_sum (map snd (group_rows k rows)).
Proof.
  unfold groupby_sum.
  change (map ?f ?l) with (f <$> l) at 1.
  rewrite list_elem_of_fmap. split.
  - intros (k' & E & Hk). inversion E; subst. apply elem_of_group_keys in Hk. auto.
  - intros (Hk & -> & ->). exists k. split; [reflexivity|].
    now apply elem_of_group_keys.
Qed.

Lemma groupby_sum_nil : groupby_sum le (V:=V) [] = [].
Proof. reflexivity. Qed.
End GroupByFacts.

(** ** Period aggregation *)

Lemma dt_leb_le (a b : datetime) : dt_leb a b = true <-> dt_le a b.
Proof.
  unfold dt_leb, dt_le.
  destruct (Z.eqb_spec (year a) (year b));
    [destruct (Z.eqb_spec (month a) (month b));
       [destruct (Z.eqb_spec (day a) (day b))|]|];
    rewrite ?Z.leb_le, ?Z.ltb_lt; lia.
Qed.

Lemma dt_le_refl (a : datetime) : dt_le a a.
Proof. unfold dt_le. lia. Qed.

Lemma dt_le_trans (a b c : datetime) : dt_le a b -> dt_le b c -> dt_le a c.
Proof. unfold dt_le. lia. Qed.

Lemma dt_le_total (a b : datetime) : dt_le a b \/ dt_le b a.
Proof. unfold dt_le. lia. Qed.

Lemma dt_le_antisym (a b : datetime) : dt_le a b -> dt_le b a -> a = b.
Proof.
  destruct a, b. unfold dt_le. cbn. intros H1 H2.
  f_equal; lia.
Qed.

Section CoreFacts.
Context {V : Type} `{Numeric V}.

Lemma in_period_spec (start end_ : datetime) (r : Sales.row V) :
  in_period start end_ r = true <->
  exists t, Sales.date r = TS t /\ dt_le start t /\ dt_le t end_.
Proof.
  unfold in_period. destruct (Sales.date r) as [|t].
  - split; [discriminate|]. now intros (t & E & _).
  - rewrite andb_true_iff, !dt_leb_le. split.
    + intros (? & ?). now exists t.
    + intros (t' & E & ? & ?). now inversion E; subst.
Qed.

Lemma elem_of_kept (records : list (Sales.row V)) (start end_ : datetime)
  (r : Sales.row V) :
  r ∈ List.filter (in_period start end_) records <->
  r ∈ records /\ exists t, Sales.date r = TS t /\ dt_le start t /\ dt_le t end_.
Proof. now rewrite !list_elem_of_In, filter_In, in_period_spec. Qed.

Lemma aggregate_keys (records : list (Sales.row V)) (start end_ : datetime) (p : string) :
  p ∈ map fst (aggregate records start end_) <->
  exists r, r ∈ List.filter (in_period start end_) records /\
            Sales.product_name r = Some p.
Proof.
  unfold aggregate. rewrite groupby_sum_keys, elem_of_group_keys, map_map.
  change (map ?f ?l) with (f <$> l). rewrite list_elem_of_fmap.
  split.
  - intros (r & E & Hr). exists r. cbn in E. now split.
  - intros (r & Hr & E). exists r. cbn. now split.
Qed.

Lemma aggregate_NoDup (records : list (Sales.row V)) (start end_ : datetime) :
  NoDup (map fst (aggregate records start end_)).
Proof. unfold aggregate. rewrite groupby_sum_keys. apply NoDup_group_keys. Qed.

Lemma group_rows_sales (p : string) (l : list (Sales.row V)) :
  group_rows p (map sales_key_values l) =
  map (fun r => (Sales.sales_amount r, Sales.quantity r))
      (List.filter (fun r => bool_decide (Sales.product_name r = Some p)) l).
Proof.
  unfold group_rows. induction l as [|r l IH]; [reflexivity|].
  cbn [map List.filter]. unfold sales_key_values at 1. cbn [fst].
  destruct (bool_decide (Sales.product_name r = Some p)); cbn [map]; now rewrite IH.
Qed.

Lemma aggregate_sums (records : list (Sales.row V)) (start end_ : datetime)
  (p : string) (s q : V) :
  (p, (s, q)) ∈ aggregate records start end_ ->
  s = group_sum (map Sales.sales_amount
                (List.filter (fun r => bool_decide (Sales.product_name r = Some p))
                   (List.filter (in_period start end_) records))) /\
  q = group_sum (map Sales.quantity
                (List.filter (fun r => bool_decide (Sales.product_name r = Some p))
                   (List.filter (in_period start end_) records))).
Proof.
  unfold aggregate. intros Hin. apply elem_of_groupby_sum in Hin as (_ & -> & ->).
  rewrite group_rows_sales, !map_map. split; reflexivity.
Qed.

End CoreFacts.
(** ** Outer merge *)

Section MergeFacts.
Context {A B : Type}.

Lemma elem_of_rows_of_key (k : string) (l : list (string * A)) (a : A) :
  a ∈ rows_of_key k l <-> (k, a) ∈ l.
Proof.
  unfold rows_of_key. rewrite !list_elem_of_In, in_map_iff. split.
  - intros ([k' a'] & E & Hin). cbn in E. subst a'.
    apply filter_In in Hin as (Hin & Hk).
    apply bool_decide_eq_true in Hk. cbn in Hk. now subst k'.
  - intros Hin. exists (k, a). split; [reflexivity|].
    apply filter_In. split; [assumption|]. now apply bool_decide_eq_true.
Qed.

Lemma rows_of_key_nil (k : string) (l : list (string * A)) :
  rows_of_key k l = [] <-> k ∉ map fst l.
Proof.
  split.
  - intros E Hin. change (map fst l) with (fst <$> l) in Hin.
    apply list_elem_of_fmap in Hin as ([k' a] & -> & Hin). cbn in E.
    apply elem_of_rows_of_key in Hin. rewrite E in Hin. inversion Hin.
  - intros Hk. destruct (rows_of_key k l) as [|a l'] eqn:E; [reflexivity|].
    exfalso. apply Hk.
    assert (Ha : a ∈ rows_of_key k l) by (rewrite E; left).
    apply elem_of_rows_of_key in Ha.
    change (map fst l) with (fst <$> l). apply list_elem_of_fmap. now exists (k, a).
Qed.

Lemma rows_of_key_unique (k : string) (l : list (string * A)) :
  NoDup (map fst l) -> (length (rows_of_key k l) <= 1)%nat.
Proof.
  induction l as [|[k' a] l IH]; intros Hnd; [cbn; lia|].
  cbn [map fst] in Hnd. apply NoDup_cons in Hnd as (Hk' & Hnd).
  unfold rows_of_key. cbn [List.filter fst].
  destruct (bool_decide (k' = k)) eqn:E.
  - apply bool_decide_eq_true in E. subst k'. cbn [map length].
    apply rows_of_key_nil in Hk'. unfold rows_of_key in Hk'. rewrite Hk'. cbn. lia.
  - now apply IH.
Qed.
End MergeFacts.

Section MergeFacts2.
Context {A B : Type}.

Lemma elem_of_merge_key (k k' : string) (ls : list A) (rs : list B)
  (oa : option A) (ob : option B) :
  (k', (oa, ob)) ∈ merge_key k ls rs <->
  k' = k /\
  match oa with Some a => a ∈ ls | None => ls = [] end /\
  match ob with Some b => b ∈ rs | None => rs = [] end /\
  (ls <> [] \/ rs <> []).
Proof.
  unfold merge_key. rewrite list_elem_of_In.
  destruct ls as [|l ls], rs as [|r rs].
  - cbn. split; [tauto|]. intros (_ & _ & _ & [?|?]); congruence.
  - rewrite in_map_iff. split.
    + intros (b & E & Hb). inversion E; subst.
      rewrite list_elem_of_In. repeat split; auto.
    + intros (-> & Ha & Hb & _). destruct oa; [inversion Ha|].
      destruct ob as [b|]; [|discriminate]. exists b.
      now rewrite <- list_elem_of_In.
  - rewrite in_map_iff. split.
    + intros (a & E & Ha). inversion E; subst.
      rewrite list_elem_of_In. repeat split; auto.
    + intros (-> & Ha & Hb & _). destruct ob; [inversion Hb|].
      destruct oa as [a|]; [|discriminate]. exists a.
      now rewrite <- list_elem_of_In.
  - rewrite in_flat_map. split.
    + intros (a & Ha & Hin). apply in_map_iff in Hin as (b & E & Hb).
      inversion E; subst. rewrite !list_elem_of_In. repeat split; auto.
    + intros (-> & Ha & Hb & _).
      destruct oa as [a|]; [|discriminate]. destruct ob as [b|]; [|discriminate].
      exists a. rewrite <- list_elem_of_In. split; [assumption|].
      apply in_map_iff. exists b. now rewrite <- list_elem_of_In.
Qed.

Lemma elem_of_merge_keys (k : string) (left : list (string * A)) (right : list (string * B)) :
  k ∈ merge_sort String.le (remove_dups (map fst left ++ map fst right)) <->
  k ∈ map fst left \/ k ∈ map fst right.
Proof.
  rewrite merge_sort_Permutation, elem_of_remove_dups. apply elem_of_app.
Qed.

(** The rows of an outer merge: one for each pairing of a left and a right
    row of a key, with null for a side that does not have the key. *)
Lemma elem_of_outer_merge (left : list (string * A)) (right : list (string * B))
  (k : string) (oa : option A) (ob : option B) :
  (k, (oa, ob)) ∈ outer_merge left right <->
  match oa with Some a => (k, a) ∈ left | None => k ∉ map fst left end /\
  match ob with Some b => (k, b) ∈ right | None => k ∉ map fst right end /\
  (k ∈ map fst left \/ k ∈ map fst right).
Proof.
  unfold outer_merge. rewrite list_elem_of_In, in_flat_map. split.
  - intros (k' & Hk' & Hin). rewrite <- list_elem_of_In in Hk'.
    rewrite <- list_elem_of_In in Hin.
    apply elem_of_merge_key in Hin as (-> & Ha & Hb & _).
    apply elem_of_merge_keys in Hk'.
    repeat split; [| |assumption].
    + destruct oa; [now apply elem_of_rows_of_key|now apply rows_of_key_nil].
    + destruct ob; [now apply elem_of_rows_of_key|now apply rows_of_key_nil].
  - intros (Ha & Hb & Hk). exists k. rewrite <- !list_elem_of_In.
    split; [now apply elem_of_merge_keys|].
    apply elem_of_merge_key. split; [reflexivity|].
    repeat split.
    + destruct oa; [now apply elem_of_rows_of_key|now apply rows_of_key_nil].
    + destruct ob; [now apply elem_of_rows_of_key|now apply rows_of_key_nil].
    + destruct Hk as [Hk|Hk]; [left|right]; intros E;
        apply rows_of_key_nil in E; contradiction.
Qed.

Lemma outer_merge_keys (left : list (string * A)) (right : list (string * B)) (k : string) :
  k ∈ map fst (outer_merge left right) <-> k ∈ map fst left \/ k ∈ map fst right.
Proof.
  change (map fst (outer_merge left right)) with (fst <$> outer_merge left right).
  rewrite list_elem_of_fmap. split.
  - intros ([k' [oa ob]] & -> & Hin). now apply elem_of_outer_merge in Hin.
  - intros Hk.
    exists (k, (head (rows_of_key k left), head (rows_of_key k right))).
    split; [reflexivity|]. apply elem_of_outer_merge. repeat split; [| |assumption].
    + destruct (rows_of_key k left) as [|a l] eqn:E; cbn.
      * now apply rows_of_key_nil.
      * apply elem_of_rows_of_key. rewrite E. left.
    + destruct (rows_of_key k right) as [|b l] eqn:E; cbn.
      * now apply rows_of_key_nil.
      * apply elem_of_rows_of_key. rewrite E. left.
Qed.

Lemma merge_key_keys_unique (k : string) (ls : list A) (rs : list B) :
  (length ls <= 1)%nat -> (length rs <= 1)%nat -> (ls <> [] \/ rs <> []) ->
  map fst (merge_key k ls rs) = [k].
Proof.
  intros Hl Hr Hne. destruct ls as [|a [|? ?]], rs as [|b [|? ?]]; cbn in *;
    try lia; try reflexivity. destruct Hne; congruence.
Qed.

(** With one row per key on both sides, the merge has one row per key. *)
Lemma outer_merge_NoDup (left : list (string * A)) (right : list (string * B)) :
  NoDup (map fst left) -> NoDup (map fst right) ->
  NoDup (map fst (outer_merge left right)).
Proof.
  intros Hl Hr. unfold outer_merge.
  assert (E : forall ks : list string,
             (forall k, k ∈ ks -> k ∈ map fst left \/ k ∈ map fst right) ->
             map fst (flat_map (fun k => merge_key k (rows_of_key k left)
                                           (rows_of_key k right)) ks) = ks).
  { induction ks as [|k ks IH]; intros Hks; [reflexivity|].
    cbn [flat_map]. rewrite map_app, IH.
    - rewrite merge_key_keys_unique; [reflexivity| | |].
      + now apply rows_of_key_unique.
      + now apply rows_of_key_unique.
      + destruct (Hks k) as [Hk|Hk]; [left|left|right]; intros E;
          apply rows_of_key_nil in E; contradiction.
    - intros k' Hk'. apply Hks. now right. }
  rewrite E.
  - rewrite merge_sort_Permutation. apply NoDup_remove_dups.
  - intros k Hk. now apply elem_of_merge_keys in Hk.
Qed.
End MergeFacts2.
(** ** The assembled metrics *)

Section AssembleFacts.
Context {V : Type} `{Numeric V}.

Lemma assemble_names (ytd pytd p1ytd : list (string * (V * V)))
  (as_of : datetime) (fy : string) :
  map product_name (assemble ytd pytd p1ytd as_of fy) =
  map fst (outer_merge (outer_merge ytd pytd) p1ytd).
Proof.
  unfold assemble. rewrite map_map. apply map_ext.
  intros [k [yp p1]]. reflexivity.
Qed.

(** Each assembled row comes from one pairing of the three summaries: per
    summary either a row of the product, or null where the product is
    absent, filled with zero. *)
Lemma elem_of_assemble (ytd pytd p1ytd : list (string * (V * V)))
  (as_of : datetime) (fy : string) (m : ProductMetrics V) :
  m ∈ assemble ytd pytd p1ytd as_of fy ->
  exists (oy op o1 : option (V * V)),
    m = mk_metrics (product_name m)
          (mk_totals (fillna0 (option_map fst oy)) (fillna0 (option_map snd oy))
                     (fillna0 (option_map fst op)) (fillna0 (option_map snd op))
                     (fillna0 (option_map fst o1)) (fillna0 (option_map snd o1)))
          as_of fy /\
    match oy with
    | Some y => (product_name m, y) ∈ ytd
    | None => product_name m ∉ map fst ytd
    end /\
    match op with
    | Some p => (product_name m, p) ∈ pytd
    | None => product_name m ∉ map fst pytd
    end /\
    match o1 with
    | Some p => (product_name m, p) ∈ p1ytd
    | None => product_name m ∉ map fst p1ytd
    end.
Proof.
  unfold assemble. change (map ?f ?l) with (f <$> l) at 1.
  rewrite list_elem_of_fmap. intros ([k [yp p1]] & -> & Hin). cbn [product_name].
  apply elem_of_outer_merge in Hin as (Hyp & Hp1 & _).
  destruct yp as [[oy op]|].
  - apply elem_of_outer_merge in Hyp as (Hy & Hp & _).
    exists oy, op, p1. repeat split; assumption.
  - exists None, None, p1. rewrite outer_merge_keys in Hyp.
    repeat split; try assumption; intros Hk; apply Hyp; auto.
Qed.

(** C4. The assembled frame is the full outer join of the three summaries on
    the product name: its product names are those of any of the three
    summaries; in the row of a product, the sales and quantity of a window
    that does not have the product are zero, and those of a window that has
    it are the window's totals (a NaN total becoming zero as well); every row
    carries the given as-of date and fiscal-year label; and with one row per
    product in each summary there is one row per product in the result. *)
Theorem assemble_outer_join (ytd pytd p1ytd : list (string * (V * V)))
  (as_of : datetime) (fy : string) :
  let out := assemble ytd pytd p1ytd as_of fy in
  (forall p, p ∈ map product_name out <->
             p ∈ map fst ytd \/ p ∈ map fst pytd \/ p ∈ map fst p1ytd) /\
  (forall m, m ∈ out ->
     as_of_date m = as_of /\ fiscal_year m = fy /\
     (product_name m ∉ map fst ytd ->
        ytd_sales (totals m) = zero /\ ytd_quantity (totals m) = zero) /\
     (product_name m ∉ map fst pytd ->
        pytd_sales (totals m) = zero /\ pytd_quantity (totals m) = zero) /\
     (product_name m ∉ map fst p1ytd ->
        p1ytd_sales (totals m) = zero /\ p1ytd_quantity (totals m) = zero) /\
     (product_name m ∈ map fst ytd ->
        exists s q, (product_name m, (s, q)) ∈ ytd /\
                    ytd_sales (totals m) = fillna0 (Some s) /\
                    ytd_quantity (totals m) = fillna0 (Some q)) /\
     (product_name m ∈ map fst pytd ->
        exists s q, (product_name m, (s, q)) ∈ pytd /\
                    pytd_sales (totals m) = fillna0 (Some s) /\
                    pytd_quantity (totals m) = fillna0 (Some q)) /\
     (product_name m ∈ map fst p1ytd ->
        exists s q, (product_name m, (s, q)) ∈ p1ytd /\
                    p1ytd_sales (totals m) = fillna0 (Some s) /\
                    p1ytd_quantity (totals m) = fillna0 (Some q))) /\
  (NoDup (map fst ytd) -> NoDup (map fst pytd) -> NoDup (map fst p1ytd) ->
   NoDup (map product_name out)).
Proof.
  intros out. subst out. split; [|split].
  - intros p. rewrite assemble_names, !outer_merge_keys. tauto.
  - intros m Hm. apply elem_of_assemble in Hm as (oy & op & o1 & E & Hy & Hp & H1).
    assert (Ein : forall (o : option (V * V)) (l : list (string * (V * V))) (k : string),
               match o with Some y => (k, y) ∈ l | None => k ∉ map fst l end ->
               (k ∉ map fst l -> o = None) /\
               (k ∈ map fst l -> exists s q, o = Some (s, q) /\ (k, (s, q)) ∈ l)).
    { intros o l k Ho. destruct o as [[s q]|].
      - split.
        + intros Hk. exfalso. apply Hk. change (map fst l) with (fst <$> l).
          apply list_elem_of_fmap. now exists (k, (s, q)).
        + intros _. now exists s, q.
      - split; [reflexivity|]. intros Hk. contradiction. }
    apply Ein in Hy as (Hy0 & Hy1). apply Ein in Hp as (Hp0 & Hp1).
    apply Ein in H1 as (H10 & H11).
    rewrite E. cbn [as_of_date fiscal_year totals product_name ytd_sales ytd_quantity
                    pytd_sales pytd_quantity p1ytd_sales p1ytd_quantity].
    split; [reflexivity|]. split; [reflexivity|].
    split; [intros Hk; rewrite (Hy0 Hk); split; reflexivity|].
    split; [intros Hk; rewrite (Hp0 Hk); split; reflexivity|].
    split; [intros Hk; rewrite (H10 Hk); split; reflexivity|].
    split; [|split].
    + intros Hk. destruct (Hy1 Hk) as (s & q & -> & Hin). now exists s, q.
    + intros Hk. destruct (Hp1 Hk) as (s & q & -> & Hin). now exists s, q.
    + intros Hk. destruct (H11 Hk) as (s & q & -> & Hin). now exists s, q.
  - intros Hy Hp H1. rewrite assemble_names.
    apply outer_merge_NoDup; [|assumption]. now apply outer_merge_NoDup.
Qed.
End AssembleFacts.
(** ** The totals of a summary *)

Section SummaryFacts.
Context {V : Type} `{Numeric V}.

Lemma find_keyed (f : string -> V * V) (keys : list string) (p : string) :
  List.find (fun r => bool_decide (fst r = p)) (map (fun k => (k, f k)) keys) =
  if decide (p ∈ keys) then Some (p, f p) else None.
Proof.
  induction keys as [|k keys IH]; [reflexivity|].
  cbn [map List.find fst]. destruct (decide (k = p)) as [->|Hne].
  - rewrite bool_decide_eq_true_2 by reflexivity.
    rewrite decide_True by left. reflexivity.
  - rewrite bool_decide_eq_false_2 by assumption. rewrite IH.
    destruct (decide (p ∈ keys)) as [Hin|Hnin].
    + rewrite decide_True by now right. reflexivity.
    + rewrite decide_False; [reflexivity|].
      intros Hin. apply elem_of_cons in Hin as [->|Hin]; contradiction.
Qed.

Lemma group_rows_nil (p : string) (rows : list (option string * (V * V))) :
  Some p ∉ map fst rows -> group_rows p rows = [].
Proof.
  intros Hp. unfold group_rows.
  induction rows as [|r rows IH]; [reflexivity|]. cbn [List.filter].
  destruct (decide (fst r = Some p)) as [E|Hne].
  - exfalso. apply Hp. cbn [map]. rewrite <- E. left.
  - rewrite bool_decide_eq_false_2 by assumption. apply IH.
    intros Hin. apply Hp. cbn [map]. now right.
Qed.

Lemma summary_row_groupby (rows : list (option string * (V * V))) (p : string) :
  summary_row (groupby_sum String.le rows) p =
  if decide (Some p ∈ map fst rows)
  then Some (p, (group_sum (map fst (group_rows p rows)),
                 group_sum (map snd (group_rows p rows))))
  else None.
Proof.
  unfold summary_row, groupby_sum.
  rewrite (find_keyed (fun k => (group_sum (map fst (group_rows k rows)),
                                  group_sum (map snd (group_rows k rows))))).
  destruct (decide (p ∈ group_keys String.le (map fst rows))) as [Hin|Hnin];
    rewrite elem_of_group_keys in *.
  - now rewrite decide_True.
  - now rewrite decide_False.
Qed.

(** The totals that a summary shows for a product are the sums over the kept
    records of that product, also when there are none. *)
Lemma summary_of_aggregate (records : list (Sales.row V)) (start end_ : datetime)
  (p : string) :
  let group :=
    List.filter (fun r => bool_decide (Sales.product_name r = Some p))
      (List.filter (in_period start end_) records) in
  summary_sales (aggregate records start end_) p = group_sum (map Sales.sales_amount group) /\
  summary_quantity (aggregate records start end_) p = group_sum (map Sales.quantity group).
Proof.
  cbv zeta. unfold summary_sales, summary_quantity, aggregate.
  rewrite summary_row_groupby.
  destruct (decide _) as [Hin|Hnin]; cbn [fst snd].
  - rewrite group_rows_sales, !map_map. split; reflexivity.
  - apply group_rows_nil in Hnin. rewrite group_rows_sales in Hnin.
    apply map_eq_nil in Hnin. rewrite Hnin. split; reflexivity.
Qed.

End SummaryFacts.

(** ** Exact binary64 arithmetic on whole numbers *)

Lemma digits2_pos_bounds (p : positive) :
  2 ^ (Zpos (digits2_pos p) - 1) <= Zpos p < 2 ^ Zpos (digits2_pos p).
Proof.
  induction p as [p IH|p IH|]; cbn [digits2_pos].
  - rewrite Pos2Z.inj_succ.
    replace (Z.succ (Zpos (digits2_pos p)) - 1) with (Z.succ (Zpos (digits2_pos p) - 1)) by lia.
    rewrite !Z.pow_succ_r by lia. lia.
  - rewrite Pos2Z.inj_succ.
    replace (Z.succ (Zpos (digits2_pos p)) - 1) with (Z.succ (Zpos (digits2_pos p) - 1)) by lia.
    rewrite !Z.pow_succ_r by lia. lia.
  - cbn. lia.
Qed.

Lemma digits2_pos_unique (p : positive) (d : Z) :
  2 ^ (d - 1) <= Zpos p < 2 ^ d -> Zpos (digits2_pos p) = d.
Proof.
  intros (Hl & Hu). pose proof (digits2_pos_bounds p) as (Hl' & Hu').
  assert (0 < d).
  { destruct (Z.ltb_spec 0 d); [assumption|].
    destruct (Z.eq_dec d 0) as [->|]; [cbn in Hu; lia|].
    rewrite Z.pow_neg_r in Hu by lia. lia. }
  destruct (Z.lt_trichotomy (Zpos (digits2_pos p)) d) as [Hlt|[E|Hgt]]; [|assumption|].
  - assert (2 ^ Zpos (digits2_pos p) <= 2 ^ (d - 1)) by (apply Z.pow_le_mono_r; lia). lia.
  - assert (2 ^ d <= 2 ^ (Zpos (digits2_pos p) - 1)) by (apply Z.pow_le_mono_r; lia). lia.
Qed.

Lemma digits2_pos_shift (p : positive) (k : Z) :
  0 <= k -> Zpos (digits2_pos (Z.to_pos (Zpos p * 2 ^ k))) = Zpos (digits2_pos p) + k.
Proof.
  intros Hk. apply digits2_pos_unique.
  pose proof (digits2_pos_bounds p) as (Hl & Hu).
  assert (0 < 2 ^ k) by (apply Z.pow_pos_nonneg; lia).
  rewrite Z2Pos.id by nia.
  replace (Zpos (digits2_pos p) + k - 1) with (Zpos (digits2_pos p) - 1 + k) by lia.
  rewrite !Z.pow_add_r by lia. nia.
Qed.

Lemma iter_xO (p n : positive) : Zpos (Pos.iter xO p n) = Zpos p * 2 ^ Zpos n.
Proof.
  induction n as [|n IH] using Pos.peano_ind.
  - cbn. lia.
  - rewrite Pos.iter_succ, Pos2Z.inj_succ, Z.pow_succ_r by lia.
    rewrite Pos2Z.inj_xO, IH. lia.
Qed.

Lemma shr_1_even (z : Z) :
  0 < z ->
  shr_1 (Build_shr_record (2 * z) false false) = Build_shr_record z false false.
Proof. destruct z as [|q|q]; try lia. reflexivity. Qed.

Lemma iter_shr_1_exact (p : positive) (z : Z) :
  0 < z ->
  SpecFloat.iter_pos shr_1 p (Build_shr_record (z * 2 ^ Zpos p) false false) =
  Build_shr_record z false false.
Proof.
  revert z. induction p as [p IH|p IH|]; intros z Hz; cbn [SpecFloat.iter_pos].
  - assert (0 < 2 ^ Zpos p) by (apply Z.pow_pos_nonneg; lia).
    replace (z * 2 ^ Zpos p~1) with (2 * (z * 2 ^ Zpos p * 2 ^ Zpos p)).
    2:{ replace (Zpos p~1) with (Zpos p + Zpos p + 1) by lia.
        rewrite !Z.pow_add_r, Z.pow_1_r by lia. lia. }
    rewrite shr_1_even by nia. rewrite IH by nia. now apply IH.
  - assert (0 < 2 ^ Zpos p) by (apply Z.pow_pos_nonneg; lia).
    replace (z * 2 ^ Zpos p~0) with (z * 2 ^ Zpos p * 2 ^ Zpos p).
    2:{ replace (Zpos p~0) with (Zpos p + Zpos p) by lia.
        rewrite Z.pow_add_r by lia. lia. }
    rewrite IH by nia. now apply IH.
  - rewrite Z.pow_1_r. replace (z * 2) with (2 * z) by lia. now apply shr_1_even.
Qed.

Lemma fexp_normal (e : Z) : -1021 <= e -> fexp 53 1024 e = e - 53.
Proof. unfold fexp, emin. lia. Qed.

Lemma binary_round_aux_exact (s : bool) (mx ex : Z) (m' : positive) (e' : Z) :
  shr_fexp 53 1024 mx ex loc_Exact = (Build_shr_record (Zpos m') false false, e') ->
  Zpos (digits2_pos m') = 53 -> -1074 <= e' <= 971 ->
  binary_round_aux 53 1024 s mx ex loc_Exact = S754_finite s m' e'.
Proof.
  intros Hs Hd He. unfold binary_round_aux. rewrite Hs.
  cbn [shr_m loc_of_shr_record round_nearest_even].
  unfold shr_fexp. cbn [Zdigits2 shr_record_of_loc]. rewrite Hd, fexp_normal by lia.
  replace (53 + e' - 53 - e') with 0 by lia. cbn [shr shr_m].
  replace (e' <=? 1024 - 53) with true by (symmetry; apply Z.leb_le; lia).
  reflexivity.
Qed.

(** Rounding a mantissa of 53 significant bits followed by [n] zero bits
    drops the zero bits and nothing else. *)
Lemma binary_round_aux_shift (s : bool) (m : positive) (e n : Z) :
  Zpos (digits2_pos m) = 53 -> -1074 <= e <= 971 -> 0 <= n ->
  binary_round_aux 53 1024 s (Zpos m * 2 ^ n) (e - n) loc_Exact = S754_finite s m e.
Proof.
  intros Hd He Hn. apply binary_round_aux_exact; [|assumption..].
  assert (Hpos : 0 < Zpos m * 2 ^ n)
    by (assert (0 < 2 ^ n) by (apply Z.pow_pos_nonneg; lia); nia).
  assert (Hdig : Zdigits2 (Zpos m * 2 ^ n) = 53 + n).
  { rewrite <- (Z2Pos.id (Zpos m * 2 ^ n)) by assumption. cbn [Zdigits2].
    rewrite digits2_pos_shift by lia. lia. }
  unfold shr_fexp. rewrite Hdig. cbn [shr_record_of_loc].
  rewrite fexp_normal by lia.
  replace (53 + n + (e - n) - 53 - (e - n)) with n by lia.
  destruct n as [|n|n]; [| |lia]; cbn [shr].
  - rewrite Z.mul_1_r. f_equal. lia.
  - rewrite iter_shr_1_exact by lia. f_equal. lia.
Qed.

(** The binary64 value of a whole number [q * 2^k] below [2^53 * 2^k]:
    the mantissa is [q] shifted to 53 bits. *)
Lemma binary_round_exact (s : bool) (q : positive) (k : Z) :
  Zpos (digits2_pos q) <= 53 -> 0 <= k ->
  binary_round 53 1024 s (Z.to_pos (Zpos q * 2 ^ k)) (- k) =
  S754_finite s (Z.to_pos (Zpos q * 2 ^ (53 - Zpos (digits2_pos q))))
              (Zpos (digits2_pos q) - 53).
Proof.
  intros Hd Hk. set (d := Zpos (digits2_pos q)) in *.
  assert (Hd1 : 1 <= d) by (subst d; lia).
  assert (Hpk : 0 < 2 ^ k) by (apply Z.pow_pos_nonneg; lia).
  assert (Hpd : 0 < 2 ^ (53 - d)) by (apply Z.pow_pos_nonneg; lia).
  set (M := Z.to_pos (Zpos q * 2 ^ (53 - d))).
  assert (HM : Zpos M = Zpos q * 2 ^ (53 - d)) by (subst M; apply Z2Pos.id; nia).
  assert (HdM : Zpos (digits2_pos M) = 53).
  { subst M. rewrite digits2_pos_shift by lia. fold d. lia. }
  unfold binary_round. rewrite digits2_pos_shift by lia. fold d.
  replace (d + k + - k) with d by lia. rewrite fexp_normal by lia.
  unfold shl_align. destruct (d - 53 - - k) as [|n|n] eqn:En.
  - replace (Zpos (Z.to_pos (Zpos q * 2 ^ k))) with (Zpos M * 2 ^ 0).
    2:{ rewrite Z2Pos.id, HM, Z.mul_1_r by nia. f_equal. f_equal. lia. }
    replace (- k) with (d - 53 - 0) by lia.
    apply binary_round_aux_shift; lia.
  - replace (Zpos (Z.to_pos (Zpos q * 2 ^ k))) with (Zpos M * 2 ^ Zpos n).
    2:{ rewrite Z2Pos.id, HM, <- Z.mul_assoc, <- Z.pow_add_r by (try nia; lia).
        f_equal. f_equal. lia. }
    replace (- k) with (d - 53 - Zpos n) by lia.
    apply binary_round_aux_shift; lia.
  - replace (Pos.iter xO (Z.to_pos (Zpos q * 2 ^ k)) n) with M.
    2:{ apply Pos2Z.inj. rewrite iter_xO, Z2Pos.id, HM by nia.
        rewrite <- Z.mul_assoc, <- Z.pow_add_r by lia. f_equal. f_equal. lia. }
    replace (Zpos M) with (Zpos M * 2 ^ 0) by (rewrite Z.mul_1_r; reflexivity).
    replace (d - 53) with (d - 53 - 0) at 1 by lia.
    apply binary_round_aux_shift; lia.
Qed.

Lemma digits2_pos_small (q : positive) :
  Zpos q < 2 ^ 53 -> Zpos (digits2_pos q) <= 53.
Proof.
  intros H. pose proof (digits2_pos_bounds q) as (Hl & _).
  destruct (Z.leb_spec (Zpos (digits2_pos q)) 53) as [|Hgt]; [assumption|].
  assert (2 ^ 53 <= 2 ^ (Zpos (digits2_pos q) - 1)) by (apply Z.pow_le_mono_r; lia).
  lia.
Qed.

Lemma binary_round_of_pos (s : bool) (q : positive) :
  Zpos q < 2 ^ 53 ->
  binary_round 53 1024 s q 0 =
  S754_finite s (Z.to_pos (Zpos q * 2 ^ (53 - Zpos (digits2_pos q))))
              (Zpos (digits2_pos q) - 53).
Proof.
  intros Hq. pose proof (binary_round_exact s q 0 (digits2_pos_small q Hq)) as H.
  rewrite Z.pow_0_r, Z.mul_1_r in H. cbn [Z.to_pos Z.opp] in H. apply H. lia.
Qed.

(** A whole number times a power of two, normalised at the matching
    negative exponent, is the binary64 value of the whole number. *)
Lemma binary_normalize_exact (v k : Z) :
  Z.abs v < 2 ^ 53 -> 0 <= k ->
  binary_normalize 53 1024 (v * 2 ^ k) (- k) false = b64_of_Z v.
Proof.
  intros Hv Hk. unfold b64_of_Z.
  assert (Hpk : 0 < 2 ^ k) by (apply Z.pow_pos_nonneg; lia).
  destruct v as [|q|q].
  - reflexivity.
  - replace (Zpos q * 2 ^ k) with (Zpos (Z.to_pos (Zpos q * 2 ^ k)))
      by (apply Z2Pos.id; nia).
    cbn [binary_normalize].
    rewrite binary_round_exact, binary_round_of_pos by (try apply digits2_pos_small; lia).
    reflexivity.
  - replace (Zneg q * 2 ^ k) with (Zneg (Z.to_pos (Zpos q * 2 ^ k))).
    2:{ rewrite <- Pos2Z.opp_pos, Z2Pos.id by nia. lia. }
    cbn [binary_normalize].
    rewrite binary_round_exact, binary_round_of_pos by (try apply digits2_pos_small; lia).
    reflexivity.
Qed.

Lemma b64_of_Z_finite (v : Z) :
  v <> 0 -> Z.abs v < 2 ^ 53 ->
  exists m e,
    b64_of_Z v = S754_finite (v <? 0) m e /\ -52 <= e <= 0 /\
    Zpos m = Z.abs v * 2 ^ (- e).
Proof.
  intros Hv Hs. unfold b64_of_Z. destruct v as [|q|q]; [contradiction| |];
    [change (Z.abs (Zpos q)) with (Zpos q) in *
    |change (Z.abs (Zneg q)) with (Zpos q) in *];
    cbn [binary_normalize];
    rewrite binary_round_of_pos by assumption;
    pose proof (digits2_pos_small q Hs) as Hd;
    (assert (0 < 2 ^ (53 - Zpos (digits2_pos q))) by (apply Z.pow_pos_nonneg; lia));
    eexists _, _; (split; [reflexivity|]); (split; [lia|]);
    rewrite Z2Pos.id by nia; f_equal; f_equal; lia.
Qed.

Lemma shl_align_value (m : positive) (e e' : Z) :
  e' <= e -> Zpos (fst (shl_align m e e')) = Zpos m * 2 ^ (e - e').
Proof.
  intros He. unfold shl_align. destruct (e' - e) as [|n|n] eqn:En; cbn [fst].
  - replace (e - e') with 0 by lia. lia.
  - lia.
  - rewrite iter_xO. f_equal. f_equal. lia.
Qed.

Lemma cond_Zopp_abs (v x : Z) : cond_Zopp (v <? 0) (Z.abs v * x) = v * x.
Proof. unfold cond_Zopp. destruct (Z.ltb_spec v 0); [rewrite Z.abs_neq|rewrite Z.abs_eq]; lia. Qed.

Lemma b64_of_Z_0 : b64_of_Z 0 = S754_zero false.
Proof. reflexivity. Qed.

(** Binary64 addition and subtraction are exact on whole numbers below
    [2^53]. *)
Lemma b64_add_exact (a b : Z) :
  Z.abs a < 2 ^ 53 -> Z.abs b < 2 ^ 53 -> Z.abs (a + b) < 2 ^ 53 ->
  b64_add (b64_of_Z a) (b64_of_Z b) = b64_of_Z (a + b).
Proof.
  intros Ha Hb Hab.
  destruct (Z.eq_dec a 0) as [->|Hna].
  { rewrite Z.add_0_l, b64_of_Z_0. destruct (Z.eq_dec b 0) as [->|Hnb]; [reflexivity|].
    destruct (b64_of_Z_finite b Hnb Hb) as (m & e & -> & _). reflexivity. }
  destruct (b64_of_Z_finite a Hna Ha) as (ma & ea & Ea & Hea & Hma).
  destruct (Z.eq_dec b 0) as [->|Hnb].
  { rewrite Z.add_0_r, b64_of_Z_0, Ea. reflexivity. }
  destruct (b64_of_Z_finite b Hnb Hb) as (mb & eb & Eb & Heb & Hmb).
  rewrite Ea, Eb. unfold b64_add, SFadd. cbv zeta.
  rewrite !shl_align_value, Hma, Hmb by lia.
  rewrite <- !Z.mul_assoc, <- !Z.pow_add_r by lia.
  rewrite !cond_Zopp_abs.
  replace (- ea + (ea - Z.min ea eb)) with (- Z.min ea eb) by lia.
  replace (- eb + (eb - Z.min ea eb)) with (- Z.min ea eb) by lia.
  rewrite <- Z.mul_add_distr_r.
  replace (Z.min ea eb) with (- - Z.min ea eb) at 2 by lia.
  apply binary_normalize_exact; lia.
Qed.

Lemma b64_of_Z_opp (b : Z) :
  b <> 0 -> Z.abs b < 2 ^ 53 -> b64_of_Z (- b) = SFopp (b64_of_Z b).
Proof.
  intros Hnb Hb. unfold b64_of_Z. destruct b as [|q|q]; [contradiction| |].
  - change (- Zpos q) with (Zneg q). change (Z.abs (Zpos q)) with (Zpos q) in Hb.
    cbn [binary_normalize]. now rewrite !binary_round_of_pos by assumption.
  - change (- Zneg q) with (Zpos q). change (Z.abs (Zneg q)) with (Zpos q) in Hb.
    cbn [binary_normalize]. now rewrite !binary_round_of_pos by assumption.
Qed.

Lemma b64_sub_exact (a b : Z) :
  Z.abs a < 2 ^ 53 -> Z.abs b < 2 ^ 53 -> Z.abs (a - b) < 2 ^ 53 ->
  b64_sub (b64_of_Z a) (b64_of_Z b) = b64_of_Z (a - b).
Proof.
  intros Ha Hb Hab.
  destruct (Z.eq_dec b 0) as [->|Hnb].
  { rewrite Z.sub_0_r, b64_of_Z_0. destruct (Z.eq_dec a 0) as [->|Hna]; [reflexivity|].
    destruct (b64_of_Z_finite a Hna Ha) as (m & e & -> & _). reflexivity. }
  destruct (b64_of_Z_finite b Hnb Hb) as (mb & eb & Eb & Heb & Hmb).
  destruct (Z.eq_dec a 0) as [->|Hna].
  { rewrite Z.sub_0_l, b64_of_Z_0, (b64_of_Z_opp b Hnb Hb), Eb. reflexivity. }
  destruct (b64_of_Z_finite a Hna Ha) as (ma & ea & Ea & Hea & Hma).
  rewrite Ea, Eb. unfold b64_sub, SFsub. cbv zeta.
  rewrite !shl_align_value, Hma, Hmb by lia.
  rewrite <- !Z.mul_assoc, <- !Z.pow_add_r by lia.
  rewrite !cond_Zopp_abs.
  replace (- ea + (ea - Z.min ea eb)) with (- Z.min ea eb) by lia.
  replace (- eb + (eb - Z.min ea eb)) with (- Z.min ea eb) by lia.
  rewrite <- Z.mul_sub_distr_r.
  replace (Z.min ea eb) with (- - Z.min ea eb) at 2 by lia.
  apply binary_normalize_exact; lia.
Qed.

(** ** The sum of a group *)

Lemma abs_sum_nonneg (l : list Z) : 0 <= abs_sum l.
Proof. induction l as [|z l IH]; cbn [abs_sum]; lia. Qed.

Lemma exact_sum_bound (l : list Z) : Z.abs (exact_sum l) <= abs_sum l.
Proof. induction l as [|z l IH]; cbn [abs_sum exact_sum]; lia. Qed.

Lemma exact_sum_app (l1 l2 : list Z) :
  exact_sum (l1 ++ l2) = exact_sum l1 + exact_sum l2.
Proof. induction l1 as [|z l1 IH]; cbn [app exact_sum]; lia. Qed.

Lemma abs_sum_app (l1 l2 : list Z) : abs_sum (l1 ++ l2) = abs_sum l1 + abs_sum l2.
Proof. induction l1 as [|z l1 IH]; cbn [app abs_sum]; lia. Qed.

Lemma b64_of_Z_not_nan (z : Z) : Z.abs z < 2 ^ 53 -> b64_isnan (b64_of_Z z) = false.
Proof.
  intros Hz. destruct (Z.eq_dec z 0) as [->|Hn]; [reflexivity|].
  destruct (b64_of_Z_finite z Hn Hz) as (m & e & -> & _). reflexivity.
Qed.

(** One step of the compensated sum at [float64]. *)
Lemma group_sum_step_float (sumx compensation val : float64) :
  group_sum_step (sumx, compensation) val =
  (b64_add sumx (b64_sub val compensation),
   if b64_isnan (b64_sub (b64_sub (b64_add sumx (b64_sub val compensation)) sumx)
                         (b64_sub val compensation))
   then b64_zero
   else b64_sub (b64_sub (b64_add sumx (b64_sub val compensation)) sumx)
                (b64_sub val compensation)).
Proof. reflexivity. Qed.

Lemma group_sum_step_exact (s z : Z) :
  Z.abs s + Z.abs z < 2 ^ 53 ->
  group_sum_step (b64_of_Z s, b64_zero) (b64_of_Z z) = (b64_of_Z (s + z), b64_zero).
Proof.
  intros Hb. rewrite group_sum_step_float.
  assert (0 < 2 ^ 53) by reflexivity.
  change b64_zero with (b64_of_Z 0).
  rewrite (b64_sub_exact z 0), Z.sub_0_r by lia.
  rewrite (b64_add_exact s z) by lia.
  rewrite (b64_sub_exact (s + z) s) by lia.
  replace (s + z - s) with z by lia.
  rewrite (b64_sub_exact z z), Z.sub_diag by lia.
  reflexivity.
Qed.

Lemma fold_group_sum_exact (zs : list Z) (s : Z) :
  Z.abs s + abs_sum zs < 2 ^ 53 ->
  fold_left group_sum_step (map b64_of_Z zs) (b64_of_Z s, b64_zero) =
  (b64_of_Z (s + exact_sum zs), b64_zero).
Proof.
  revert s. induction zs as [|z zs IH]; intros s Hb; cbn [map fold_left exact_sum].
  - now rewrite Z.add_0_r.
  - cbn [abs_sum] in Hb. pose proof (abs_sum_nonneg zs).
    rewrite group_sum_step_exact by lia.
    rewrite IH by lia. f_equal. f_equal. lia.
Qed.

Lemma filter_not_nan_whole (zs : list Z) :
  abs_sum zs < 2 ^ 53 ->
  List.filter (fun v => negb (b64_isnan v)) (map b64_of_Z zs) = map b64_of_Z zs.
Proof.
  induction zs as [|z zs IH]; intros Hb; [reflexivity|].
  cbn [abs_sum] in Hb. pose proof (abs_sum_nonneg zs).
  cbn [map List.filter]. rewrite b64_of_Z_not_nan by lia. cbn [negb].
  rewrite IH by lia. reflexivity.
Qed.

(** On whole numbers whose absolute values add up to less than [2^53] the
    compensated sum is the exact sum. *)
Lemma group_sum_whole (zs : list Z) :
  abs_sum zs < 2 ^ 53 -> group_sum (map b64_of_Z zs) = b64_of_Z (exact_sum zs).
Proof.
  intros Hb. unfold group_sum. cbn [isna zero float64_numeric].
  rewrite filter_not_nan_whole by assumption.
  pose proof (abs_sum_nonneg zs).
  change b64_zero with (b64_of_Z 0) at 1.
  rewrite fold_group_sum_exact by lia. reflexivity.
Qed.

Lemma b64_sub_zero_r (x : float64) : b64_sub x b64_zero = x.
Proof. now destruct x as [[]|[]| |]. Qed.

Lemma b64_sub_diag_finite (s : bool) (m : positive) (e : Z) :
  b64_sub (S754_finite s m e) (S754_finite s m e) = b64_zero.
Proof. unfold b64_sub, SFsub. cbv zeta. now rewrite Z.sub_diag. Qed.

(** The first value of a group: the compensation stays zero. *)
Lemma group_sum_step_first (a : float64) :
  b64_isnan a = false ->
  group_sum_step (b64_zero, b64_zero) a = (b64_add b64_zero a, b64_zero).
Proof.
  intros Ha. destruct a as [[]|[]| |s m e]; try reflexivity; try discriminate.
  rewrite group_sum_step_float, b64_sub_zero_r.
  change (b64_add b64_zero (S754_finite s m e)) with (S754_finite s m e).
  now rewrite b64_sub_zero_r, b64_sub_diag_finite.
Qed.

(** Up to two values the compensated sum is the binary64 sum. *)
Lemma group_sum_pair (a b : float64) :
  b64_isnan a = false -> b64_isnan b = false ->
  group_sum [a] = b64_add b64_zero a /\
  group_sum [a; b] = b64_add (b64_add b64_zero a) b.
Proof.
  intros Ha Hb. unfold group_sum. cbn [isna zero float64_numeric List.filter].
  rewrite Ha, Hb. cbn [negb fold_left].
  rewrite group_sum_step_first by assumption. split; [reflexivity|].
  rewrite group_sum_step_float. now rewrite b64_sub_zero_r.
Qed.

(** From the third value on, the rounding error of the additions so far is
    subtracted from the value before it is added. *)
Lemma group_sum_three (a b c : float64) :
  b64_isnan a = false -> b64_isnan b = false -> b64_isnan c = false ->
  group_sum [a; b; c] =
  let first := b64_add b64_zero a in
  let t := b64_add first b in
  let lost := b64_sub (b64_sub t first) b in
  b64_add t (b64_sub c (if b64_isnan lost then b64_zero else lost)).
Proof.
  intros Ha Hb Hc. unfold group_sum. cbn [isna zero float64_numeric List.filter].
  rewrite Ha, Hb, Hc. cbn [negb fold_left].
  rewrite group_sum_step_first by assumption.
  rewrite !group_sum_step_float, b64_sub_zero_r. reflexivity.
Qed.

Lemma group_sum_skips_nan (l : list float64) :
  group_sum (List.filter (fun v => negb (b64_isnan v)) l) = group_sum l.
Proof.
  unfold group_sum. cbn [isna float64_numeric]. f_equal. f_equal.
  induction l as [|x l IH]; [reflexivity|]. cbn [List.filter].
  destruct (b64_isnan x) eqn:E; cbn [negb List.filter]; [exact IH|].
  rewrite E. cbn [negb]. now rewrite IH.
Qed.

(** C6. Period aggregation keeps exactly the records whose date lies
    between the window's start and end, both bounds included; its result has
    one row per product name among the kept records; the row of a product
    carries the sums of [sales_amount] and of [quantity] over the kept
    records of that product, as pandas adds them up: missing values are
    skipped, whole numbers (below [2^53] in total) are added exactly, two
    values give their binary64 sum, and from the third value on the rounding
    error made so far is taken off the value before it is added (the
    compensated sum [group_sum]); with no record in the window the result is
    the empty list. *)
Theorem aggregate_spec (records : list (Sales.row float64)) (start end_ : datetime) :
  let kept := List.filter (in_period start end_) records in
  (forall r, r ∈ kept <->
             r ∈ records /\
             exists t, Sales.date r = TS t /\ dt_le start t /\ dt_le t end_) /\
  (forall p, p ∈ map fst (aggregate records start end_) <->
             exists r, r ∈ kept /\ Sales.product_name r = Some p) /\
  NoDup (map fst (aggregate records start end_)) /\
  (forall p s q,
     (p, (s, q)) ∈ aggregate records start end_ ->
     let group :=
       List.filter (fun r => bool_decide (Sales.product_name r = Some p)) kept in
     s = group_sum (map Sales.sales_amount group) /\
     q = group_sum (map Sales.quantity group) /\
     (forall zs, map Sales.sales_amount group = map b64_of_Z zs ->
                 abs_sum zs < 2 ^ 53 -> s = b64_of_Z (exact_sum zs)) /\
     (forall zs, map Sales.quantity group = map b64_of_Z zs ->
                 abs_sum zs < 2 ^ 53 -> q = b64_of_Z (exact_sum zs))) /\
  (forall zs, abs_sum zs < 2 ^ 53 ->
              group_sum (map b64_of_Z zs) = b64_of_Z (exact_sum zs)) /\
  (forall a b, b64_isnan a = false -> b64_isnan b = false ->
               group_sum [a] = b64_add b64_zero a /\
               group_sum [a; b] = b64_add (b64_add b64_zero a) b) /\
  (forall a b c, b64_isnan a = false -> b64_isnan b = false -> b64_isnan c = false ->
                 group_sum [a; b; c] =
                 let first := b64_add b64_zero a in
                 let t := b64_add first b in
                 let lost := b64_sub (b64_sub t first) b in
                 b64_add t (b64_sub c (if b64_isnan lost then b64_zero else lost))) /\
  (forall l, group_sum (List.filter (fun v => negb (b64_isnan v)) l) = group_sum l) /\
  (kept = [] -> aggregate records start end_ = []).
Proof.
  cbv zeta. split; [|split; [|split; [|split; [|split; [|split; [|split; [|split]]]]]]].
  - apply elem_of_kept.
  - apply aggregate_keys.
  - apply aggregate_NoDup.
  - intros p s q Hin. apply aggregate_sums in Hin as (-> & ->).
    split; [reflexivity|]. split; [reflexivity|].
    split; intros zs -> Hb; now apply group_sum_whole.
  - apply group_sum_whole.
  - apply group_sum_pair.
  - apply group_sum_three.
  - apply group_sum_skips_nan.
  - unfold aggregate. intros ->. reflexivity.
Qed.

(** Sums of decimal amounts are compensated: three tenths add up to 0.6,
    where adding from left to right gives 0.6000000000000001; and the two
    units added to [2^53] are not lost. *)
Example group_sum_compensated :
  let dec n := b64_div (b64_of_Z n) (b64_of_Z 10) in
  group_sum [dec 1; dec 2; dec 3] = dec 6 /\
  b64_add (b64_add (dec 1) (dec 2)) (dec 3) <> dec 6 /\
  group_sum [b64_of_Z (2 ^ 53); b64_of_Z 1; b64_of_Z 1] = b64_of_Z (2 ^ 53 + 2).
Proof.
  cbv zeta. split; [vm_compute; reflexivity|]. split; [vm_compute; discriminate|].
  vm_compute. reflexivity.
Qed.

(** ** Aggregating a concatenation *)

Lemma group_of_absent (l : list (Sales.row float64)) (start end_ : datetime) (p : string) :
  p ∉ map fst (aggregate l start end_) ->
  List.filter (fun r => bool_decide (Sales.product_name r = Some p))
    (List.filter (in_period start end_) l) = [].
Proof.
  intros Hp.
  destruct (List.filter _ (List.filter _ l)) as [|r g] eqn:E; [reflexivity|].
  exfalso. apply Hp. apply aggregate_keys. exists r.
  assert (Hr : In r (List.filter
                       (fun r => bool_decide (Sales.product_name r = Some p))
                       (List.filter (in_period start end_) l)))
    by (rewrite E; now left).
  apply filter_In in Hr as (Hr & Hn). apply bool_decide_eq_true in Hn.
  split; [now apply list_elem_of_In|assumption].
Qed.

(** C9. Aggregating the concatenation of two record lists gives the
    products of both. A product with records in only one of the two lists
    has that list's totals. For a product whose amounts (or quantities) in
    the window are whole numbers with absolute values adding up to less than
    [2^53], the total over the concatenation is the sum of the two totals. *)
Theorem aggregate_app (a b : list (Sales.row float64)) (start end_ : datetime)
  (p : string) :
  let group l :=
    List.filter (fun r => bool_decide (Sales.product_name r = Some p))
      (List.filter (in_period start end_) l) in
  (p ∈ map fst (aggregate (a ++ b) start end_) <->
   p ∈ map fst (aggregate a start end_) \/ p ∈ map fst (aggregate b start end_)) /\
  (p ∉ map fst (aggregate b start end_) ->
   summary_sales (aggregate (a ++ b) start end_) p =
     summary_sales (aggregate a start end_) p /\
   summary_quantity (aggregate (a ++ b) start end_) p =
     summary_quantity (aggregate a start end_) p) /\
  (p ∉ map fst (aggregate a start end_) ->
   summary_sales (aggregate (a ++ b) start end_) p =
     summary_sales (aggregate b start end_) p /\
   summary_quantity (aggregate (a ++ b) start end_) p =
     summary_quantity (aggregate b start end_) p) /\
  (forall za zb,
     map Sales.sales_amount (group a) = map b64_of_Z za ->
     map Sales.sales_amount (group b) = map b64_of_Z zb ->
     abs_sum (za ++ zb) < 2 ^ 53 ->
     summary_sales (aggregate (a ++ b) start end_) p =
       b64_add (summary_sales (aggregate a start end_) p)
               (summary_sales (aggregate b start end_) p)) /\
  (forall za zb,
     map Sales.quantity (group a) = map b64_of_Z za ->
     map Sales.quantity (group b) = map b64_of_Z zb ->
     abs_sum (za ++ zb) < 2 ^ 53 ->
     summary_quantity (aggregate (a ++ b) start end_) p =
       b64_add (summary_quantity (aggregate a start end_) p)
               (summary_quantity (aggregate b start end_) p)).
Proof.
  cbv zeta.
  destruct (summary_of_aggregate (a ++ b) start end_ p) as (-> & ->).
  destruct (summary_of_aggregate a start end_ p) as (-> & ->).
  destruct (summary_of_aggregate b start end_ p) as (-> & ->).
  rewrite !List.filter_app, !map_app.
  split; [|split; [|split; [|split]]].
  - rewrite !aggregate_keys, List.filter_app. split.
    + intros (r & Hin & E). apply elem_of_app in Hin as [Hin|Hin]; eauto.
    + intros [(r & Hin & E)|(r & Hin & E)]; exists r; rewrite elem_of_app; auto.
  - intros Hp. rewrite (group_of_absent b start end_ p Hp). cbn [map].
    now rewrite !app_nil_r.
  - intros Hp. rewrite (group_of_absent a start end_ p Hp). now cbn [map app].
  - intros za zb -> -> Hb. rewrite <- map_app. rewrite abs_sum_app in Hb.
    pose proof (abs_sum_nonneg za). pose proof (abs_sum_nonneg zb).
    pose proof (exact_sum_bound za). pose proof (exact_sum_bound zb).
    rewrite !group_sum_whole by (rewrite ?abs_sum_app; lia).
    rewrite exact_sum_app. symmetry. apply b64_add_exact; lia.
  - intros za zb -> -> Hb. rewrite <- map_app. rewrite abs_sum_app in Hb.
    pose proof (abs_sum_nonneg za). pose proof (abs_sum_nonneg zb).
    pose proof (exact_sum_bound za). pose proof (exact_sum_bound zb).
    rewrite !group_sum_whole by (rewrite ?abs_sum_app; lia).
    rewrite exact_sum_app. symmetry. apply b64_add_exact; lia.
Qed.

Lemma aggregate_app_witness :
  let a := [Sales.mk (TS (mk_datetime 2023 4 10 0)) (Some "A") (b64_of_Z 100) (b64_of_Z 1);
            Sales.mk (TS (mk_datetime 2023 5 2 0)) (Some "B") (b64_of_Z 50) (b64_of_Z 2)] in
  let b := [Sales.mk (TS (mk_datetime 2023 6 1 0)) (Some "A") (b64_of_Z 7) (b64_of_Z 3)] in
  let start := mk_datetime 2023 4 1 0 in
  let end_ := mk_datetime 2023 6 30 0 in
  summary_sales (aggregate (a ++ b) start end_) "A" =
    b64_add (summary_sales (aggregate a start end_) "A")
            (summary_sales (aggregate b start end_) "A") /\
  summary_quantity (aggregate (a ++ b) start end_) "A" =
    b64_add (summary_quantity (aggregate a start end_) "A")
            (summary_quantity (aggregate b start end_) "A") /\
  (summary_sales (aggregate (a ++ b) start end_) "B" =
     summary_sales (aggregate a start end_) "B" /\
   summary_quantity (aggregate (a ++ b) start end_) "B" =
     summary_quantity (aggregate a start end_) "B").
Proof.
  intros a b start end_.
  destruct (aggregate_app a b start end_ "A") as (_ & _ & _ & Hs & Hq).
  destruct (aggregate_app a b start end_ "B") as (_ & Hb & _).
  split; [|split].
  - apply (Hs [100] [7]); vm_compute; reflexivity.
  - apply (Hq [1] [3]); vm_compute; reflexivity.
  - apply Hb. intros H. vm_compute in H.
    apply elem_of_cons in H as [H|H]; [discriminate|now apply elem_of_nil in H].
Defined.

(** With decimal amounts the totals of the two parts do not add up to the
    total of the whole: 0.1 and 0.2 in one part and 0.3 in the other give
    0.6 together, but 0.30000000000000004 + 0.3 = 0.6000000000000001. *)
Lemma aggregate_app_fails_on_decimals :
  let dec n := b64_div (b64_of_Z n) (b64_of_Z 10) in
  let sale amount := Sales.mk (TS (mk_datetime 2023 4 10 0)) (Some "A") amount (b64_of_Z 1) in
  let a := [sale (dec 1); sale (dec 2)] in
  let b := [sale (dec 3)] in
  let start := mk_datetime 2023 4 1 0 in
  let end_ := mk_datetime 2023 6 30 0 in
  summary_sales (aggregate (a ++ b) start end_) "A" = dec 6 /\
  summary_sales (aggregate (a ++ b) start end_) "A" <>
    b64_add (summary_sales (aggregate a start end_) "A")
            (summary_sales (aggregate b start end_) "A") /\
  b64_ltb (summary_sales (aggregate (a ++ b) start end_) "A")
          (b64_add (summary_sales (aggregate a start end_) "A")
                   (summary_sales (aggregate b start end_) "A")) = true.
Proof.
  cbv zeta. split; [vm_compute; reflexivity|].
  split; [vm_compute; discriminate|vm_compute; reflexivity].
Qed.
(** ** Running the functions on the store *)

Lemma assign_run (l : nat) (name : string) (e : expr) (s : store) :
  assign l name e s =
  match s !! l with
  | None => (s, Raise ReferenceError)
  | Some frame =>
      match assign_frame frame name e with
      | Ok frame' => (<[l := frame']> s, Ok tt)
      | Raise er => (s, Raise er)
      end
  end.
Proof.
  unfold assign, bind, read, lift, write.
  destruct (s !! l) as [frame|]; [|reflexivity].
  destruct (assign_frame frame name e); reflexivity.
Qed.

Lemma lookup_insert_same (s : store) (l : nat) (frame frame' : DataFrame) :
  s !! l = Some frame -> <[l := frame']> s !! l = Some frame'.
Proof. intros E. apply list_lookup_insert_eq. now apply lookup_lt_Some in E. Qed.

(** *** Frames that a computation leaves alone *)

Section Keeps.
Context {A B : Type}.

Lemma keeps_ret (n : nat) (a : A) (post : A -> Prop) :
  post a -> keeps n (ret a) post.
Proof. intros Ha s Hn. cbn. repeat split; [lia|]. now intros ? [= <-]. Qed.

Lemma keeps_lift (n : nat) (r : result A) (post : A -> Prop) :
  (forall a, r = Ok a -> post a) -> keeps n (lift r) post.
Proof. intros Hr s Hn. cbn. repeat split; [lia|]. exact Hr. Qed.

Lemma keeps_weaken (n : nat) (m : M A) (post post' : A -> Prop) :
  keeps n m post -> (forall a, post a -> post' a) -> keeps n m post'.
Proof.
  intros Hm Himp s Hn. destruct (Hm s Hn) as (? & ? & Hp). repeat split; auto.
Qed.

Lemma keeps_bind (n : nat) (m : M A) (k : A -> M B)
  (post : A -> Prop) (post' : B -> Prop) :
  keeps n m post -> (forall a, post a -> keeps n (k a) post') ->
  keeps n (bind m k) post'.
Proof.
  intros Hm Hk s Hn. unfold bind. destruct (Hm s Hn) as (Ht & Hl & Hp).
  destruct (m s) as [s1 [a|e]]; cbn in *.
  - destruct (Hk a (Hp a eq_refl) s1 ltac:(lia)) as (Ht' & Hl' & Hp').
    repeat split; [congruence|lia|assumption].
  - repeat split; [assumption|lia|discriminate].
Qed.
End Keeps.

Lemma keeps_read (n l : nat) : keeps n (read l) (fun _ => True).
Proof.
  intros s Hn. unfold read. destruct (s !! l); cbn; repeat split; lia.
Qed.

Lemma keeps_alloc (n : nat) (frame : DataFrame) :
  keeps n (alloc frame) (fun l => (n <= l)%nat).
Proof.
  intros s Hn. unfold alloc. cbn. rewrite take_app_le, length_app by assumption.
  repeat split; [lia|]. intros ? [= <-]. assumption.
Qed.

Lemma keeps_write (n l : nat) (frame : DataFrame) :
  (n <= l)%nat -> keeps n (write l frame) (fun _ => True).
Proof.
  intros Hl s Hn. unfold write. cbn. rewrite take_insert_ge, length_insert by assumption.
  repeat split; lia.
Qed.

Lemma keeps_assign (n l : nat) (name : string) (e : expr) :
  (n <= l)%nat -> keeps n (assign l name e) (fun _ => True).
Proof.
  intros Hl. unfold assign.
  eapply keeps_bind; [apply keeps_read|]. intros frame _.
  eapply keeps_bind; [apply keeps_lift; intros; exact I|]. intros frame' _.
  now apply keeps_write.
Qed.

Lemma keeps_copy (n l : nat) : keeps n (copy l) (fun l' => (n <= l')%nat).
Proof.
  unfold copy. eapply keeps_bind; [apply keeps_read|]. intros frame _.
  apply keeps_alloc.
Qed.

Lemma keeps_calculate_deltas (n metrics : nat) :
  keeps n (calculate_deltas metrics) (fun l => (n <= l)%nat).
Proof.
  unfold calculate_deltas.
  eapply keeps_bind; [apply keeps_copy|]. intros df Hdf.
  eapply keeps_bind; [apply keeps_read|]. intros frame _.
  eapply keeps_bind; [apply keeps_lift; intros; exact I|]. intros frame' _.
  eapply keeps_bind; [now apply keeps_write|]. intros _ _.
  now apply keeps_ret.
Qed.

Lemma keeps_prefix {A} (m : M A) (post : A -> Prop) (s : store) :
  keeps (length s) m post -> exists tail, fst (m s) = s ++ tail.
Proof.
  intros Hm. destruct (Hm s ltac:(lia)) as (Ht & _ & _).
  exists (drop (length s) (fst (m s))).
  rewrite <- (take_drop (length s) (fst (m s))) at 1.
  rewrite Ht, take_ge by lia. reflexivity.
Qed.
(** *** Columns that an assignment leaves alone *)

Lemma same_except_refl (names : list string) (frame : DataFrame) :
  same_except names frame frame.
Proof. intros name c _. reflexivity. Qed.

Lemma same_except_trans (names : list string) (f1 f2 f3 : DataFrame) :
  same_except names f1 f2 -> same_except names f2 f3 -> same_except names f1 f3.
Proof. intros H12 H23 name c Hn. now rewrite (H23 name c Hn), (H12 name c Hn). Qed.

Lemma same_except_setitem (names : list string) (frame : DataFrame)
  (name : string) (c : column) :
  name ∈ names -> same_except names frame (setitem frame name c).
Proof.
  intros Hin name' c' Hn. apply In_setitem_other. intros ->. contradiction.
Qed.

Section Touches.
Context {A B : Type}.

Lemma touches_pure (df : nat) (names : list string) (m : M A) :
  (forall s, fst (m s) = s) -> touches df names m.
Proof.
  intros Hm s frame E. exists frame, []. rewrite Hm, app_nil_r, list_insert_id by assumption.
  split; [reflexivity|apply same_except_refl].
Qed.

Lemma touches_bind (df : nat) (names : list string) (m : M A) (k : A -> M B) :
  touches df names m -> (forall a, touches df names (k a)) ->
  touches df names (bind m k).
Proof.
  intros Hm Hk s frame E. unfold bind.
  destruct (Hm s frame E) as (f1 & tail1 & Hs1 & Hf1).
  destruct (m s) as [s1 [a|e]]; cbn in Hs1; subst s1; cbn.
  - assert (E1 : (<[df := f1]> s ++ tail1) !! df = Some f1).
    { apply lookup_app_l_Some. now apply (lookup_insert_same _ _ frame). }
    destruct (Hk a _ f1 E1) as (f2 & tail2 & Hs2 & Hf2).
    exists f2, (tail1 ++ tail2). rewrite Hs2. split.
    + rewrite insert_app_l, list_insert_insert_eq, app_assoc; [reflexivity|].
      rewrite length_insert. now apply lookup_lt_Some in E.
    + now apply (same_except_trans _ _ f1).
  - now exists f1, tail1.
Qed.
End Touches.

Lemma touches_alloc (df : nat) (names : list string) (frame : DataFrame) :
  touches df names (alloc frame).
Proof.
  intros s f E. exists f, [frame]. unfold alloc. cbn.
  rewrite list_insert_id by assumption. split; [reflexivity|apply same_except_refl].
Qed.

Lemma touches_assign (df : nat) (names : list string) (name : string) (e : expr) :
  name ∈ names -> touches df names (assign df name e).
Proof.
  intros Hn s frame E. rewrite assign_run, E.
  destruct (assign_frame frame name e) as [frame'|er] eqn:Ea; cbn.
  - apply assign_frame_ok in Ea as (c & _ & ->).
    exists (setitem frame name c), []. rewrite app_nil_r.
    split; [reflexivity|now apply same_except_setitem].
  - exists frame, []. rewrite app_nil_r, list_insert_id by assumption.
    split; [reflexivity|apply same_except_refl].
Qed.

(** *** Column assignment and reading back *)

Lemma filter_setitem_same (df : DataFrame) (n : string) (c : column) :
  List.filter (named n) df <> [] ->
  List.filter (named n) (setitem df n c) =
  map (fun _ => (n, c)) (List.filter (named n) df).
Proof.
  intros Hne. unfold setitem.
  assert (Hex : existsb (named n) df = true).
  { destruct (List.filter (named n) df) as [|x l] eqn:E; [contradiction|].
    assert (Hx : In x (List.filter (named n) df)) by (rewrite E; now left).
    apply filter_In in Hx. apply existsb_exists. now exists x. }
  rewrite Hex. clear Hne Hex. induction df as [|x df IH]; [reflexivity|].
  cbn [map List.filter]. destruct (named n x) eqn:E.
  - replace (named n (n, c)) with true by (symmetry; now apply named_true).
    cbn [map]. now rewrite IH.
  - rewrite E. exact IH.
Qed.

Lemma getitem_setitem_eq (df : DataFrame) (n : string) (c c' : column) :
  getitem df n = Ok c -> getitem (setitem df n c') n = Ok c'.
Proof.
  unfold getitem. destruct (List.filter (named n) df) as [|x [|y l]] eqn:E;
    try discriminate.
  intros _. rewrite filter_setitem_same by (rewrite E; discriminate).
  rewrite E. reflexivity.
Qed.

Lemma setitem_getitem (df : DataFrame) (n : string) (c : column) :
  getitem df n = Ok c -> setitem df n c = df.
Proof.
  intros Hg. unfold setitem.
  assert (Hall : forall x, In x df -> named n x = true -> x = (n, c)).
  { unfold getitem in Hg.
    destruct (List.filter (named n) df) as [|y [|z l]] eqn:E; try discriminate.
    injection Hg as <-. intros x Hin Hx.
    assert (Hf : In x (List.filter (named n) df)) by (apply filter_In; now split).
    rewrite E in Hf. destruct Hf as [<-|[]].
    apply named_true in Hx. destruct y as [n' c']. cbn in *. now subst n'. }
  destruct (existsb (named n) df) eqn:Hex.
  - clear Hex Hg. induction df as [|x df IH]; [reflexivity|]. cbn [map].
    rewrite IH by (intros y Hy; apply Hall; now right). f_equal.
    destruct (named n x) eqn:E; [|reflexivity].
    symmetry. apply Hall; [now left|assumption].
  - exfalso. apply getitem_In in Hg.
    assert (existsb (named n) df = true); [|congruence].
    apply existsb_exists. exists (n, c). split; [assumption|now apply named_true].
Qed.
(** ** The latest date of a column *)

Lemma ts_max_snoc (l : list timestamp) (x : timestamp) :
  ts_max (l ++ [x]) =
  match ts_max l, x with
  | NaT, _ => x
  | TS a, NaT => TS a
  | TS a, TS b => if dt_leb a b then TS b else TS a
  end.
Proof.
  unfold ts_max. rewrite fold_left_app. cbn [fold_left].
  destruct (fold_left _ l NaT); destruct x; reflexivity.
Qed.

Lemma ts_max_spec (l : list timestamp) :
  match ts_max l with
  | NaT => forall t, TS t ∉ l
  | TS latest => TS latest ∈ l /\ forall t, TS t ∈ l -> dt_le t latest
  end.
Proof.
  induction l as [|x l IH] using rev_ind.
  - cbn. intros t Hin. inversion Hin.
  - rewrite ts_max_snoc. destruct (ts_max l) as [|a].
    + destruct x as [|b].
      * intros t Hin. apply elem_of_app in Hin as [Hin|Hin]; [now apply (IH t)|].
        apply list_elem_of_singleton in Hin. discriminate.
      * split; [apply elem_of_app; right; now left|].
        intros t Hin. apply elem_of_app in Hin as [Hin|Hin]; [now apply IH in Hin|].
        apply list_elem_of_singleton in Hin. injection Hin as ->. apply dt_le_refl.
    + destruct IH as (Ha & Hmax). destruct x as [|b].
      * split; [apply elem_of_app; now left|].
        intros t Hin. apply elem_of_app in Hin as [Hin|Hin]; [now apply Hmax|].
        apply list_elem_of_singleton in Hin. discriminate.
      * destruct (dt_leb a b) eqn:E.
        -- apply dt_leb_le in E. split; [apply elem_of_app; right; now left|].
           intros t Hin. apply elem_of_app in Hin as [Hin|Hin].
           ++ apply (dt_le_trans _ a); [now apply Hmax|assumption].
           ++ apply list_elem_of_singleton in Hin. injection Hin as ->. apply dt_le_refl.
        -- assert (Hba : dt_le b a).
           { destruct (dt_le_total a b) as [Hab|Hba]; [|assumption].
             apply dt_leb_le in Hab. congruence. }
           split; [apply elem_of_app; now left|].
           intros t Hin. apply elem_of_app in Hin as [Hin|Hin]; [now apply Hmax|].
           apply list_elem_of_singleton in Hin. now injection Hin as ->.
Qed.

Lemma period_windows_ytd_end (a : datetime) (w : Windows) :
  period_windows a = Ok w -> ytd_end w = a.
Proof.
  unfold period_windows, get_ytd_date_range. intros H.
  apply rbind_ok in H as ([s e] & Hr & H).
  apply rbind_ok in Hr as (s' & _ & Hr). injection Hr as <- <-.
  repeat (apply rbind_ok in H as (? & _ & H)). now injection H as <-.
Qed.

(** ** The functions that take the sales frame *)

Section PipelineFacts.
Variable parse_date : string -> option timestamp.
Variable from_epoch : float64 -> option timestamp.

Local Abbreviation to_datetime' := (to_datetime parse_date from_epoch).
Local Abbreviation calculate_ytd_metrics' := (calculate_ytd_metrics parse_date from_epoch).
Local Abbreviation get_monthly_trends' := (get_monthly_trends parse_date from_epoch).
Local Abbreviation get_category_performance' :=
  (get_category_performance parse_date from_epoch).

Lemma to_datetime_ok (c c' : column) :
  to_datetime' c = Ok c' -> exists dates, c' = ColTime dates.
Proof.
  destruct c as [l|l|l|l]; cbn.
  - intros H. apply rbind_ok in H as (ts & _ & H). injection H as <-. eauto.
  - intros [= <-]. eauto.
  - intros H. apply rbind_ok in H as (ts & _ & H). injection H as <-. eauto.
  - discriminate.
Qed.

Lemma rmap_raise {X Y} (f : X -> result Y) (l : list X) (e : exn) :
  (forall x er, f x = Raise er -> er = e) ->
  (exists x, x ∈ l /\ f x = Raise e) ->
  rmap f l = Raise e.
Proof.
  intros Honly (x & Hin & Hx). induction l as [|y l IH]; [inversion Hin|].
  cbn [rmap]. destruct (f y) as [b|er] eqn:Ey; cbn [rbind].
  - apply elem_of_cons in Hin as [->|Hin]; [congruence|].
    now rewrite IH.
  - now rewrite (Honly y er Ey).
Qed.

(** An unparsable string anywhere in the date column makes the conversion
    raise [ValueError]. *)
Lemma to_datetime_unparsable (l : list (option string)) (bad : string) :
  Some bad ∈ l -> parse_date bad = None ->
  to_datetime' (ColStr l) = Raise ValueError.
Proof.
  intros Hin Hbad. cbn [to_datetime].
  rewrite (rmap_raise _ l ValueError); [reflexivity| |].
  - intros [s|] er; [|discriminate]. destruct (parse_date s); [discriminate|].
    now intros [= <-].
  - exists (Some bad). split; [assumption|]. now rewrite Hbad.
Qed.

(** A frame returned by [calculate_ytd_metrics] is the outer join of the
    three period summaries of the frame's records, with the fiscal year of
    the as-of date in every row. *)
Lemma metrics_of_frame_ok (frame m : DataFrame) (as_of_date : option datetime) :
  metrics_of_frame frame as_of_date = Ok m ->
  exists dates as_of w records,
    time_col frame "date" = Ok dates /\
    resolve_as_of dates as_of_date = Ok as_of /\
    period_windows as_of = Ok w /\
    sales_records frame = Ok records /\
    m = metrics_frame
          (assemble (aggregate records (ytd_start w) (ytd_end w))
                    (aggregate records (pytd_start w) (pytd_end w))
                    (aggregate records (p1ytd_start w) (p1ytd_end w))
                    as_of (get_fiscal_year as_of)).
Proof.
  unfold metrics_of_frame. intros H.
  apply rbind_ok in H as (dates & Hd & H).
  apply rbind_ok in H as (as_of & Ha & H).
  apply rbind_ok in H as (w & Hw & H).
  apply rbind_ok in H as (records & Hr & H).
  injection H as <-. now exists dates, as_of, w, records.
Qed.

Lemma calculate_ytd_metrics_run (df : nat) (as_of_date : option datetime) (s : store) :
  calculate_ytd_metrics' df as_of_date s =
  match s !! df with
  | None => (s, Raise ReferenceError)
  | Some frame =>
      match assign_frame frame "date" (lift1 to_datetime' (col "date")) with
      | Raise e => (s, Raise e)
      | Ok frame' =>
          match metrics_of_frame frame' as_of_date with
          | Ok m => (<[df := frame']> s ++ [m], Ok (length s))
          | Raise e => (<[df := frame']> s, Raise e)
          end
      end
  end.
Proof.
  unfold calculate_ytd_metrics, bind at 1. rewrite assign_run.
  destruct (s !! df) as [frame|] eqn:E; [|reflexivity].
  destruct (assign_frame frame "date" _) as [frame'|e]; [|reflexivity].
  unfold bind, read, lift, alloc.
  rewrite (lookup_insert_same _ _ _ _ E).
  destruct (metrics_of_frame frame' as_of_date) as [m|]; [|reflexivity].
  now rewrite length_insert.
Qed.

Lemma keeps_calculate_ytd_metrics (n df : nat) (as_of_date : option datetime) :
  (n <= df)%nat ->
  keeps n (calculate_ytd_metrics' df as_of_date) (fun l => (n <= l)%nat).
Proof.
  intros Hdf. unfold calculate_ytd_metrics.
  eapply keeps_bind; [now apply keeps_assign|]. intros _ _.
  eapply keeps_bind; [apply keeps_read|]. intros frame _.
  eapply keeps_bind; [apply keeps_lift; intros; exact I|]. intros metrics _.
  apply keeps_alloc.
Qed.

Lemma keeps_get_category_performance (n df : nat) (d : gmap string string) :
  keeps n (get_category_performance' df d) (fun l => (n <= l)%nat).
Proof.
  unfold get_category_performance.
  eapply keeps_bind; [apply keeps_copy|]. intros df_with_cat Hcat.
  eapply keeps_bind; [now apply keeps_assign|]. intros _ _.
  eapply keeps_bind; [apply keeps_read|]. intros frame _.
  eapply keeps_bind; [apply keeps_alloc|]. intros renamed Hren.
  eapply keeps_bind; [now apply keeps_calculate_ytd_metrics|]. intros metrics _.
  eapply keeps_bind; [apply keeps_calculate_deltas|]. intros metrics' _.
  eapply keeps_bind; [apply keeps_read|]. intros frame' _.
  apply keeps_alloc.
Qed.

Lemma touches_get_monthly_trends (df : nat) :
  touches df ["date"; "year_month"; "fiscal_year"] (get_monthly_trends' df).
Proof.
  unfold get_monthly_trends.
  apply touches_bind; [apply touches_assign; set_solver|]. intros _.
  apply touches_bind; [apply touches_assign; set_solver|]. intros _.
  apply touches_bind; [apply touches_assign; set_solver|]. intros _.
  apply touches_bind.
  { apply touches_pure. intros s. unfold read. now destruct (s !! df). }
  intros frame. apply touches_bind; [now apply touches_pure|]. intros monthly.
  apply touches_alloc.
Qed.

Lemma date_assignment (frame frame' : DataFrame) :
  assign_frame frame "date" (lift1 to_datetime' (col "date")) = Ok frame' ->
  exists c dates,
    getitem frame "date" = Ok c /\ to_datetime' c = Ok (ColTime dates) /\
    frame' = setitem frame "date" (ColTime dates).
Proof.
  intros H. apply assign_frame_ok in H as (c' & Hc & ->).
  unfold lift1, col in Hc. apply rbind_ok in Hc as (c & Hg & Hc).
  destruct (to_datetime_ok _ _ Hc) as (dates & ->). now exists c, dates.
Qed.

(** What each stage does to the frames that exist before the call.
    [calculate_deltas] and [get_category_performance] work on copies:
    every frame that exists before the call is unchanged after it.
    [calculate_ytd_metrics] writes to its input, but only the [date] column,
    which becomes the result of [pd.to_datetime]; an input whose [date]
    column already holds datetimes is unchanged. [get_monthly_trends] writes
    to its input: the [date], [year_month] and [fiscal_year] columns; every
    other column, and every other frame, is unchanged. *)
Theorem stages_and_their_inputs :
  (forall metrics (s : store),
     exists tail, fst (calculate_deltas metrics s) = s ++ tail) /\
  (forall df d (s : store),
     exists tail, fst (get_category_performance' df d s) = s ++ tail) /\
  (forall df as_of_date (s : store) frame,
     s !! df = Some frame ->
     exists frame' tail,
       fst (calculate_ytd_metrics' df as_of_date s) = <[df := frame']> s ++ tail /\
       same_except ["date"] frame frame' /\
       (frame' = frame \/
        exists c dates,
          getitem frame "date" = Ok c /\ to_datetime' c = Ok (ColTime dates) /\
          frame' = setitem frame "date" (ColTime dates)) /\
       (forall dates, getitem frame "date" = Ok (ColTime dates) -> frame' = frame)) /\
  (forall df (s : store) frame,
     s !! df = Some frame ->
     exists frame' tail,
       fst (get_monthly_trends' df s) = <[df := frame']> s ++ tail /\
       same_except ["date"; "year_month"; "fiscal_year"] frame frame').
Proof.
  split; [|split; [|split]].
  - intros metrics s. eapply keeps_prefix, keeps_calculate_deltas.
  - intros df d s. eapply keeps_prefix, keeps_get_category_performance.
  - intros df as_of_date s frame E. rewrite calculate_ytd_metrics_run, E.
    destruct (assign_frame frame "date" _) as [frame'|e] eqn:Ea.
    + destruct (date_assignment _ _ Ea) as (c & dates & Hg & Hc & ->).
      exists (setitem frame "date" (ColTime dates)).
      exists (match metrics_of_frame (setitem frame "date" (ColTime dates)) as_of_date with
              | Ok m => [m]
              | Raise _ => []
              end).
      split; [|split; [|split]].
      * destruct (metrics_of_frame _ _); cbn; [reflexivity|now rewrite app_nil_r].
      * apply same_except_setitem. set_solver.
      * right. now exists c, dates.
      * intros dates' Hg'. rewrite Hg' in Hg. injection Hg as <-.
        cbn in Hc. injection Hc as <-. now apply setitem_getitem.
    + exists frame, []. cbn. rewrite app_nil_r, list_insert_id by assumption.
      split; [reflexivity|]. split; [apply same_except_refl|]. split; [now left|].
      reflexivity.
  - intros df s frame E. now apply touches_get_monthly_trends.
Qed.

(** C8. When the [date] column holds a string that [pd.to_datetime] cannot
    parse, [calculate_ytd_metrics] and [get_monthly_trends] raise the
    [ValueError] of the conversion to their caller, whatever the as-of date;
    nothing is computed from the other records and the store is as before
    the call. *)
Theorem unparsable_date_raises (df : nat) (as_of_date : option datetime) (s : store)
  (frame : DataFrame) (l : list (option string)) (bad : string) :
  s !! df = Some frame -> getitem frame "date" = Ok (ColStr l) ->
  Some bad ∈ l -> parse_date bad = None ->
  calculate_ytd_metrics' df as_of_date s = (s, Raise ValueError) /\
  get_monthly_trends' df s = (s, Raise ValueError).
Proof.
  intros E Hg Hin Hbad.
  assert (Ha : assign_frame frame "date" (lift1 to_datetime' (col "date")) =
               Raise ValueError).
  { unfold assign_frame, lift1, col. rewrite Hg. cbn [rbind].
    now rewrite (to_datetime_unparsable l bad). }
  split.
  - now rewrite calculate_ytd_metrics_run, E, Ha.
  - unfold get_monthly_trends, bind at 1. now rewrite assign_run, E, Ha.
Qed.

(** C10. When the converted [date] column holds at least one datetime, a
    call without an as-of date uses the latest datetime of the column: that
    datetime is in the column and no datetime of the column is later; the
    call is the call with that datetime given; the YTD summary it computes
    is the aggregation over the window that ends at that datetime, every row
    of the result carries it as [as_of_date], and when no window exists for
    it the call raises what the window computation raises. *)
Theorem default_as_of_is_latest (df : nat) (s : store) (frame : DataFrame)
  (c : column) (dates : list timestamp) (t0 : datetime) :
  s !! df = Some frame -> getitem frame "date" = Ok c ->
  to_datetime' c = Ok (ColTime dates) -> TS t0 ∈ dates ->
  exists latest,
    ts_max dates = TS latest /\
    TS latest ∈ dates /\
    (forall t, TS t ∈ dates -> dt_le t latest) /\
    calculate_ytd_metrics' df None s = calculate_ytd_metrics' df (Some latest) s /\
    (forall w, period_windows latest = Ok w -> ytd_end w = latest) /\
    calculate_ytd_metrics' df None s =
      match period_windows latest,
            sales_records (setitem frame "date" (ColTime dates)) with
      | Ok w, Ok records =>
          (<[df := setitem frame "date" (ColTime dates)]> s ++
             [metrics_frame
                (assemble (aggregate records (ytd_start w) latest)
                          (aggregate records (pytd_start w) (pytd_end w))
                          (aggregate records (p1ytd_start w) (p1ytd_end w))
                          latest (get_fiscal_year latest))],
           Ok (length s))
      | Ok _, Raise e => (<[df := setitem frame "date" (ColTime dates)]> s, Raise e)
      | Raise e, _ => (<[df := setitem frame "date" (ColTime dates)]> s, Raise e)
      end.
Proof.
  intros E Hg Hc Ht0. pose proof (ts_max_spec dates) as Hmax.
  destruct (ts_max dates) as [|latest] eqn:Em; [now destruct (Hmax t0)|].
  destruct Hmax as (Hin & Hmax). exists latest.
  split; [reflexivity|]. split; [assumption|]. split; [assumption|].
  assert (Ha : assign_frame frame "date" (lift1 to_datetime' (col "date")) =
               Ok (setitem frame "date" (ColTime dates))).
  { unfold assign_frame, lift1, col. rewrite Hg. cbn [rbind]. now rewrite Hc. }
  assert (Hm : forall as_of_date,
             resolve_as_of dates as_of_date = Ok latest ->
             metrics_of_frame (setitem frame "date" (ColTime dates)) as_of_date =
             let* w := period_windows latest in
             let* records := sales_records (setitem frame "date" (ColTime dates)) in
             Ok (metrics_frame (metrics_rows records w latest (get_fiscal_year latest)))).
  { intros as_of_date Hr. unfold metrics_of_frame, time_col.
    rewrite (getitem_setitem_eq _ _ _ _ Hg). cbn [rbind]. now rewrite Hr. }
  assert (Hnone : resolve_as_of dates None = Ok latest)
    by (unfold resolve_as_of; now rewrite Em).
  split; [|split; [intros w; apply period_windows_ytd_end|]].
  - rewrite !calculate_ytd_metrics_run, E, Ha.
    now rewrite (Hm None Hnone), (Hm (Some latest) eq_refl).
  - rewrite calculate_ytd_metrics_run, E, Ha, (Hm None Hnone).
    destruct (period_windows latest) as [w|e] eqn:Ew; cbn [rbind]; [|reflexivity].
    destruct (sales_records _) as [records|e]; cbn [rbind]; [|reflexivity].
    unfold metrics_rows. now rewrite (period_windows_ytd_end _ _ Ew).
Qed.
End PipelineFacts.
(** ** Concrete runs *)

(** C7. Two stages change the table they are given. For a sales table
    with one record dated by the string 2023-04-10: after
    [get_monthly_trends] the caller's table holds a datetime in [date] and
    has the two new columns [year_month] and [fiscal_year], and after
    [calculate_ytd_metrics] it is no longer the table that was passed in.
    The other two stages copy first: [get_category_performance] leaves the
    same table as it was, and [calculate_deltas] leaves a metrics table as it
    was. *)
Theorem stages_mutate_their_input :
  let sales :=
    [("date", ColStr [Some "2023-04-10"]); ("product_name", ColStr [Some "A"]);
     ("sales_amount", ColNum [b64_of_Z 100]); ("quantity", ColNum [b64_of_Z 1])] in
  let parse := fun _ : string => Some (TS (mk_datetime 2023 4 10 0)) in
  fst (get_monthly_trends parse (fun _ => None) 0%nat [sales]) !! 0%nat =
    Some [("date", ColTime [TS (mk_datetime 2023 4 10 0)]);
          ("product_name", ColStr [Some "A"]);
          ("sales_amount", ColNum [b64_of_Z 100]); ("quantity", ColNum [b64_of_Z 1]);
          ("year_month", ColPeriod [Some (2023, 4)]);
          ("fiscal_year", ColStr [Some "FY 2023-24"])] /\
  fst (get_monthly_trends parse (fun _ => None) 0%nat [sales]) !! 0%nat <> Some sales /\
  fst (calculate_ytd_metrics parse (fun _ => None) 0%nat None [sales]) !! 0%nat <>
    Some sales /\
  fst (calculate_ytd_metrics parse (fun _ => None) 0%nat None [sales]) !! 0%nat =
    Some [("date", ColTime [TS (mk_datetime 2023 4 10 0)]);
          ("product_name", ColStr [Some "A"]);
          ("sales_amount", ColNum [b64_of_Z 100]); ("quantity", ColNum [b64_of_Z 1])] /\
  fst (get_category_performance parse (fun _ => None) 0%nat
         (<["A" := "Electronics"]> ∅) [sales]) !! 0%nat = Some sales /\
  (let metrics :=
     [("product_name", ColStr [Some "A"]);
      ("ytd_sales", ColNum [b64_of_Z 100]); ("ytd_quantity", ColNum [b64_of_Z 1]);
      ("pytd_sales", ColNum [b64_of_Z 80]); ("pytd_quantity", ColNum [b64_of_Z 1]);
      ("p1ytd_sales", ColNum [b64_of_Z 40]); ("p1ytd_quantity", ColNum [b64_of_Z 1])] in
   fst (calculate_deltas 0%nat [metrics]) !! 0%nat = Some metrics /\
   snd (calculate_deltas 0%nat [metrics]) = Ok 1%nat).
Proof.
  cbv zeta. split; [vm_compute; reflexivity|].
  split; [vm_compute; discriminate|]. split; [vm_compute; discriminate|].
  split; [vm_compute; reflexivity|]. split; [vm_compute; reflexivity|].
  split; vm_compute; reflexivity.
Qed.

Lemma unparsable_date_raises_witness :
  let frame :=
    [("date", ColStr [Some "2023-04-10"; Some "soon"]);
     ("product_name", ColStr [Some "A"; Some "A"]);
     ("sales_amount", ColNum [b64_of_Z 100; b64_of_Z 50]);
     ("quantity", ColNum [b64_of_Z 1; b64_of_Z 2])] in
  let parse := fun s : string =>
    if String.eqb s "soon" then None else Some (TS (mk_datetime 2023 4 10 0)) in
  calculate_ytd_metrics parse (fun _ => None) 0%nat None [frame] =
    ([frame], Raise ValueError) /\
  get_monthly_trends parse (fun _ => None) 0%nat [frame] = ([frame], Raise ValueError).
Proof.
  intros frame parse.
  apply (unparsable_date_raises parse (fun _ => None) 0%nat None [frame] frame
           [Some "2023-04-10"; Some "soon"] "soon").
  - reflexivity.
  - reflexivity.
  - apply list_elem_of_further, list_elem_of_here.
  - reflexivity.
Defined.

(** The exception that reaches the caller is the [ValueError] of the
    conversion; the module has no [InvalidRecordError]. *)
Lemma unparsable_date_error_class :
  let frame :=
    [("date", ColStr [Some "2023-04-10"; Some "soon"]);
     ("product_name", ColStr [Some "A"; Some "A"]);
     ("sales_amount", ColNum [b64_of_Z 100; b64_of_Z 50]);
     ("quantity", ColNum [b64_of_Z 1; b64_of_Z 2])] in
  let parse := fun s : string =>
    if String.eqb s "soon" then None else Some (TS (mk_datetime 2023 4 10 0)) in
  snd (calculate_ytd_metrics parse (fun _ => None) 0%nat None [frame]) =
    Raise "ValueError" /\
  snd (calculate_ytd_metrics parse (fun _ => None) 0%nat None [frame]) <>
    Raise "InvalidRecordError".
Proof.
  cbv zeta. split; [vm_compute; reflexivity|]. vm_compute. discriminate.
Qed.

Lemma default_as_of_is_latest_witness :
  let dates := [TS (mk_datetime 2023 4 10 0); NaT; TS (mk_datetime 2023 6 2 0);
                TS (mk_datetime 2022 4 10 0)] in
  let frame :=
    [("date", ColTime dates);
     ("product_name", ColStr [Some "A"; Some "B"; Some "A"; Some "A"]);
     ("sales_amount", ColNum [b64_of_Z 100; b64_of_Z 50; b64_of_Z 80; b64_of_Z 40]);
     ("quantity", ColNum [b64_of_Z 1; b64_of_Z 2; b64_of_Z 1; b64_of_Z 1])] in
  exists latest,
    ts_max dates = TS latest /\
    TS latest ∈ dates /\
    (forall t, TS t ∈ dates -> dt_le t latest) /\
    calculate_ytd_metrics (fun _ => None) (fun _ => None) 0%nat None [frame] =
      calculate_ytd_metrics (fun _ => None) (fun _ => None) 0%nat (Some latest) [frame] /\
    (forall w, period_windows latest = Ok w -> ytd_end w = latest) /\
    calculate_ytd_metrics (fun _ => None) (fun _ => None) 0%nat None [frame] =
      match period_windows latest,
            sales_records (setitem frame "date" (ColTime dates)) with
      | Ok w, Ok records =>
          (<[0%nat := setitem frame "date" (ColTime dates)]> [frame] ++
             [metrics_frame
                (assemble (aggregate records (ytd_start w) latest)
                          (aggregate records (pytd_start w) (pytd_end w))
                          (aggregate records (p1ytd_start w) (p1ytd_end w))
                          latest (get_fiscal_year latest))],
           Ok (length [frame]))
      | Ok _, Raise e => (<[0%nat := setitem frame "date" (ColTime dates)]> [frame], Raise e)
      | Raise e, _ => (<[0%nat := setitem frame "date" (ColTime dates)]> [frame], Raise e)
      end.
Proof.
  intros dates frame.
  apply (default_as_of_is_latest (fun _ => None) (fun _ => None) 0%nat [frame] frame
           (ColTime dates) dates (mk_datetime 2023 4 10 0)).
  - reflexivity.
  - reflexivity.
  - reflexivity.
  - apply list_elem_of_here.
Defined.

(** In the run above the call without an as-of date returns the rows of
    the call at 2023-06-02, the latest date: both rows carry it, and product
    A's YTD total is the 100 + 80 dated from 2023-04-01 to 2023-06-02. *)
Example default_as_of_run :
  exists s m frame,
    calculate_ytd_metrics (fun _ => None) (fun _ => None) 0%nat None
      [[("date", ColTime [TS (mk_datetime 2023 4 10 0); NaT; TS (mk_datetime 2023 6 2 0);
                          TS (mk_datetime 2022 4 10 0)]);
        ("product_name", ColStr [Some "A"; Some "B"; Some "A"; Some "A"]);
        ("sales_amount", ColNum [b64_of_Z 100; b64_of_Z 50; b64_of_Z 80; b64_of_Z 40]);
        ("quantity", ColNum [b64_of_Z 1; b64_of_Z 2; b64_of_Z 1; b64_of_Z 1])]]
    = (s, Ok m) /\
    s !! m = Some frame /\
    getitem frame "product_name" = Ok (ColStr [Some "A"]) /\
    getitem frame "as_of_date" = Ok (ColTime [TS (mk_datetime 2023 6 2 0)]) /\
    getitem frame "ytd_sales" = Ok (ColNum [b64_of_Z 180]) /\
    getitem frame "pytd_sales" = Ok (ColNum [b64_of_Z 40]).
Proof.
  do 3 eexists. split; [vm_compute; reflexivity|].
  split; [vm_compute; reflexivity|].
  repeat split; vm_compute; reflexivity.
Qed.

Example default_as_of_example :
  ts_max [TS (mk_datetime 2023 4 10 0); NaT; TS (mk_datetime 2023 6 2 0);
          TS (mk_datetime 2022 4 10 0)] = TS (mk_datetime 2023 6 2 0).
Proof. reflexivity. Qed.

(** A frame without any datetime has no latest date, and the call that
    relies on it raises. *)
Example default_as_of_without_dates :
  snd (calculate_ytd_metrics (fun _ => None) (fun _ => None) 0%nat None
         [[("date", ColTime [NaT]); ("product_name", ColStr [Some "A"]);
           ("sales_amount", ColNum [b64_of_Z 1]); ("quantity", ColNum [b64_of_Z 1])]]) =
  Raise TypeError.
Proof. vm_compute. reflexivity. Qed.

(** The scenario of four records with as-of date 2023-04-10: product A has
    100, 80 and 40 in the three windows, a delta of 20, a growth of 25 per
    cent and is growing; product B is absent from the two earlier windows,
    its growth is the zero that replaces the infinity, and it is growing. *)
Example end_to_end_scenario :
  exists s metrics s' df frame,
    calculate_ytd_metrics (fun _ => None) (fun _ => None) 0%nat
      (Some (mk_datetime 2023 4 10 0))
      [[("date", ColTime [TS (mk_datetime 2023 4 10 0); TS (mk_datetime 2023 4 10 0);
                          TS (mk_datetime 2022 4 10 0); TS (mk_datetime 2021 4 10 0)]);
        ("product_name", ColStr [Some "A"; Some "B"; Some "A"; Some "A"]);
        ("sales_amount", ColNum [b64_of_Z 100; b64_of_Z 50; b64_of_Z 80; b64_of_Z 40]);
        ("quantity", ColNum [b64_of_Z 1; b64_of_Z 2; b64_of_Z 1; b64_of_Z 1])]]
    = (s, Ok metrics) /\
    calculate_deltas metrics s = (s', Ok df) /\
    s' !! df = Some frame /\
    getitem frame "product_name" = Ok (ColStr [Some "A"; Some "B"]) /\
    getitem frame "ytd_sales" = Ok (ColNum [b64_of_Z 100; b64_of_Z 50]) /\
    getitem frame "pytd_sales" = Ok (ColNum [b64_of_Z 80; b64_zero]) /\
    getitem frame "p1ytd_sales" = Ok (ColNum [b64_of_Z 40; b64_zero]) /\
    getitem frame "delta_ytd_pytd" = Ok (ColNum [b64_of_Z 20; b64_of_Z 50]) /\
    getitem frame "growth_ytd_vs_pytd_pct" = Ok (ColNum [b64_of_Z 25; b64_zero]) /\
    getitem frame "performance" = Ok (ColStr [Some "Growing"; Some "Growing"]) /\
    getitem frame "fiscal_year" = Ok (ColStr [Some "FY 2023-24"; Some "FY 2023-24"]).
Proof.
  do 5 eexists. split; [vm_compute; reflexivity|].
  split; [vm_compute; reflexivity|].
  split; [vm_compute; reflexivity|].
  repeat split; vm_compute; reflexivity.
Qed.

(** Records dated on the first and on the last day of the window are kept;
    the day before and the day after are not. *)
Example aggregate_bounds_inclusive :
  aggregate (V:=Z)
    [Sales.mk (TS (mk_datetime 2023 3 31 0)) (Some "A") 1 1;
     Sales.mk (TS (mk_datetime 2023 4 1 0)) (Some "A") 10 1;
     Sales.mk (TS (mk_datetime 2023 4 10 0)) (Some "A") 100 1;
     Sales.mk (TS (mk_datetime 2023 4 11 0)) (Some "A") 1000 1;
     Sales.mk NaT (Some "A") 10000 1]
    (mk_datetime 2023 4 1 0) (mk_datetime 2023 4 10 0) = [("A", (110, 2))].
Proof. vm_compute. reflexivity. Qed.

(** An [int64] total wraps around. *)
Example int64_sum_wraps :
  group_sum (V:=Z) [2 ^ 62; 2 ^ 62] = - 2 ^ 63 /\
  group_sum (V:=Z) [5; 7; -2] = 10.
Proof. split; vm_compute; reflexivity. Qed.

(** Binary64 addition is not associative, so the order of summation can show
    in the last bit of a float total. *)
Example b64_add_not_associative :
  let big := b64_of_Z 9007199254740992 in
  let one := b64_of_Z 1 in
  b64_add (b64_add big one) one <> b64_add big (b64_add one one).
Proof. vm_compute. discriminate. Qed.

(** * Further properties *)

(** ** The YTD range *)

Lemma get_fiscal_year_start (d : datetime) :
  get_fiscal_year d =
  ("FY " ++ py_str (fiscal_start_year d) ++ "-" ++
   last_two (py_str (fiscal_start_year d + 1)))%string.
Proof.
  unfold get_fiscal_year, fiscal_start_year.
  destruct (4 <=? month d); [reflexivity|].
  now replace (year d - 1 + 1) with (year d) by lia.
Qed.

Lemma ytd_span (a : datetime) :
  valid_date a ->
  0 <= toordinal a - toordinal (mk_datetime (fiscal_start_year a) 4 1 0) <= 365 /\
  (toordinal a - toordinal (mk_datetime (fiscal_start_year a) 4 1 0) = 365 <->
   month a = 3 /\ day a = 31 /\ _is_leap (year a) = true).
Proof.
  intros (Hy & Hm & Hd & _). unfold toordinal, _ymd2ord, fiscal_start_year.
  cbn [year month day].
  assert (Hcases : month a = 1 \/ month a = 2 \/ month a = 3 \/ month a = 4 \/
                   month a = 5 \/ month a = 6 \/ month a = 7 \/ month a = 8 \/
                   month a = 9 \/ month a = 10 \/ month a = 11 \/ month a = 12) by lia.
  pose proof (days_before_year_succ (year a - 1)) as Hs.
  replace (year a - 1 + 1) with (year a) in Hs by lia.
  unfold _days_before_month, _days_in_month in *.
  destruct (_is_leap (year a)) eqn:La; destruct (_is_leap (year a - 1)) eqn:Lp;
    repeat (destruct Hcases as [E | Hcases]); try rename Hcases into E;
    rewrite E in *; cbn in *; rewrite ?La, ?Lp; cbn; (split; [lia|]);
    (split; [intros ?|intros (? & ? & ?)]); try lia; try discriminate;
    repeat split; try reflexivity; lia.
Qed.

(** X1. For a valid as-of date (other than January to March of year 1), the
    YTD range starts at midnight of April 1 of the as-of date's fiscal
    year and ends at the as-of date itself; the start is not later than the
    end, both carry the same fiscal-year label, and the range spans at most
    365 days. *)
Theorem ytd_range_within_fiscal_year (a : datetime) :
  valid_date a -> (month a < 4 -> 2 <= year a) ->
  get_ytd_date_range a = Ok (mk_datetime (fiscal_start_year a) 4 1 0, a) /\
  dt_le (mk_datetime (fiscal_start_year a) 4 1 0) a /\
  get_fiscal_year (mk_datetime (fiscal_start_year a) 4 1 0) = get_fiscal_year a /\
  0 <= toordinal a - toordinal (mk_datetime (fiscal_start_year a) 4 1 0) <= 365.
Proof.
  intros Hv Hearly. split; [|split; [|split]].
  - now apply get_ytd_date_range_ok.
  - destruct Hv as (Hy & Hm & Hd & Ht). unfold dt_le, fiscal_start_year. cbn.
    destruct (Z.leb_spec 4 (month a)); lia.
  - rewrite !get_fiscal_year_start. unfold fiscal_start_year at 1 2. cbn [month year].
    reflexivity.
  - now apply ytd_span.
Qed.

Lemma ytd_range_within_fiscal_year_witness :
  get_ytd_date_range (mk_datetime 2024 2 29 0) =
    Ok (mk_datetime (fiscal_start_year (mk_datetime 2024 2 29 0)) 4 1 0,
        mk_datetime 2024 2 29 0) /\
  dt_le (mk_datetime (fiscal_start_year (mk_datetime 2024 2 29 0)) 4 1 0)
        (mk_datetime 2024 2 29 0) /\
  get_fiscal_year (mk_datetime (fiscal_start_year (mk_datetime 2024 2 29 0)) 4 1 0) =
    get_fiscal_year (mk_datetime 2024 2 29 0) /\
  0 <= toordinal (mk_datetime 2024 2 29 0) -
       toordinal (mk_datetime (fiscal_start_year (mk_datetime 2024 2 29 0)) 4 1 0) <= 365.
Proof.
  apply (ytd_range_within_fiscal_year (mk_datetime 2024 2 29 0)).
  - repeat split; vm_compute; congruence.
  - cbn. lia.
Defined.

(** ** Windows at the edge of the date range, and where they meet *)

Lemma sub_days_inv (d d' : datetime) (n : Z) :
  sub_days d n = Ok d' ->
  0 < toordinal d - n /\ toordinal d' = toordinal d - n /\ tod d' = tod d.
Proof.
  unfold sub_days. cbv zeta.
  destruct (Z.ltb_spec 0 (toordinal d - n)); [|discriminate].
  destruct (Z.leb_spec (toordinal d - n) _MAXORDINAL); [|discriminate].
  cbn [andb]. pose proof (ord2ymd_roundtrip (toordinal d - n) ltac:(lia)) as Hrt.
  destruct (_ord2ymd (toordinal d - n)) as [[y m] dd]. intros [= <-].
  split; [assumption|]. split; [apply Hrt|reflexivity].
Qed.

Lemma period_windows_inv (a : datetime) (w : Windows) :
  period_windows a = Ok w ->
  get_ytd_date_range a = Ok (ytd_start w, ytd_end w) /\
  sub_days (ytd_start w) 365 = Ok (pytd_start w) /\
  sub_days (ytd_end w) 365 = Ok (pytd_end w) /\
  sub_days (ytd_start w) 730 = Ok (p1ytd_start w) /\
  sub_days (ytd_end w) 730 = Ok (p1ytd_end w).
Proof.
  unfold period_windows. intros H.
  apply rbind_ok in H as ([s e] & Hr & H).
  apply rbind_ok in H as (ps & Hps & H). apply rbind_ok in H as (pe & Hpe & H).
  apply rbind_ok in H as (qs & Hqs & H). apply rbind_ok in H as (qe & Hqe & H).
  injection H as <-. cbn. auto.
Qed.

Lemma get_ytd_date_range_inv (a s e : datetime) :
  get_ytd_date_range a = Ok (s, e) ->
  s = mk_datetime (fiscal_start_year a) 4 1 0 /\ e = a /\ 1 <= fiscal_start_year a.
Proof.
  unfold get_ytd_date_range, fiscal_start_year, datetime_new.
  destruct (4 <=? month a).
  - destruct (Z.leb_spec 1 (year a)); [|discriminate].
    destruct (_ && _); [|discriminate]. cbn. intros [= <- <-]. auto.
  - destruct (Z.leb_spec 1 (year a - 1)); [|discriminate].
    destruct (_ && _); [|discriminate]. cbn. intros [= <- <-]. auto.
Qed.

(** X2. When the three windows exist, the PYTD window ends before the day
    on which the YTD window starts, and the P1YTD window before the day on
    which the PYTD window starts, with one exception: for an as-of date of
    March 31 in a leap year the earlier window ends on the very day the
    later one starts, so that day belongs to both. *)
Theorem windows_meet_on_leap_march_31 (a : datetime) (w : Windows) :
  valid_date a -> period_windows a = Ok w ->
  toordinal (pytd_end w) <= toordinal (ytd_start w) /\
  toordinal (p1ytd_end w) <= toordinal (pytd_start w) /\
  (toordinal (pytd_end w) = toordinal (ytd_start w) <->
   month a = 3 /\ day a = 31 /\ _is_leap (year a) = true) /\
  (toordinal (p1ytd_end w) = toordinal (pytd_start w) <->
   month a = 3 /\ day a = 31 /\ _is_leap (year a) = true).
Proof.
  intros Hv Hw. apply period_windows_inv in Hw as (Hr & Hps & Hpe & Hqs & Hqe).
  apply get_ytd_date_range_inv in Hr as (Hs & He & _).
  apply sub_days_inv in Hps as (_ & Ops & _). apply sub_days_inv in Hpe as (_ & Ope & _).
  apply sub_days_inv in Hqs as (_ & Oqs & _). apply sub_days_inv in Hqe as (_ & Oqe & _).
  rewrite Ope, Oqe, Ops, He, Hs.
  destruct (ytd_span a Hv) as (Hspan & Hiff).
  split; [lia|]. split; [lia|].
  split; (split; [intros E; apply Hiff; lia|intros E; apply Hiff in E; lia]).
Qed.

Lemma windows_meet_on_leap_march_31_witness :
  exists w, period_windows (mk_datetime 2024 3 31 0) = Ok w /\
  toordinal (pytd_end w) <= toordinal (ytd_start w) /\
  toordinal (p1ytd_end w) <= toordinal (pytd_start w) /\
  (toordinal (pytd_end w) = toordinal (ytd_start w) <->
   month (mk_datetime 2024 3 31 0) = 3 /\ day (mk_datetime 2024 3 31 0) = 31 /\
   _is_leap (year (mk_datetime 2024 3 31 0)) = true) /\
  (toordinal (p1ytd_end w) = toordinal (pytd_start w) <->
   month (mk_datetime 2024 3 31 0) = 3 /\ day (mk_datetime 2024 3 31 0) = 31 /\
   _is_leap (year (mk_datetime 2024 3 31 0)) = true).
Proof.
  eexists. split; [vm_compute; reflexivity|].
  apply (windows_meet_on_leap_march_31 (mk_datetime 2024 3 31 0)).
  - repeat split; vm_compute; congruence.
  - vm_compute. reflexivity.
Defined.

(** A sale on 2023-04-01 is counted both in the YTD and in the PYTD total
    when the as-of date is 2024-03-31. *)
Example sale_counted_in_two_windows :
  exists w, period_windows (mk_datetime 2024 3 31 0) = Ok w /\
    metrics_rows (V:=Z)
      [Sales.mk (TS (mk_datetime 2023 4 1 0)) (Some "A") 100 1]
      w (mk_datetime 2024 3 31 0) "FY 2023-24" =
    [mk_metrics "A" (mk_totals 100 1 100 1 0 0) (mk_datetime 2024 3 31 0) "FY 2023-24"].
Proof. eexists. split; [vm_compute; reflexivity|]. vm_compute. reflexivity. Qed.

(** X3. For a valid as-of date before 0003-04-01 no window is computed:
    January to March of year 1 raises the [ValueError] of [datetime(0, 4, 1)],
    every other such date the [OverflowError] of the subtraction that would
    leave year 1. *)
Theorem windows_out_of_range (a : datetime) :
  valid_date a -> dt_leb (mk_datetime 3 4 1 0) a = false ->
  period_windows a =
  Raise (if (year a =? 1) && (month a <? 4) then ValueError else OverflowError).
Proof.
  intros Hv Hbefore.
  assert (Hyear : year a < 3 \/ (year a = 3 /\ month a < 4)).
  { destruct Hv as (Hy & Hm & Hd & Ht). unfold dt_leb in Hbefore.
    cbn [year month day tod] in Hbefore.
    destruct (Z.eqb_spec 3 (year a)) as [E|E].
    - destruct (Z.eqb_spec 4 (month a)) as [E4|E4].
      + destruct (Z.eqb_spec 1 (day a)).
        * apply Z.leb_gt in Hbefore. lia.
        * apply Z.ltb_ge in Hbefore. lia.
      + apply Z.ltb_ge in Hbefore. lia.
    - apply Z.ltb_ge in Hbefore. lia. }
  pose proof Hv as (Hy & Hm & _).
  destruct (Z.eqb_spec (year a) 1) as [Y1|Y1];
    destruct (Z.ltb_spec (month a) 4) as [M|M]; cbn [andb].
  - unfold period_windows, get_ytd_date_range.
    destruct (Z.leb_spec 4 (month a)); [lia|]. rewrite Y1. reflexivity.
  - pose proof (ytd_span a Hv) as (Hspan & _).
    unfold period_windows. rewrite get_ytd_date_range_ok by (auto; lia). cbn [rbind].
    assert (E : fiscal_start_year a = 1).
    { unfold fiscal_start_year. destruct (Z.leb_spec 4 (month a)); lia. }
    unfold fiscal_start_year in E. rewrite E in *.
    rewrite sub_days_overflow by (vm_compute; discriminate). reflexivity.
  - pose proof (ytd_span a Hv) as (Hspan & _).
    pose proof (toordinal_bounds a Hv) as Ba.
    unfold period_windows. rewrite get_ytd_date_range_ok by (auto; lia). cbn [rbind].
    assert (E : fiscal_start_year a = 1 \/ fiscal_start_year a = 2).
    { unfold fiscal_start_year. destruct (Z.leb_spec 4 (month a)); lia. }
    unfold fiscal_start_year in E, Hspan.
    destruct E as [E|E]; rewrite E in *.
    + rewrite sub_days_overflow by (vm_compute; discriminate). reflexivity.
    + change (toordinal (mk_datetime 2 4 1 0)) with 456 in Hspan.
      destruct (sub_days_ok (mk_datetime 2 4 1 0) 365) as (ps & -> & _);
        [vm_compute; split; congruence|].
      destruct (sub_days_ok a 365) as (pe & -> & _); [lia|]. cbn [rbind].
      rewrite sub_days_overflow by (vm_compute; discriminate). reflexivity.
  - pose proof (ytd_span a Hv) as (Hspan & _).
    pose proof (toordinal_bounds a Hv) as Ba.
    unfold period_windows. rewrite get_ytd_date_range_ok by (auto; lia). cbn [rbind].
    assert (E : fiscal_start_year a = 1 \/ fiscal_start_year a = 2).
    { unfold fiscal_start_year. destruct (Z.leb_spec 4 (month a)); lia. }
    unfold fiscal_start_year in E, Hspan.
    destruct E as [E|E]; rewrite E in *.
    + rewrite sub_days_overflow by (vm_compute; discriminate). reflexivity.
    + change (toordinal (mk_datetime 2 4 1 0)) with 456 in Hspan.
      destruct (sub_days_ok (mk_datetime 2 4 1 0) 365) as (ps & -> & _);
        [vm_compute; split; congruence|].
      destruct (sub_days_ok a 365) as (pe & -> & _); [lia|]. cbn [rbind].
      rewrite sub_days_overflow by (vm_compute; discriminate). reflexivity.
Qed.

Lemma windows_out_of_range_witness :
  period_windows (mk_datetime 2 12 25 0) =
  Raise (if (year (mk_datetime 2 12 25 0) =? 1) && (month (mk_datetime 2 12 25 0) <? 4)
         then ValueError else OverflowError).
Proof.
  apply (windows_out_of_range (mk_datetime 2 12 25 0)).
  - repeat split; vm_compute; congruence.
  - vm_compute. reflexivity.
Defined.

(** ** Fiscal-year labels *)

Lemma is_digit_char (d : Z) : 0 <= d < 10 -> is_digit (digit_char d) = true.
Proof.
  intros Hd. unfold is_digit, digit_char. rewrite nat_ascii_embedding by lia.
  apply andb_true_intro. split; [apply Nat.leb_le|apply Nat.leb_le]; lia.
Qed.

Lemma str_digits_all_digits (fuel : nat) (n : Z) (acc : string) :
  0 <= n -> all_digits acc = true -> all_digits (str_digits fuel n acc) = true.
Proof.
  revert n acc. induction fuel as [|fuel IH]; intros n acc Hn Hacc; [assumption|].
  cbn [str_digits].
  assert (Hd : all_digits (String (digit_char (n mod 10)) acc) = true).
  { cbn [all_digits]. rewrite is_digit_char, Hacc; [reflexivity|].
    Z.to_euclidean_division_equations; lia. }
  destruct (n <? 10); [assumption|].
  apply IH; [|assumption]. Z.to_euclidean_division_equations; lia.
Qed.

Lemma py_str_all_digits (n : Z) : 0 <= n -> all_digits (py_str n) = true.
Proof.
  intros Hn. unfold py_str. destruct (Z.ltb_spec n 0); [lia|].
  now apply str_digits_all_digits.
Qed.

Lemma digits_before_dash (a a' b b' : string) :
  all_digits a = true -> all_digits a' = true ->
  (a ++ String "-" b)%string = (a' ++ String "-" b')%string -> a = a'.
Proof.
  revert a'. induction a as [|c a IH]; intros [|c' a'] Ha Ha' E.
  - reflexivity.
  - exfalso. change (String "-" b = String c' (a' ++ String "-" b')%string) in E.
    injection E as <- _. cbn in Ha'. discriminate.
  - exfalso. change (String c (a ++ String "-" b)%string = String "-" b') in E.
    injection E as -> _. cbn in Ha. discriminate.
  - change (String c (a ++ String "-" b)%string =
            String c' (a' ++ String "-" b')%string) in E.
    injection E as -> E. cbn [all_digits] in Ha, Ha'.
    apply andb_prop in Ha as (_ & Ha). apply andb_prop in Ha' as (_ & Ha').
    f_equal. now apply IH.
Qed.

(** X4. Two valid dates get the same fiscal-year label exactly when their
    fiscal years start in the same calendar year: no two fiscal years share
    a label. *)
Theorem fiscal_label_injective (d1 d2 : datetime) :
  valid_date d1 -> valid_date d2 ->
  (get_fiscal_year d1 = get_fiscal_year d2 <->
   fiscal_start_year d1 = fiscal_start_year d2).
Proof.
  intros (Hy1 & _) (Hy2 & _).
  assert (H1 : 0 <= fiscal_start_year d1)
    by (unfold fiscal_start_year; destruct (4 <=? month d1); lia).
  assert (H2 : 0 <= fiscal_start_year d2)
    by (unfold fiscal_start_year; destruct (4 <=? month d2); lia).
  rewrite !get_fiscal_year_start. split.
  - intros E. apply (inj (String.append "FY ")) in E.
    change ((?x ++ "-" ++ ?y)%string) with ((x ++ String "-" y)%string) in E.
    apply digits_before_dash in E; [|now apply py_str_all_digits..].
    apply (f_equal int_of_str) in E. now rewrite !int_of_str_py_str in E.
  - now intros ->.
Qed.

Lemma fiscal_label_injective_witness :
  get_fiscal_year (mk_datetime 2023 12 31 0) = get_fiscal_year (mk_datetime 2024 1 1 0) <->
  fiscal_start_year (mk_datetime 2023 12 31 0) = fiscal_start_year (mk_datetime 2024 1 1 0).
Proof.
  apply (fiscal_label_injective (mk_datetime 2023 12 31 0) (mk_datetime 2024 1 1 0));
    repeat split; vm_compute; congruence.
Defined.

(** ** Which products get a row *)

Section RowsFacts.
Context {V : Type} `{Numeric V}.

Lemma metrics_rows_names (records : list (Sales.row V)) (w : Windows)
  (as_of : datetime) (fy : string) (p : string) :
  p ∈ map product_name (metrics_rows records w as_of fy) <->
  exists r, r ∈ records /\ Sales.product_name r = Some p /\
            (in_period (ytd_start w) (ytd_end w) r = true \/
             in_period (pytd_start w) (pytd_end w) r = true \/
             in_period (p1ytd_start w) (p1ytd_end w) r = true).
Proof.
  unfold metrics_rows. rewrite assemble_names, !outer_merge_keys, !aggregate_keys.
  setoid_rewrite list_elem_of_In. setoid_rewrite filter_In. split.
  - intros [[(r & (Hr & Hp) & E)|(r & (Hr & Hp) & E)]|(r & (Hr & Hp) & E)];
      exists r; auto.
  - intros (r & Hr & E & [Hp|[Hp|Hp]]); [left; left|left; right|right];
      exists r; auto.
Qed.

Lemma metrics_rows_NoDup (records : list (Sales.row V)) (w : Windows)
  (as_of : datetime) (fy : string) :
  NoDup (map product_name (metrics_rows records w as_of fy)).
Proof.
  unfold metrics_rows. rewrite assemble_names.
  repeat apply outer_merge_NoDup; apply aggregate_NoDup.
Qed.

(** X5. The returned metrics have exactly one row for every product name
    that has a record dated in one of the three windows, and none for any
    other product: a product that sold only outside the windows, a record
    without a product name and a record without a date give no row, and
    without any record in the windows the result has no rows at all. *)
Theorem metrics_rows_products (records : list (Sales.row V)) (w : Windows)
  (as_of : datetime) (fy : string) :
  (forall p,
     p ∈ map product_name (metrics_rows records w as_of fy) <->
     exists r, r ∈ records /\ Sales.product_name r = Some p /\
               (in_period (ytd_start w) (ytd_end w) r = true \/
                in_period (pytd_start w) (pytd_end w) r = true \/
                in_period (p1ytd_start w) (p1ytd_end w) r = true)) /\
  NoDup (map product_name (metrics_rows records w as_of fy)) /\
  ((forall r, r ∈ records ->
      in_period (ytd_start w) (ytd_end w) r = false /\
      in_period (pytd_start w) (pytd_end w) r = false /\
      in_period (p1ytd_start w) (p1ytd_end w) r = false) ->
   metrics_rows records w as_of fy = []).
Proof.
  split; [apply metrics_rows_names|]. split; [apply metrics_rows_NoDup|].
  intros Hout.
  destruct (metrics_rows records w as_of fy) as [|m rows] eqn:E; [reflexivity|].
  exfalso.
  assert (Hm : product_name m ∈ map product_name (metrics_rows records w as_of fy))
    by (rewrite E; left).
  apply metrics_rows_names in Hm as (r & Hr & _ & Hin).
  destruct (Hout r Hr) as (H1 & H2 & H3). rewrite H1, H2, H3 in Hin.
  destruct Hin as [?|[?|?]]; discriminate.
Qed.
End RowsFacts.

(** ** The frame returned by [calculate_ytd_metrics] *)

Lemma outer_merge_sorted_keys {A B} (left : list (string * A)) (right : list (string * B)) :
  NoDup (map fst left) -> NoDup (map fst right) ->
  map fst (outer_merge left right) =
  merge_sort String.le (remove_dups (map fst left ++ map fst right)).
Proof.
  intros Hl Hr. unfold outer_merge.
  assert (E : forall ks : list string,
             (forall k, k ∈ ks -> k ∈ map fst left \/ k ∈ map fst right) ->
             map fst (flat_map (fun k => merge_key k (rows_of_key k left)
                                           (rows_of_key k right)) ks) = ks).
  { induction ks as [|k ks IH]; intros Hks; [reflexivity|].
    cbn [flat_map]. rewrite map_app, IH.
    - rewrite merge_key_keys_unique; [reflexivity| | |].
      + now apply rows_of_key_unique.
      + now apply rows_of_key_unique.
      + destruct (Hks k) as [Hk|Hk]; [left|left|right]; intros E;
          apply rows_of_key_nil in E; contradiction.
    - intros k' Hk'. apply Hks. now right. }
  apply E. intros k Hk. now apply elem_of_merge_keys in Hk.
Qed.

Lemma fillna0_not_nan (o : option float64) : b64_isnan (fillna0 o) = false.
Proof.
  destruct o as [v|]; [|reflexivity]. cbn.
  destruct (b64_isnan v) eqn:E; [reflexivity|assumption].
Qed.

Lemma assemble_sorted (ytd pytd p1ytd : list (string * (float64 * float64)))
  (as_of : datetime) (fy : string) :
  NoDup (map fst ytd) -> NoDup (map fst pytd) -> NoDup (map fst p1ytd) ->
  StronglySorted String.le (map product_name (assemble ytd pytd p1ytd as_of fy)).
Proof.
  intros Hy Hp H1. rewrite assemble_names.
  rewrite outer_merge_sorted_keys; [|now apply outer_merge_NoDup|assumption].
  apply StronglySorted_merge_sort; apply _.
Qed.

Lemma assemble_not_nan (ytd pytd p1ytd : list (string * (float64 * float64)))
  (as_of : datetime) (fy : string) (m : ProductMetrics float64) :
  m ∈ assemble ytd pytd p1ytd as_of fy ->
  b64_isnan (ytd_sales (totals m)) = false /\
  b64_isnan (ytd_quantity (totals m)) = false /\
  b64_isnan (pytd_sales (totals m)) = false /\
  b64_isnan (pytd_quantity (totals m)) = false /\
  b64_isnan (p1ytd_sales (totals m)) = false /\
  b64_isnan (p1ytd_quantity (totals m)) = false.
Proof.
  intros Hm. apply elem_of_assemble in Hm as (oy & op & o1 & -> & _).
  cbn [totals ytd_sales ytd_quantity pytd_sales pytd_quantity p1ytd_sales p1ytd_quantity].
  repeat split; apply fillna0_not_nan.
Qed.

Section ReturnedFrame.
Variable parse_date : string -> option timestamp.
Variable from_epoch : float64 -> option timestamp.

Lemma calculate_ytd_metrics_ok (df : nat) (as_of_date : option datetime)
  (s s' : store) (m : nat) :
  calculate_ytd_metrics parse_date from_epoch df as_of_date s = (s', Ok m) ->
  exists frame frame' mf,
    s !! df = Some frame /\
    assign_frame frame "date" (lift1 (to_datetime parse_date from_epoch) (col "date")) =
      Ok frame' /\
    metrics_of_frame frame' as_of_date = Ok mf /\
    s' = <[df := frame']> s ++ [mf] /\ m = length s /\ s' !! m = Some mf.
Proof.
  rewrite calculate_ytd_metrics_run.
  destruct (s !! df) as [frame|] eqn:E; [|discriminate].
  destruct (assign_frame frame "date" _) as [frame'|] eqn:Ea; [|discriminate].
  destruct (metrics_of_frame frame' as_of_date) as [mf|] eqn:Em; [|discriminate].
  intros [= <- <-]. exists frame, frame', mf.
  repeat split; try reflexivity; try assumption.
  apply list_lookup_middle. now rewrite length_insert.
Qed.

(** X6. A frame returned by [calculate_ytd_metrics] is a new frame of the
    store, never the input; it has one row per product, in ascending order
    of the product name, and none of its six sales and quantity cells is
    NaN. *)
Theorem returned_metrics_frame (df : nat) (as_of_date : option datetime)
  (s s' : store) (m : nat) :
  calculate_ytd_metrics parse_date from_epoch df as_of_date s = (s', Ok m) ->
  m = length s /\ m <> df /\
  exists rows : list (ProductMetrics float64),
    s' !! m = Some (metrics_frame rows) /\
    NoDup (map product_name rows) /\
    StronglySorted String.le (map product_name rows) /\
    forall r, r ∈ rows ->
      b64_isnan (ytd_sales (totals r)) = false /\
      b64_isnan (ytd_quantity (totals r)) = false /\
      b64_isnan (pytd_sales (totals r)) = false /\
      b64_isnan (pytd_quantity (totals r)) = false /\
      b64_isnan (p1ytd_sales (totals r)) = false /\
      b64_isnan (p1ytd_quantity (totals r)) = false.
Proof.
  intros Hrun.
  apply calculate_ytd_metrics_ok in Hrun as (frame & frame' & mf & E & _ & Hm & _ & -> & Hl).
  apply metrics_of_frame_ok in Hm as (dates & as_of & w & records & _ & _ & _ & _ & ->).
  split; [reflexivity|]. split; [apply lookup_lt_Some in E; lia|].
  eexists. split; [exact Hl|]. split; [|split].
  - rewrite assemble_names. repeat apply outer_merge_NoDup; apply aggregate_NoDup.
  - apply assemble_sorted; apply aggregate_NoDup.
  - intros r. apply assemble_not_nan.
Qed.
End ReturnedFrame.

Lemma returned_metrics_frame_witness :
  exists s',
    calculate_ytd_metrics (fun _ => None) (fun _ => None) 0%nat
      (Some (mk_datetime 2023 4 10 0))
      [[("date", ColTime [TS (mk_datetime 2023 4 10 0); TS (mk_datetime 2022 4 10 0)]);
        ("product_name", ColStr [Some "B"; Some "A"]);
        ("sales_amount", ColNum [b64_of_Z 50; b64_of_Z 80]);
        ("quantity", ColNum [b64_of_Z 2; b64_of_Z 1])]] = (s', Ok 1%nat) /\
    (1%nat = length [[("date", ColTime [TS (mk_datetime 2023 4 10 0);
                                        TS (mk_datetime 2022 4 10 0)]);
                      ("product_name", ColStr [Some "B"; Some "A"]);
                      ("sales_amount", ColNum [b64_of_Z 50; b64_of_Z 80]);
                      ("quantity", ColNum [b64_of_Z 2; b64_of_Z 1])]] /\
     1%nat <> 0%nat /\
     exists rows : list (ProductMetrics float64),
       s' !! 1%nat = Some (metrics_frame rows) /\
       NoDup (map product_name rows) /\
       StronglySorted String.le (map product_name rows) /\
       forall r, r ∈ rows ->
         b64_isnan (ytd_sales (totals r)) = false /\
         b64_isnan (ytd_quantity (totals r)) = false /\
         b64_isnan (pytd_sales (totals r)) = false /\
         b64_isnan (pytd_quantity (totals r)) = false /\
         b64_isnan (p1ytd_sales (totals r)) = false /\
         b64_isnan (p1ytd_quantity (totals r)) = false).
Proof.
  eexists. split; [vm_compute; reflexivity|].
  apply (returned_metrics_frame (fun _ => None) (fun _ => None) 0%nat
           (Some (mk_datetime 2023 4 10 0))
           [[("date", ColTime [TS (mk_datetime 2023 4 10 0); TS (mk_datetime 2022 4 10 0)]);
             ("product_name", ColStr [Some "B"; Some "A"]);
             ("sales_amount", ColNum [b64_of_Z 50; b64_of_Z 80]);
             ("quantity", ColNum [b64_of_Z 2; b64_of_Z 1])]]).
  vm_compute. reflexivity.
Defined.

(** ** Failures of [calculate_ytd_metrics] and what they leave behind *)

Section Failures.
Variable parse_date : string -> option timestamp.
Variable from_epoch : float64 -> option timestamp.

Lemma date_assignment_ok (frame : DataFrame) (c : column) (dates : list timestamp) :
  getitem frame "date" = Ok c ->
  to_datetime parse_date from_epoch c = Ok (ColTime dates) ->
  assign_frame frame "date" (lift1 (to_datetime parse_date from_epoch) (col "date")) =
  Ok (setitem frame "date" (ColTime dates)).
Proof.
  intros Hg Hc. unfold assign_frame, lift1, col. rewrite Hg. cbn [rbind].
  now rewrite Hc.
Qed.

(** X7. Without an as-of date, a frame whose [date] column holds no
    datetime at all (no rows, or missing dates only) makes
    [calculate_ytd_metrics] raise [TypeError]; the [date] column of the
    input has been converted by then. *)
Theorem no_datetime_no_default (df : nat) (s : store) (frame : DataFrame)
  (c : column) (dates : list timestamp) :
  s !! df = Some frame -> getitem frame "date" = Ok c ->
  to_datetime parse_date from_epoch c = Ok (ColTime dates) ->
  (forall t, TS t ∉ dates) ->
  calculate_ytd_metrics parse_date from_epoch df None s =
  (<[df := setitem frame "date" (ColTime dates)]> s, Raise TypeError).
Proof.
  intros E Hg Hc Hnone. rewrite calculate_ytd_metrics_run, E.
  rewrite (date_assignment_ok _ _ _ Hg Hc).
  unfold metrics_of_frame, time_col. rewrite (getitem_setitem_eq _ _ _ _ Hg).
  cbn [rbind]. unfold resolve_as_of.
  pose proof (ts_max_spec dates) as Hmax.
  destruct (ts_max dates) as [|latest]; [reflexivity|].
  destruct Hmax as (Hin & _). now destruct (Hnone latest).
Qed.

(** X8. A frame without a [date] column makes [calculate_ytd_metrics] and
    [get_monthly_trends] raise [KeyError] and leaves the store as it was. *)
Theorem missing_date_column (df : nat) (as_of_date : option datetime) (s : store)
  (frame : DataFrame) :
  s !! df = Some frame -> getitem frame "date" = Raise KeyError ->
  calculate_ytd_metrics parse_date from_epoch df as_of_date s = (s, Raise KeyError) /\
  get_monthly_trends parse_date from_epoch df s = (s, Raise KeyError).
Proof.
  intros E Hg.
  assert (Ha : assign_frame frame "date"
                 (lift1 (to_datetime parse_date from_epoch) (col "date")) =
               Raise KeyError).
  { unfold assign_frame, lift1, col. now rewrite Hg. }
  split.
  - now rewrite calculate_ytd_metrics_run, E, Ha.
  - unfold get_monthly_trends, bind at 1. now rewrite assign_run, E, Ha.
Qed.

(** X9. An exception raised after line 69 leaves the input changed: when
    the dates convert and the windows exist but the frame has no
    [product_name] column, [calculate_ytd_metrics] raises [KeyError] and the
    caller's frame keeps the converted [date] column. *)
Theorem failure_after_date_conversion (df : nat) (as_of_date : option datetime)
  (s : store) (frame : DataFrame) (c : column) (dates : list timestamp)
  (as_of : datetime) (w : Windows) :
  s !! df = Some frame -> getitem frame "date" = Ok c ->
  to_datetime parse_date from_epoch c = Ok (ColTime dates) ->
  resolve_as_of dates as_of_date = Ok as_of -> period_windows as_of = Ok w ->
  getitem frame "product_name" = Raise KeyError ->
  calculate_ytd_metrics parse_date from_epoch df as_of_date s =
  (<[df := setitem frame "date" (ColTime dates)]> s, Raise KeyError).
Proof.
  intros E Hg Hc Ha Hw Hp. rewrite calculate_ytd_metrics_run, E.
  rewrite (date_assignment_ok _ _ _ Hg Hc).
  unfold metrics_of_frame, sales_records, time_col, str_col.
  rewrite (getitem_setitem_eq _ _ _ _ Hg). cbn [rbind].
  rewrite Ha. cbn [rbind]. rewrite Hw. cbn [rbind].
  rewrite getitem_setitem_ne by discriminate. now rewrite Hp.
Qed.
End Failures.

Lemma no_datetime_no_default_witness :
  calculate_ytd_metrics (fun _ => Some NaT) (fun _ => None) 0%nat None
    [[("date", ColStr [None; Some "NaT"]); ("product_name", ColStr [Some "A"; Some "B"]);
      ("sales_amount", ColNum [b64_of_Z 1; b64_of_Z 2]);
      ("quantity", ColNum [b64_of_Z 1; b64_of_Z 1])]] =
  (<[0%nat := setitem
       [("date", ColStr [None; Some "NaT"]); ("product_name", ColStr [Some "A"; Some "B"]);
        ("sales_amount", ColNum [b64_of_Z 1; b64_of_Z 2]);
        ("quantity", ColNum [b64_of_Z 1; b64_of_Z 1])] "date" (ColTime [NaT; NaT])]>
     [[("date", ColStr [None; Some "NaT"]); ("product_name", ColStr [Some "A"; Some "B"]);
       ("sales_amount", ColNum [b64_of_Z 1; b64_of_Z 2]);
       ("quantity", ColNum [b64_of_Z 1; b64_of_Z 1])]],
   Raise TypeError).
Proof.
  apply (no_datetime_no_default (fun _ => Some NaT) (fun _ => None) 0%nat _ _
           (ColStr [None; Some "NaT"]) [NaT; NaT]).
  - reflexivity.
  - reflexivity.
  - reflexivity.
  - intros t Hin. repeat (apply elem_of_cons in Hin as [Hin|Hin]; [discriminate|]).
    inversion Hin.
Defined.

Lemma missing_date_column_witness :
  calculate_ytd_metrics (fun _ => None) (fun _ => None) 0%nat None
    [[("product_name", ColStr [Some "A"]); ("sales_amount", ColNum [b64_of_Z 1]);
      ("quantity", ColNum [b64_of_Z 1])]] =
  ([[("product_name", ColStr [Some "A"]); ("sales_amount", ColNum [b64_of_Z 1]);
     ("quantity", ColNum [b64_of_Z 1])]], Raise KeyError) /\
  get_monthly_trends (fun _ => None) (fun _ => None) 0%nat
    [[("product_name", ColStr [Some "A"]); ("sales_amount", ColNum [b64_of_Z 1]);
      ("quantity", ColNum [b64_of_Z 1])]] =
  ([[("product_name", ColStr [Some "A"]); ("sales_amount", ColNum [b64_of_Z 1]);
     ("quantity", ColNum [b64_of_Z 1])]], Raise KeyError).
Proof.
  apply (missing_date_column (fun _ => None) (fun _ => None) 0%nat None _
           [("product_name", ColStr [Some "A"]); ("sales_amount", ColNum [b64_of_Z 1]);
            ("quantity", ColNum [b64_of_Z 1])]); reflexivity.
Defined.

Lemma failure_after_date_conversion_witness :
  calculate_ytd_metrics (fun _ => Some (TS (mk_datetime 2023 4 10 0))) (fun _ => None)
    0%nat None
    [[("date", ColStr [Some "2023-04-10"]); ("sales_amount", ColNum [b64_of_Z 1]);
      ("quantity", ColNum [b64_of_Z 1])]] =
  (<[0%nat := setitem
       [("date", ColStr [Some "2023-04-10"]); ("sales_amount", ColNum [b64_of_Z 1]);
        ("quantity", ColNum [b64_of_Z 1])] "date" (ColTime [TS (mk_datetime 2023 4 10 0)])]>
     [[("date", ColStr [Some "2023-04-10"]); ("sales_amount", ColNum [b64_of_Z 1]);
       ("quantity", ColNum [b64_of_Z 1])]],
   Raise KeyError).
Proof.
  eapply (failure_after_date_conversion (fun _ => Some (TS (mk_datetime 2023 4 10 0)))
            (fun _ => None) 0%nat None _ _ (ColStr [Some "2023-04-10"])
            [TS (mk_datetime 2023 4 10 0)] (mk_datetime 2023 4 10 0)).
  - reflexivity.
  - reflexivity.
  - reflexivity.
  - reflexivity.
  - vm_compute. reflexivity.
  - reflexivity.
Defined.

(** ** What [calculate_deltas] writes *)

(** A successful run of lines 144-163 read six numeric columns and assigned
    the nine new ones row by row. *)
Lemma deltas_frame_full (df df' : DataFrame) :
  deltas_frame df = Ok df' ->
  exists ytd pytd p1ytd ytd_q pytd_q p1ytd_q,
    getitem df "ytd_sales" = Ok (ColNum ytd) /\
    getitem df "pytd_sales" = Ok (ColNum pytd) /\
    getitem df "p1ytd_sales" = Ok (ColNum p1ytd) /\
    getitem df "ytd_quantity" = Ok (ColNum ytd_q) /\
    getitem df "pytd_quantity" = Ok (ColNum pytd_q) /\
    getitem df "p1ytd_quantity" = Ok (ColNum p1ytd_q) /\
    df' = with_deltas df ytd pytd p1ytd ytd_q pytd_q p1ytd_q.
Proof.
  unfold deltas_frame. intros H.
  repeat match type of H with
         | rbind (assign_frame _ _ _) _ = Ok _ =>
             let c := fresh "c" in
             let Hc := fresh "Hc" in
             let f := fresh "df" in
             let Hf := fresh "Hf" in
             apply rbind_ok in H as (f & Hf & H);
             apply assign_frame_ok in Hf as (c & Hc & Hf)
         end.
  injection H as <-.
  unfold e_sub, e_div, e_times, e_replace_inf, e_abs, e_classify, lift1, lift2, col in *.
  subst df8 df7 df6 df5 df4 df3 df2 df1 df0.
  rewrite ?getitem_setitem_ne in * by discriminate.
  destruct (getitem df "ytd_sales") as [x|] eqn:Ey; [|discriminate].
  destruct (getitem df "pytd_sales") as [y|] eqn:Ep; [|discriminate].
  destruct x as [| |ytd|], y as [| |pytd|]; try discriminate.
  cbn in Hc. injection Hc as <-.
  destruct (getitem df "p1ytd_sales") as [[| |p1ytd|]|] eqn:Ep1; try discriminate.
  cbn in Hc0, Hc1, Hc2, Hc3. rewrite growth_column in Hc2, Hc3.
  injection Hc0 as <-. injection Hc1 as <-. injection Hc2 as <-. injection Hc3 as <-.
  destruct (getitem df "ytd_quantity") as [x|] eqn:Eyq; [|discriminate].
  destruct (getitem df "pytd_quantity") as [y|] eqn:Epq; [|discriminate].
  destruct x as [| |ytd_q|], y as [| |pytd_q|]; try discriminate.
  cbn in Hc4. injection Hc4 as <-.
  destruct (getitem df "p1ytd_quantity") as [[| |p1ytd_q|]|] eqn:Ep1q; try discriminate.
  cbn in Hc5. injection Hc5 as <-.
  destruct (getitem (setitem df "delta_ytd_pytd" _) "delta_ytd_pytd") as [x|] eqn:Ed;
    [|discriminate].
  apply getitem_In, In_setitem_same in Ed. subst x.
  cbn in Hc6, Hc7. injection Hc6 as <-. injection Hc7 as <-.
  exists ytd, pytd, p1ytd, ytd_q, pytd_q, p1ytd_q.
  repeat split; reflexivity.
Qed.

Lemma getitem_setitem_new (df : DataFrame) (n : string) (c : column) :
  getitem df n <> Raise ValueError -> getitem (setitem df n c) n = Ok c.
Proof.
  intros Hg. destruct (getitem df n) as [c0|e] eqn:E.
  - now apply (getitem_setitem_eq _ _ c0).
  - unfold getitem in *. destruct (List.filter (named n) df) as [|x [|y l]] eqn:Ef;
      try discriminate; [|congruence].
    unfold setitem.
    assert (Hex : existsb (named n) df = false).
    { destruct (existsb (named n) df) eqn:Hex; [|reflexivity].
      apply existsb_exists in Hex as (x & Hin & Hx).
      assert (Hf : In x (List.filter (named n) df)) by (apply filter_In; now split).
      rewrite Ef in Hf. destruct Hf. }
    rewrite Hex, List.filter_app, Ef. cbn [List.filter app].
    replace (named n (n, c)) with true by (symmetry; now apply named_true).
    reflexivity.
Qed.

Lemma assign_frame_eval (df : DataFrame) (n : string) (e : expr) (c : column) :
  e df = Ok c -> assign_frame df n e = Ok (setitem df n c).
Proof. intros E. unfold assign_frame. now rewrite E. Qed.

Lemma e_sub_eval (df : DataFrame) (a b : string) (x y : list float64) :
  getitem df a = Ok (ColNum x) -> getitem df b = Ok (ColNum y) ->
  e_sub (col a) (col b) df = Ok (ColNum (zip_with b64_sub x y)).
Proof. intros Ha Hb. unfold e_sub, lift2, col. now rewrite Ha, Hb. Qed.

Lemma e_growth_eval (df : DataFrame) (a b : string) (x y : list float64) :
  getitem df a = Ok (ColNum x) -> getitem df b = Ok (ColNum y) ->
  e_replace_inf (e_times 100 (e_div (e_sub (col a) (col b)) (col b))) df =
  Ok (ColNum (zip_with growth_pct x y)).
Proof.
  intros Ha Hb. unfold e_replace_inf, e_times, e_div, e_sub, lift1, lift2, col.
  rewrite Ha, Hb. cbn [rbind col_binop col_map]. now rewrite growth_column.
Qed.

Lemma e_abs_eval (df : DataFrame) (a : string) (x : list float64) :
  getitem df a = Ok (ColNum x) ->
  e_abs (col a) df = Ok (ColNum (map b64_abs x)).
Proof. intros Ha. unfold e_abs, lift1, col. now rewrite Ha. Qed.

Lemma e_classify_eval (df : DataFrame) (a : string) (x : list float64) :
  getitem df a = Ok (ColNum x) ->
  e_classify (col a) df = Ok (ColStr (map (fun v => Some (classify v)) x)).
Proof. intros Ha. unfold e_classify, lift1, col. now rewrite Ha. Qed.

(** Six numeric columns of totals, and at most one column already named
    [delta_ytd_pytd], are all that lines 144-163 need. *)
Lemma deltas_frame_complete (df : DataFrame)
  (ytd pytd p1ytd ytd_q pytd_q p1ytd_q : list float64) :
  getitem df "ytd_sales" = Ok (ColNum ytd) ->
  getitem df "pytd_sales" = Ok (ColNum pytd) ->
  getitem df "p1ytd_sales" = Ok (ColNum p1ytd) ->
  getitem df "ytd_quantity" = Ok (ColNum ytd_q) ->
  getitem df "pytd_quantity" = Ok (ColNum pytd_q) ->
  getitem df "p1ytd_quantity" = Ok (ColNum p1ytd_q) ->
  getitem df "delta_ytd_pytd" <> Raise ValueError ->
  deltas_frame df = Ok (with_deltas df ytd pytd p1ytd ytd_q pytd_q p1ytd_q).
Proof.
  intros Ey Ep Ep1 Eyq Epq Ep1q Hd. unfold deltas_frame, with_deltas.
  rewrite (assign_frame_eval _ _ _ _ (e_sub_eval _ _ _ _ _ Ey Ep)). cbn [rbind].
  set (f1 := setitem df "delta_ytd_pytd" _).
  assert (Ed : getitem f1 "delta_ytd_pytd" = Ok (ColNum (zip_with b64_sub ytd pytd)))
    by now apply getitem_setitem_new.
  assert (G1 : forall n, "delta_ytd_pytd" <> n -> getitem f1 n = getitem df n)
    by (intros n Hn; now apply getitem_setitem_ne).
  rewrite (assign_frame_eval f1 _ _ (ColNum (zip_with b64_sub ytd p1ytd))).
  2:{ apply e_sub_eval; rewrite G1 by discriminate; assumption. }
  cbn [rbind]. set (f2 := setitem f1 "delta_ytd_p1ytd" _).
  assert (G2 : forall n, "delta_ytd_p1ytd" <> n -> getitem f2 n = getitem f1 n)
    by (intros n Hn; now apply getitem_setitem_ne).
  rewrite (assign_frame_eval f2 _ _ (ColNum (zip_with b64_sub pytd p1ytd))).
  2:{ apply e_sub_eval; rewrite G2, G1 by discriminate; assumption. }
  cbn [rbind]. set (f3 := setitem f2 "delta_pytd_p1ytd" _).
  assert (G3 : forall n, "delta_pytd_p1ytd" <> n -> getitem f3 n = getitem f2 n)
    by (intros n Hn; now apply getitem_setitem_ne).
  rewrite (assign_frame_eval f3 _ _ (ColNum (zip_with growth_pct ytd pytd))).
  2:{ apply e_growth_eval; rewrite G3, G2, G1 by discriminate; assumption. }
  cbn [rbind]. set (f4 := setitem f3 "growth_ytd_vs_pytd_pct" _).
  assert (G4 : forall n, "growth_ytd_vs_pytd_pct" <> n -> getitem f4 n = getitem f3 n)
    by (intros n Hn; now apply getitem_setitem_ne).
  rewrite (assign_frame_eval f4 _ _ (ColNum (zip_with growth_pct ytd p1ytd))).
  2:{ apply e_growth_eval; rewrite G4, G3, G2, G1 by discriminate; assumption. }
  cbn [rbind]. set (f5 := setitem f4 "growth_ytd_vs_p1ytd_pct" _).
  assert (G5 : forall n, "growth_ytd_vs_p1ytd_pct" <> n -> getitem f5 n = getitem f4 n)
    by (intros n Hn; now apply getitem_setitem_ne).
  rewrite (assign_frame_eval f5 _ _ (ColNum (zip_with b64_sub ytd_q pytd_q))).
  2:{ apply e_sub_eval; rewrite G5, G4, G3, G2, G1 by discriminate; assumption. }
  cbn [rbind]. set (f6 := setitem f5 "qty_delta_ytd_pytd" _).
  assert (G6 : forall n, "qty_delta_ytd_pytd" <> n -> getitem f6 n = getitem f5 n)
    by (intros n Hn; now apply getitem_setitem_ne).
  rewrite (assign_frame_eval f6 _ _ (ColNum (zip_with b64_sub ytd_q p1ytd_q))).
  2:{ apply e_sub_eval; rewrite G6, G5, G4, G3, G2, G1 by discriminate; assumption. }
  cbn [rbind]. set (f7 := setitem f6 "qty_delta_ytd_p1ytd" _).
  assert (G7 : forall n, "qty_delta_ytd_p1ytd" <> n -> getitem f7 n = getitem f6 n)
    by (intros n Hn; now apply getitem_setitem_ne).
  rewrite (assign_frame_eval f7 _ _ (ColNum (map b64_abs (zip_with b64_sub ytd pytd)))).
  2:{ apply e_abs_eval. rewrite G7, G6, G5, G4, G3, G2 by discriminate. exact Ed. }
  cbn [rbind]. set (f8 := setitem f7 "abs_delta_ytd_pytd" _).
  rewrite (assign_frame_eval f8 _ _
             (ColStr (map (fun v => Some (classify v)) (zip_with b64_sub ytd pytd)))).
  2:{ apply e_classify_eval. subst f8. rewrite getitem_setitem_ne by discriminate.
      rewrite G7, G6, G5, G4, G3, G2 by discriminate. exact Ed. }
  reflexivity.
Qed.

Lemma with_deltas_same_except (df : DataFrame)
  (ytd pytd p1ytd ytd_q pytd_q p1ytd_q : list float64) :
  same_except delta_columns df (with_deltas df ytd pytd p1ytd ytd_q pytd_q p1ytd_q).
Proof.
  unfold with_deltas. cbv zeta.
  repeat (eapply same_except_trans;
          [|apply same_except_setitem; unfold delta_columns; set_solver]).
  apply same_except_refl.
Qed.

Lemma with_deltas_getitem (df : DataFrame)
  (ytd pytd p1ytd ytd_q pytd_q p1ytd_q : list float64) (n : string) :
  n ∉ delta_columns ->
  getitem (with_deltas df ytd pytd p1ytd ytd_q pytd_q p1ytd_q) n = getitem df n.
Proof.
  intros Hn. unfold with_deltas. cbv zeta.
  rewrite !getitem_setitem_ne; [reflexivity|..];
    intros <-; apply Hn; unfold delta_columns; set_solver.
Qed.

Ltac find_column :=
  repeat first [ apply In_setitem | apply In_setitem_other; [discriminate|] ].

Ltac only_column H :=
  repeat first [ apply In_setitem_same in H
               | apply In_setitem_other in H; [|discriminate] ].

Lemma with_deltas_columns (df : DataFrame)
  (ytd pytd p1ytd ytd_q pytd_q p1ytd_q : list float64) (n : string) :
  n ∈ delta_columns ->
  exists c, forall c',
    In (n, c') (with_deltas df ytd pytd p1ytd ytd_q pytd_q p1ytd_q) <-> c' = c.
Proof.
  intros Hn. unfold delta_columns in Hn.
  repeat (apply elem_of_cons in Hn as [->|Hn]); [..|now apply elem_of_nil in Hn];
    unfold with_deltas; cbv zeta; eexists; intros c';
    (split; [intros H; only_column H; exact H|intros ->; find_column]).
Qed.

(** X10. [calculate_deltas] returns a new frame and leaves its argument as it
    was. The new frame differs from the argument only under the nine names
    assigned on lines 144-163: every other name reads as in the argument,
    and each of the nine names is that of exactly one column content. *)
Theorem calculate_deltas_adds_columns (metrics df : nat) (s s' : store) :
  calculate_deltas metrics s = (s', Ok df) ->
  exists frame frame',
    s !! metrics = Some frame /\ s' !! metrics = Some frame /\
    df = length s /\ s' !! df = Some frame' /\
    same_except delta_columns frame frame' /\
    (forall n, n ∉ delta_columns -> getitem frame' n = getitem frame n) /\
    (forall n, n ∈ delta_columns ->
               exists c, forall c', In (n, c') frame' <-> c' = c).
Proof.
  intros H. apply calculate_deltas_ok in H as (frame & frame' & Hm & Hd & -> & ->).
  apply deltas_frame_full in Hd
    as (ytd & pytd & p1ytd & ytd_q & pytd_q & p1ytd_q & _ & _ & _ & _ & _ & _ & ->).
  exists frame, (with_deltas frame ytd pytd p1ytd ytd_q pytd_q p1ytd_q).
  split; [assumption|].
  split; [rewrite lookup_app_l; [assumption|now apply lookup_lt_Some in Hm]|].
  split; [reflexivity|]. split; [now apply list_lookup_middle|].
  split; [apply with_deltas_same_except|].
  split; [intros n; apply with_deltas_getitem|].
  intros n. apply with_deltas_columns.
Qed.

Lemma calculate_deltas_adds_columns_witness :
  exists s',
    calculate_deltas 0%nat
      [[("product_name", ColStr [Some "A"; Some "B"]);
        ("ytd_sales", ColNum [b64_of_Z 100; b64_of_Z 10]);
        ("pytd_sales", ColNum [b64_of_Z 80; b64_of_Z 0]);
        ("p1ytd_sales", ColNum [b64_of_Z 40; b64_of_Z 20]);
        ("ytd_quantity", ColNum [b64_of_Z 3; b64_of_Z 1]);
        ("pytd_quantity", ColNum [b64_of_Z 2; b64_of_Z 0]);
        ("p1ytd_quantity", ColNum [b64_of_Z 1; b64_of_Z 2])]]
    = (s', Ok 1%nat) /\
    exists frame frame',
      [[("product_name", ColStr [Some "A"; Some "B"]);
        ("ytd_sales", ColNum [b64_of_Z 100; b64_of_Z 10]);
        ("pytd_sales", ColNum [b64_of_Z 80; b64_of_Z 0]);
        ("p1ytd_sales", ColNum [b64_of_Z 40; b64_of_Z 20]);
        ("ytd_quantity", ColNum [b64_of_Z 3; b64_of_Z 1]);
        ("pytd_quantity", ColNum [b64_of_Z 2; b64_of_Z 0]);
        ("p1ytd_quantity", ColNum [b64_of_Z 1; b64_of_Z 2])]] !! 0%nat = Some frame /\
      s' !! 0%nat = Some frame /\
      1%nat = length
        [[("product_name", ColStr [Some "A"; Some "B"]);
          ("ytd_sales", ColNum [b64_of_Z 100; b64_of_Z 10]);
          ("pytd_sales", ColNum [b64_of_Z 80; b64_of_Z 0]);
          ("p1ytd_sales", ColNum [b64_of_Z 40; b64_of_Z 20]);
          ("ytd_quantity", ColNum [b64_of_Z 3; b64_of_Z 1]);
          ("pytd_quantity", ColNum [b64_of_Z 2; b64_of_Z 0]);
          ("p1ytd_quantity", ColNum [b64_of_Z 1; b64_of_Z 2])]] /\
      s' !! 1%nat = Some frame' /\
      same_except delta_columns frame frame' /\
      (forall n, n ∉ delta_columns -> getitem frame' n = getitem frame n) /\
      (forall n, n ∈ delta_columns ->
                 exists c, forall c', In (n, c') frame' <-> c' = c).
Proof.
  eexists. split.
  - vm_compute. reflexivity.
  - apply (calculate_deltas_adds_columns 0%nat 1%nat
             [[("product_name", ColStr [Some "A"; Some "B"]);
               ("ytd_sales", ColNum [b64_of_Z 100; b64_of_Z 10]);
               ("pytd_sales", ColNum [b64_of_Z 80; b64_of_Z 0]);
               ("p1ytd_sales", ColNum [b64_of_Z 40; b64_of_Z 20]);
               ("ytd_quantity", ColNum [b64_of_Z 3; b64_of_Z 1]);
               ("pytd_quantity", ColNum [b64_of_Z 2; b64_of_Z 0]);
               ("p1ytd_quantity", ColNum [b64_of_Z 1; b64_of_Z 2])]]).
    vm_compute. reflexivity.
Defined.

(** X11. In the frame returned by [calculate_deltas] the two growth columns
    hold, row by row, [growth_pct] of the YTD total and the base total. No
    growth cell is an infinity, and a row whose base total is zero while its
    YTD total is a number other than zero has growth zero. *)
Theorem growth_columns (metrics df : nat) (s s' : store) :
  calculate_deltas metrics s = (s', Ok df) ->
  exists frame frame' ytd pytd p1ytd,
    s !! metrics = Some frame /\ s' !! df = Some frame' /\
    getitem frame "ytd_sales" = Ok (ColNum ytd) /\
    getitem frame "pytd_sales" = Ok (ColNum pytd) /\
    getitem frame "p1ytd_sales" = Ok (ColNum p1ytd) /\
    (forall c, In ("growth_ytd_vs_pytd_pct", c) frame' <->
               c = ColNum (zip_with growth_pct ytd pytd)) /\
    (forall c, In ("growth_ytd_vs_p1ytd_pct", c) frame' <->
               c = ColNum (zip_with growth_pct ytd p1ytd)) /\
    (forall base x sg, x ∈ zip_with growth_pct ytd base -> x <> S754_infinity sg) /\
    (forall base i a sg,
        ytd !! i = Some a -> base !! i = Some (S754_zero sg) ->
        b64_isnan a = false -> (forall sg', a <> S754_zero sg') ->
        zip_with growth_pct ytd base !! i = Some b64_zero).
Proof.
  intros H. apply calculate_deltas_ok in H as (frame & frame' & Hm & Hd & -> & ->).
  apply deltas_frame_full in Hd
    as (ytd & pytd & p1ytd & ytd_q & pytd_q & p1ytd_q & Hy & Hp & Hp1 & _ & _ & _ & ->).
  exists frame, (with_deltas frame ytd pytd p1ytd ytd_q pytd_q p1ytd_q), ytd, pytd, p1ytd.
  split; [assumption|]. split; [now apply list_lookup_middle|].
  split; [assumption|]. split; [assumption|]. split; [assumption|].
  split; [|split; [|split]].
  - intros c. unfold with_deltas. cbv zeta.
    split; [intros H; only_column H; exact H|intros ->; find_column].
  - intros c. unfold with_deltas. cbv zeta.
    split; [intros H; only_column H; exact H|intros ->; find_column].
  - intros base x sg Hx. apply elem_of_lookup_zip_with in Hx as (i & a & b & -> & _).
    apply growth_pct_not_inf.
  - intros base i a sg Ha Hb Hnan Hnz. apply lookup_zip_with_Some.
    exists a, (S754_zero sg). split; [|now split].
    symmetry. now apply growth_pct_zero_base.
Qed.

Lemma growth_columns_witness :
  exists s',
    calculate_deltas 0%nat
      [[("product_name", ColStr [Some "A"; Some "B"]);
        ("ytd_sales", ColNum [b64_of_Z 100; b64_of_Z 10]);
        ("pytd_sales", ColNum [b64_of_Z 80; b64_of_Z 0]);
        ("p1ytd_sales", ColNum [b64_of_Z 40; b64_of_Z 20]);
        ("ytd_quantity", ColNum [b64_of_Z 3; b64_of_Z 1]);
        ("pytd_quantity", ColNum [b64_of_Z 2; b64_of_Z 0]);
        ("p1ytd_quantity", ColNum [b64_of_Z 1; b64_of_Z 2])]]
    = (s', Ok 1%nat) /\
    exists frame frame' ytd pytd p1ytd,
      [[("product_name", ColStr [Some "A"; Some "B"]);
        ("ytd_sales", ColNum [b64_of_Z 100; b64_of_Z 10]);
        ("pytd_sales", ColNum [b64_of_Z 80; b64_of_Z 0]);
        ("p1ytd_sales", ColNum [b64_of_Z 40; b64_of_Z 20]);
        ("ytd_quantity", ColNum [b64_of_Z 3; b64_of_Z 1]);
        ("pytd_quantity", ColNum [b64_of_Z 2; b64_of_Z 0]);
        ("p1ytd_quantity", ColNum [b64_of_Z 1; b64_of_Z 2])]] !! 0%nat = Some frame /\
      s' !! 1%nat = Some frame' /\
      getitem frame "ytd_sales" = Ok (ColNum ytd) /\
      getitem frame "pytd_sales" = Ok (ColNum pytd) /\
      getitem frame "p1ytd_sales" = Ok (ColNum p1ytd) /\
      (forall c, In ("growth_ytd_vs_pytd_pct", c) frame' <->
                 c = ColNum (zip_with growth_pct ytd pytd)) /\
      (forall c, In ("growth_ytd_vs_p1ytd_pct", c) frame' <->
                 c = ColNum (zip_with growth_pct ytd p1ytd)) /\
      (forall base x sg, x ∈ zip_with growth_pct ytd base -> x <> S754_infinity sg) /\
      (forall base i a sg,
          ytd !! i = Some a -> base !! i = Some (S754_zero sg) ->
          b64_isnan a = false -> (forall sg', a <> S754_zero sg') ->
          zip_with growth_pct ytd base !! i = Some b64_zero).
Proof.
  eexists. split.
  - vm_compute. reflexivity.
  - apply (growth_columns 0%nat 1%nat
             [[("product_name", ColStr [Some "A"; Some "B"]);
               ("ytd_sales", ColNum [b64_of_Z 100; b64_of_Z 10]);
               ("pytd_sales", ColNum [b64_of_Z 80; b64_of_Z 0]);
               ("p1ytd_sales", ColNum [b64_of_Z 40; b64_of_Z 20]);
               ("ytd_quantity", ColNum [b64_of_Z 3; b64_of_Z 1]);
               ("pytd_quantity", ColNum [b64_of_Z 2; b64_of_Z 0]);
               ("p1ytd_quantity", ColNum [b64_of_Z 1; b64_of_Z 2])]]).
    vm_compute. reflexivity.
Defined.

(** In the example above product B has no PYTD sales: its growth against
    PYTD is 0, product A's is 25 percent. *)
Example growth_example :
  zip_with growth_pct [b64_of_Z 100; b64_of_Z 10] [b64_of_Z 80; b64_of_Z 0] =
  [b64_of_Z 25; b64_zero].
Proof. vm_compute. reflexivity. Qed.

(** ** [calculate_deltas] after [calculate_ytd_metrics] *)

Lemma calculate_deltas_run (metrics : nat) (s : store) (frame frame' : DataFrame) :
  s !! metrics = Some frame -> deltas_frame frame = Ok frame' ->
  calculate_deltas metrics s = (s ++ [frame'], Ok (length s)).
Proof.
  intros E Ed. unfold calculate_deltas, copy, bind, read, alloc, lift, write, ret.
  rewrite E, list_lookup_middle by reflexivity. rewrite Ed.
  rewrite insert_app_r_alt by reflexivity. now rewrite Nat.sub_diag.
Qed.

Lemma zip_with_map_same {A B C D} (f : B -> C -> D) (g : A -> B) (h : A -> C)
  (l : list A) :
  zip_with f (map g l) (map h l) = map (fun x => f (g x) (h x)) l.
Proof. induction l as [|x l IH]; [reflexivity|]. cbn. now rewrite IH. Qed.

Lemma with_deltas_delta (df : DataFrame)
  (ytd pytd p1ytd ytd_q pytd_q p1ytd_q : list float64) :
  getitem df "delta_ytd_pytd" <> Raise ValueError ->
  getitem (with_deltas df ytd pytd p1ytd ytd_q pytd_q p1ytd_q) "delta_ytd_pytd" =
  Ok (ColNum (zip_with b64_sub ytd pytd)).
Proof.
  intros Hd. unfold with_deltas. cbv zeta.
  rewrite !getitem_setitem_ne by discriminate. now apply getitem_setitem_new.
Qed.

Lemma with_deltas_performance (df : DataFrame)
  (ytd pytd p1ytd ytd_q pytd_q p1ytd_q : list float64) :
  getitem df "performance" <> Raise ValueError ->
  getitem (with_deltas df ytd pytd p1ytd ytd_q pytd_q p1ytd_q) "performance" =
  Ok (ColStr (map (fun x => Some (classify x)) (zip_with b64_sub ytd pytd))).
Proof.
  intros Hd. unfold with_deltas. cbv zeta.
  apply getitem_setitem_new. now rewrite !getitem_setitem_ne by discriminate.
Qed.

Section Composition.
Variable parse_date : string -> option timestamp.
Variable from_epoch : float64 -> option timestamp.

(** X12. On a frame returned by [calculate_ytd_metrics], [calculate_deltas]
    always succeeds. The frame it returns has the nine columns of the
    metrics followed by the nine delta columns, and row by row
    [delta_ytd_pytd] is the product's YTD sales minus its PYTD sales and
    [performance] is the label of that difference. *)
Theorem deltas_after_metrics (df : nat) (as_of_date : option datetime)
  (s s1 : store) (m : nat) :
  calculate_ytd_metrics parse_date from_epoch df as_of_date s = (s1, Ok m) ->
  exists (rows : list (ProductMetrics float64)) (frame' : DataFrame),
    s1 !! m = Some (metrics_frame rows) /\
    calculate_deltas m s1 = (s1 ++ [frame'], Ok (length s1)) /\
    map fst frame' =
      ["product_name"; "ytd_sales"; "ytd_quantity"; "pytd_sales"; "pytd_quantity";
       "p1ytd_sales"; "p1ytd_quantity"; "as_of_date"; "fiscal_year"] ++ delta_columns /\
    getitem frame' "product_name" = Ok (ColStr (map (fun r => Some (product_name r)) rows)) /\
    getitem frame' "delta_ytd_pytd" =
      Ok (ColNum (map (fun r => b64_sub (ytd_sales (totals r)) (pytd_sales (totals r)))
                      rows)) /\
    getitem frame' "performance" =
      Ok (ColStr (map (fun r => Some (classify (b64_sub (ytd_sales (totals r))
                                                        (pytd_sales (totals r)))))
                      rows)).
Proof.
  intros Hrun.
  apply calculate_ytd_metrics_ok in Hrun as (frame & frame1 & mf & E & _ & Hm & _ & -> & Hl).
  apply metrics_of_frame_ok in Hm as (dates & as_of & w & records & _ & _ & _ & _ & ->).
  set (rows := assemble _ _ _ _ _) in *.
  exists rows,
    (with_deltas (metrics_frame rows)
       (map (fun r => ytd_sales (totals r)) rows)
       (map (fun r => pytd_sales (totals r)) rows)
       (map (fun r => p1ytd_sales (totals r)) rows)
       (map (fun r => ytd_quantity (totals r)) rows)
       (map (fun r => pytd_quantity (totals r)) rows)
       (map (fun r => p1ytd_quantity (totals r)) rows)).
  split; [exact Hl|]. split; [|split; [|split; [|split]]].
  - apply (calculate_deltas_run _ _ (metrics_frame rows)); [exact Hl|].
    apply deltas_frame_complete; try reflexivity. discriminate.
  - reflexivity.
  - rewrite with_deltas_getitem; [reflexivity|].
    intros Hin. unfold delta_columns in Hin.
    repeat (apply elem_of_cons in Hin as [Hin|Hin]; [discriminate|]).
    now apply elem_of_nil in Hin.
  - rewrite with_deltas_delta by discriminate. now rewrite zip_with_map_same.
  - rewrite with_deltas_performance by discriminate.
    now rewrite zip_with_map_same, map_map.
Qed.
End Composition.

Lemma deltas_after_metrics_witness :
  exists s1,
    calculate_ytd_metrics (fun _ => None) (fun _ => None) 0%nat
      (Some (mk_datetime 2023 4 10 0))
      [[("date", ColTime [TS (mk_datetime 2023 4 5 0); TS (mk_datetime 2022 4 5 0)]);
        ("product_name", ColStr [Some "A"; Some "A"]);
        ("sales_amount", ColNum [b64_of_Z 100; b64_of_Z 80]);
        ("quantity", ColNum [b64_of_Z 2; b64_of_Z 1])]] = (s1, Ok 1%nat) /\
    exists (rows : list (ProductMetrics float64)) (frame' : DataFrame),
      s1 !! 1%nat = Some (metrics_frame rows) /\
      calculate_deltas 1%nat s1 = (s1 ++ [frame'], Ok (length s1)) /\
      map fst frame' =
        ["product_name"; "ytd_sales"; "ytd_quantity"; "pytd_sales"; "pytd_quantity";
         "p1ytd_sales"; "p1ytd_quantity"; "as_of_date"; "fiscal_year"] ++ delta_columns /\
      getitem frame' "product_name" =
        Ok (ColStr (map (fun r => Some (product_name r)) rows)) /\
      getitem frame' "delta_ytd_pytd" =
        Ok (ColNum (map (fun r => b64_sub (ytd_sales (totals r)) (pytd_sales (totals r)))
                        rows)) /\
      getitem frame' "performance" =
        Ok (ColStr (map (fun r => Some (classify (b64_sub (ytd_sales (totals r))
                                                          (pytd_sales (totals r)))))
                        rows)).
Proof.
  eexists. split.
  - vm_compute. reflexivity.
  - apply (deltas_after_metrics (fun _ => None) (fun _ => None) 0%nat
             (Some (mk_datetime 2023 4 10 0))
             [[("date", ColTime [TS (mk_datetime 2023 4 5 0); TS (mk_datetime 2022 4 5 0)]);
               ("product_name", ColStr [Some "A"; Some "A"]);
               ("sales_amount", ColNum [b64_of_Z 100; b64_of_Z 80]);
               ("quantity", ColNum [b64_of_Z 2; b64_of_Z 1])]]).
    vm_compute. reflexivity.
Defined.

(** ** A missing column of totals *)

Ltac in_list :=
  repeat first [apply list_elem_of_here | apply list_elem_of_further].

Lemma assign_frame_raise (df : DataFrame) (n : string) (e : expr) (er : exn) :
  e df = Raise er -> assign_frame df n e = Raise er.
Proof. intros E. unfold assign_frame. now rewrite E. Qed.

Lemma e_sub_raise_l (df : DataFrame) (a b : string) (er : exn) :
  getitem df a = Raise er -> e_sub (col a) (col b) df = Raise er.
Proof. intros Ha. unfold e_sub, lift2, col. now rewrite Ha. Qed.

Lemma e_sub_raise_r (df : DataFrame) (a b : string) (x : column) (er : exn) :
  getitem df a = Ok x -> getitem df b = Raise er ->
  e_sub (col a) (col b) df = Raise er.
Proof. intros Ha Hb. unfold e_sub, lift2, col. now rewrite Ha, Hb. Qed.

Lemma e_growth_raise (df : DataFrame) (a b : string) (x : column) (er : exn) :
  getitem df a = Ok x -> getitem df b = Raise er ->
  e_replace_inf (e_times 100 (e_div (e_sub (col a) (col b)) (col b))) df = Raise er.
Proof.
  intros Ha Hb. unfold e_replace_inf, e_times, e_div, e_sub, lift1, lift2, col.
  now rewrite Ha, Hb.
Qed.

Lemma deltas_frame_missing (df : DataFrame) (missing : string) :
  (forall n, n ∈ total_columns ->
             getitem df n = Raise KeyError \/ exists l, getitem df n = Ok (ColNum l)) ->
  missing ∈ total_columns -> getitem df missing = Raise KeyError ->
  deltas_frame df = Raise KeyError.
Proof.
  intros Hall Hin Hmiss.
  assert (Hy := Hall "ytd_sales" ltac:(in_list)).
  assert (Hp := Hall "pytd_sales" ltac:(in_list)).
  assert (Hp1 := Hall "p1ytd_sales" ltac:(in_list)).
  assert (Hyq := Hall "ytd_quantity" ltac:(in_list)).
  assert (Hpq := Hall "pytd_quantity" ltac:(in_list)).
  assert (Hp1q := Hall "p1ytd_quantity" ltac:(in_list)).
  clear Hall. unfold deltas_frame.
  destruct Hy as [Ey|[ytd Ey]].
  { now rewrite (assign_frame_raise _ _ _ _ (e_sub_raise_l _ _ _ _ Ey)). }
  destruct Hp as [Ep|[pytd Ep]].
  { now rewrite (assign_frame_raise _ _ _ _ (e_sub_raise_r _ _ _ _ _ Ey Ep)). }
  rewrite (assign_frame_eval _ _ _ _ (e_sub_eval _ _ _ _ _ Ey Ep)). cbn [rbind].
  set (f1 := setitem df "delta_ytd_pytd" _).
  assert (G1 : forall n, "delta_ytd_pytd" <> n -> getitem f1 n = getitem df n)
    by (intros n Hn; now apply getitem_setitem_ne).
  destruct Hp1 as [Ep1|[p1ytd Ep1]].
  { rewrite (assign_frame_raise f1 _ _ KeyError); [reflexivity|].
    apply (e_sub_raise_r _ _ _ (ColNum ytd)); rewrite G1 by discriminate; assumption. }
  rewrite (assign_frame_eval f1 _ _ (ColNum (zip_with b64_sub ytd p1ytd))).
  2:{ apply e_sub_eval; rewrite G1 by discriminate; assumption. }
  cbn [rbind]. set (f2 := setitem f1 "delta_ytd_p1ytd" _).
  assert (G2 : forall n, "delta_ytd_p1ytd" <> n -> getitem f2 n = getitem f1 n)
    by (intros n Hn; now apply getitem_setitem_ne).
  rewrite (assign_frame_eval f2 _ _ (ColNum (zip_with b64_sub pytd p1ytd))).
  2:{ apply e_sub_eval; rewrite G2, G1 by discriminate; assumption. }
  cbn [rbind]. set (f3 := setitem f2 "delta_pytd_p1ytd" _).
  assert (G3 : forall n, "delta_pytd_p1ytd" <> n -> getitem f3 n = getitem f2 n)
    by (intros n Hn; now apply getitem_setitem_ne).
  rewrite (assign_frame_eval f3 _ _ (ColNum (zip_with growth_pct ytd pytd))).
  2:{ apply e_growth_eval; rewrite G3, G2, G1 by discriminate; assumption. }
  cbn [rbind]. set (f4 := setitem f3 "growth_ytd_vs_pytd_pct" _).
  assert (G4 : forall n, "growth_ytd_vs_pytd_pct" <> n -> getitem f4 n = getitem f3 n)
    by (intros n Hn; now apply getitem_setitem_ne).
  rewrite (assign_frame_eval f4 _ _ (ColNum (zip_with growth_pct ytd p1ytd))).
  2:{ apply e_growth_eval; rewrite G4, G3, G2, G1 by discriminate; assumption. }
  cbn [rbind]. set (f5 := setitem f4 "growth_ytd_vs_p1ytd_pct" _).
  assert (G5 : forall n, "growth_ytd_vs_p1ytd_pct" <> n -> getitem f5 n = getitem f4 n)
    by (intros n Hn; now apply getitem_setitem_ne).
  destruct Hyq as [Eyq|[ytd_q Eyq]].
  { rewrite (assign_frame_raise f5 _ _ KeyError); [reflexivity|].
    apply e_sub_raise_l. rewrite G5, G4, G3, G2, G1 by discriminate. assumption. }
  destruct Hpq as [Epq|[pytd_q Epq]].
  { rewrite (assign_frame_raise f5 _ _ KeyError); [reflexivity|].
    apply (e_sub_raise_r _ _ _ (ColNum ytd_q));
      rewrite G5, G4, G3, G2, G1 by discriminate; assumption. }
  rewrite (assign_frame_eval f5 _ _ (ColNum (zip_with b64_sub ytd_q pytd_q))).
  2:{ apply e_sub_eval; rewrite G5, G4, G3, G2, G1 by discriminate; assumption. }
  cbn [rbind]. set (f6 := setitem f5 "qty_delta_ytd_pytd" _).
  assert (G6 : forall n, "qty_delta_ytd_pytd" <> n -> getitem f6 n = getitem f5 n)
    by (intros n Hn; now apply getitem_setitem_ne).
  destruct Hp1q as [Ep1q|[p1ytd_q Ep1q]].
  { rewrite (assign_frame_raise f6 _ _ KeyError); [reflexivity|].
    apply (e_sub_raise_r _ _ _ (ColNum ytd_q));
      rewrite G6, G5, G4, G3, G2, G1 by discriminate; assumption. }
  exfalso. unfold total_columns in Hin.
  repeat (apply elem_of_cons in Hin as [->|Hin]; [congruence|]).
  now apply elem_of_nil in Hin.
Qed.

(** X13. When the frame given to [calculate_deltas] lacks one of the six
    columns of totals, and the ones it has are numeric, the call raises
    [KeyError]; every frame that existed before the call is unchanged. *)
Theorem calculate_deltas_missing_column (metrics : nat) (s : store)
  (frame : DataFrame) (missing : string) :
  s !! metrics = Some frame ->
  (forall n, n ∈ total_columns ->
             getitem frame n = Raise KeyError \/ exists l, getitem frame n = Ok (ColNum l)) ->
  missing ∈ total_columns -> getitem frame missing = Raise KeyError ->
  snd (calculate_deltas metrics s) = Raise KeyError /\
  take (length s) (fst (calculate_deltas metrics s)) = s.
Proof.
  intros E Hall Hin Hmiss. split.
  - unfold calculate_deltas, copy, bind, read, alloc, lift, write, ret.
    rewrite E, list_lookup_middle by reflexivity.
    now rewrite (deltas_frame_missing frame missing).
  - destruct (calculate_deltas_store metrics s) as (tail & ->).
    now rewrite take_app_length.
Qed.

Lemma calculate_deltas_missing_column_witness :
  snd (calculate_deltas 0%nat
         [[("product_name", ColStr [Some "A"]);
           ("ytd_sales", ColNum [b64_of_Z 100]);
           ("pytd_sales", ColNum [b64_of_Z 80]);
           ("p1ytd_sales", ColNum [b64_of_Z 40]);
           ("ytd_quantity", ColNum [b64_of_Z 3]);
           ("p1ytd_quantity", ColNum [b64_of_Z 1])]]) = Raise KeyError /\
  take (length [[("product_name", ColStr [Some "A"]);
                 ("ytd_sales", ColNum [b64_of_Z 100]);
                 ("pytd_sales", ColNum [b64_of_Z 80]);
                 ("p1ytd_sales", ColNum [b64_of_Z 40]);
                 ("ytd_quantity", ColNum [b64_of_Z 3]);
                 ("p1ytd_quantity", ColNum [b64_of_Z 1])]])
       (fst (calculate_deltas 0%nat
               [[("product_name", ColStr [Some "A"]);
                 ("ytd_sales", ColNum [b64_of_Z 100]);
                 ("pytd_sales", ColNum [b64_of_Z 80]);
                 ("p1ytd_sales", ColNum [b64_of_Z 40]);
                 ("ytd_quantity", ColNum [b64_of_Z 3]);
                 ("p1ytd_quantity", ColNum [b64_of_Z 1])]])) =
  [[("product_name", ColStr [Some "A"]);
    ("ytd_sales", ColNum [b64_of_Z 100]);
    ("pytd_sales", ColNum [b64_of_Z 80]);
    ("p1ytd_sales", ColNum [b64_of_Z 40]);
    ("ytd_quantity", ColNum [b64_of_Z 3]);
    ("p1ytd_quantity", ColNum [b64_of_Z 1])]].
Proof.
  apply (calculate_deltas_missing_column 0%nat _
           [("product_name", ColStr [Some "A"]);
            ("ytd_sales", ColNum [b64_of_Z 100]);
            ("pytd_sales", ColNum [b64_of_Z 80]);
            ("p1ytd_sales", ColNum [b64_of_Z 40]);
            ("ytd_quantity", ColNum [b64_of_Z 3]);
            ("p1ytd_quantity", ColNum [b64_of_Z 1])] "pytd_quantity").
  - reflexivity.
  - intros n Hn. unfold total_columns in Hn.
    repeat (apply elem_of_cons in Hn as [->|Hn];
            [first [left; reflexivity | right; eexists; reflexivity]|]).
    now apply elem_of_nil in Hn.
  - in_list.
  - reflexivity.
Defined.

(** ** [get_category_performance] *)

Lemma bind_ok {A B} (m : M A) (k : A -> M B) (s s' : store) (b : B) :
  bind m k s = (s', Ok b) ->
  exists a s1, m s = (s1, Ok a) /\ k a s1 = (s', Ok b).
Proof.
  unfold bind. destruct (m s) as [s1 [a|e]]; [|discriminate].
  intros Hk. now exists a, s1.
Qed.

Lemma filter_rename (df : DataFrame) (old new : string) :
  old <> new ->
  length (List.filter (named new) (rename df old new)) =
  (length (List.filter (named new) df) + length (List.filter (named old) df))%nat.
Proof.
  intros Hne. induction df as [|x df IH]; [reflexivity|].
  cbn [rename map List.filter]. fold (rename df old new).
  destruct (named old x) eqn:Eo.
  - replace (named new (new, snd x)) with true by (symmetry; now apply named_true).
    replace (named new x) with false.
    2:{ symmetry. apply named_false. apply named_true in Eo. congruence. }
    cbn [length]. rewrite IH. lia.
  - destruct (named new x); cbn [length]; rewrite IH; lia.
Qed.

Lemma getitem_duplicate (df : DataFrame) (n : string) :
  (2 <= length (List.filter (named n) df))%nat -> getitem df n = Raise ValueError.
Proof.
  unfold getitem. destruct (List.filter (named n) df) as [|x [|y l]]; cbn; try lia.
  reflexivity.
Qed.

Lemma getitem_count (df : DataFrame) (n : string) (c : column) :
  getitem df n = Ok c -> length (List.filter (named n) df) = 1%nat.
Proof.
  unfold getitem. now destruct (List.filter (named n) df) as [|x [|y l]].
Qed.

Lemma In_count (df : DataFrame) (n : string) (c : column) :
  In (n, c) df -> (1 <= length (List.filter (named n) df))%nat.
Proof.
  intros Hin.
  assert (Hf : In (n, c) (List.filter (named n) df)).
  { apply filter_In. split; [assumption|]. now apply named_true. }
  destruct (List.filter (named n) df); [destruct Hf|cbn; lia].
Qed.

(** Line 207: after [rename(columns={'category': 'product_name'})] the frame
    has two columns named [product_name]. *)
Lemma renamed_category_duplicate (frame : DataFrame) (c c' : column) :
  getitem frame "product_name" = Ok c ->
  getitem (rename (setitem frame "category" c') "category" "product_name")
          "product_name" = Raise ValueError.
Proof.
  intros Hg. apply getitem_duplicate. rewrite filter_rename by discriminate.
  assert (H1 : getitem (setitem frame "category" c') "product_name" = Ok c)
    by now rewrite getitem_setitem_ne by discriminate.
  apply getitem_count in H1. rewrite H1.
  pose proof (In_count _ _ _ (In_setitem frame "category" c')). lia.
Qed.

Section CategoryPerformance.
Variable parse_date : string -> option timestamp.
Variable from_epoch : float64 -> option timestamp.

(** X14. [get_category_performance] never returns a frame. The frame it
    passes to [calculate_ytd_metrics] still has the [product_name] column
    beside the [category] column renamed to [product_name], and grouping by a
    name that two columns share raises [ValueError]; an earlier step can only
    fail sooner. *)
Theorem category_performance_never_returns (df : nat)
  (product_category_map : gmap string string) (s : store) :
  exists e : exn,
    snd (get_category_performance parse_date from_epoch df product_category_map s) =
    Raise e.
Proof.
  destruct (get_category_performance parse_date from_epoch df product_category_map s)
    as [s' [m|e]] eqn:Hrun; [exfalso|now exists e].
  unfold get_category_performance in Hrun.
  apply bind_ok in Hrun as (df_with_cat & s1 & Hcopy & Hrun).
  unfold copy, bind, read, alloc in Hcopy.
  destruct (s !! df) as [frame|] eqn:E; [|discriminate].
  injection Hcopy as <- <-.
  apply bind_ok in Hrun as ([] & s2 & Hassign & Hrun).
  rewrite assign_run, list_lookup_middle in Hassign by reflexivity.
  destruct (assign_frame frame "category" _) as [f1|] eqn:Ha; [|discriminate].
  injection Hassign as <-.
  apply assign_frame_ok in Ha as (c' & Hc & ->).
  unfold lift1, col in Hc. apply rbind_ok in Hc as (c & Hg & _).
  apply bind_ok in Hrun as (fr & s3 & Hread & Hrun).
  assert (Hs2 : <[length s := setitem frame "category" c']> (s ++ [frame]) =
                s ++ [setitem frame "category" c']).
  { rewrite insert_app_r_alt by reflexivity. now rewrite Nat.sub_diag. }
  rewrite Hs2 in *. clear Hs2.
  unfold read in Hread. rewrite list_lookup_middle in Hread by reflexivity.
  injection Hread as <- <-.
  apply bind_ok in Hrun as (renamed & s4 & Halloc & Hrun).
  unfold alloc in Halloc. injection Halloc as <- <-.
  apply bind_ok in Hrun as (metrics & s5 & Hmetrics & _).
  apply calculate_ytd_metrics_ok in Hmetrics
    as (frame0 & frame' & mf & E0 & Hdate & Hm & _).
  rewrite list_lookup_middle in E0 by reflexivity. injection E0 as <-.
  apply assign_frame_ok in Hdate as (cd & _ & ->).
  apply metrics_of_frame_ok in Hm as (dates & as_of & w & records & _ & _ & _ & Hr & _).
  unfold sales_records in Hr.
  apply rbind_ok in Hr as (dates' & _ & Hr).
  apply rbind_ok in Hr as (names & Hn & _).
  unfold str_col in Hn. apply rbind_ok in Hn as (cn & Hn & _).
  rewrite getitem_setitem_ne in Hn by discriminate.
  rewrite (renamed_category_duplicate _ _ _ Hg) in Hn. discriminate.
Qed.
End CategoryPerformance.

(** On the documented input the call stops at the group-by of line 100. *)
Example category_performance_example :
  snd (get_category_performance (fun _ => None) (fun _ => None) 0%nat
         (<["A" := "Electronics"]> ∅)
         [[("date", ColTime [TS (mk_datetime 2023 4 5 0)]);
           ("product_name", ColStr [Some "A"]);
           ("sales_amount", ColNum [b64_of_Z 100]);
           ("quantity", ColNum [b64_of_Z 2])]]) = Raise ValueError.
Proof. vm_compute. reflexivity. Qed.

(** ** The rows of [get_monthly_trends] *)

Lemma get_fiscal_year_of_month (d : datetime) :
  get_fiscal_year d = get_fiscal_year (mk_datetime (year d) (month d) 1 0).
Proof. reflexivity. Qed.

Lemma lex_antisym (c1 c2 d1 d2 : comparison) :
  c1 = CompOpp d1 -> c2 = CompOpp d2 -> lex c1 c2 = CompOpp (lex d1 d2).
Proof. intros -> ->. now destruct d1. Qed.

Lemma month_key_compare_antisym (a b : MonthKey) :
  month_key_compare a b = CompOpp (month_key_compare b a).
Proof.
  destruct a as [[[ya ma] fa] na], b as [[[yb mb] fb] nb]. unfold month_key_compare.
  repeat apply lex_antisym;
    first [apply Z.compare_antisym | apply String.compare_antisym].
Qed.

Lemma month_key_le_total (a b : MonthKey) : month_key_le a b \/ month_key_le b a.
Proof.
  unfold month_key_le. rewrite (month_key_compare_antisym a b).
  destruct (month_key_compare b a); cbn; tauto.
Qed.

Section MonthlyTrends.
Variable parse_date : string -> option timestamp.
Variable from_epoch : float64 -> option timestamp.

(** Lines 178-189, step by step. *)
Lemma get_monthly_trends_ok (df : nat) (s s' : store) (m : nat) :
  get_monthly_trends parse_date from_epoch df s = (s', Ok m) ->
  exists frame dates records,
    let f3 :=
      setitem
        (setitem (setitem frame "date" (ColTime dates)) "year_month"
           (ColPeriod (map (fun t => match t with
                                     | TS d => Some (year d, month d)
                                     | NaT => None
                                     end) dates)))
        "fiscal_year" (ColStr (map (fun t => Some (fiscal_year_of_cell t)) dates)) in
    s !! df = Some frame /\
    monthly_records f3 = Ok records /\
    s' = <[df := f3]> s ++ [monthly_frame (groupby_sum month_key_le records)] /\
    m = length s.
Proof.
  unfold get_monthly_trends. intros Hrun.
  apply bind_ok in Hrun as ([] & s1 & H1 & Hrun). rewrite assign_run in H1.
  destruct (s !! df) as [frame|] eqn:E; [|discriminate].
  destruct (assign_frame frame "date" _) as [f1|] eqn:Ha1; [|discriminate].
  injection H1 as <-.
  apply date_assignment in Ha1 as (c & dates & Hg & _ & ->).
  apply bind_ok in Hrun as ([] & s2 & H2 & Hrun).
  rewrite assign_run, (lookup_insert_same _ _ _ _ E) in H2.
  unfold assign_frame, lift1, col in H2.
  rewrite (getitem_setitem_eq _ _ _ _ Hg) in H2. cbn [rbind to_period_M] in H2.
  injection H2 as <-. rewrite list_insert_insert_eq in Hrun.
  apply bind_ok in Hrun as ([] & s3 & H3 & Hrun).
  rewrite assign_run, (lookup_insert_same _ _ _ _ E) in H3.
  unfold assign_frame, lift1, col in H3.
  rewrite getitem_setitem_ne in H3 by discriminate.
  rewrite (getitem_setitem_eq _ _ _ _ Hg) in H3. cbn [rbind apply_get_fiscal_year] in H3.
  injection H3 as <-. rewrite list_insert_insert_eq in Hrun.
  apply bind_ok in Hrun as (fr & s4 & H4 & Hrun).
  unfold read in H4. rewrite (lookup_insert_same _ _ _ _ E) in H4.
  injection H4 as <- <-.
  apply bind_ok in Hrun as (monthly & s5 & H5 & Hrun).
  unfold lift in H5.
  destruct (monthly_of_frame _) as [mo|] eqn:Hmo; [|discriminate].
  injection H5 as <- <-.
  unfold monthly_of_frame in Hmo. apply rbind_ok in Hmo as (records & Hr & Hmo).
  injection Hmo as <-.
  unfold alloc in Hrun. injection Hrun as <- <-.
  exists frame, dates, records. cbv zeta.
  split; [reflexivity|]. split; [exact Hr|]. split; [reflexivity|].
  now rewrite length_insert.
Qed.

(** The keys that the group-by of line 182 sees: the month and the
    fiscal-year label of one key come from the same date. *)
Lemma monthly_records_keys (frame : DataFrame) (dates : list timestamp)
  (records : list (option MonthKey * (float64 * float64)))
  (y mo : Z) (fy p : string) :
  monthly_records
    (setitem
       (setitem frame "year_month"
          (ColPeriod (map (fun t => match t with
                                    | TS d => Some (year d, month d)
                                    | NaT => None
                                    end) dates)))
       "fiscal_year" (ColStr (map (fun t => Some (fiscal_year_of_cell t)) dates))) =
    Ok records ->
  Some (y, mo, fy, p) ∈ map fst records ->
  exists d, TS d ∈ dates /\ y = year d /\ mo = month d /\ fy = get_fiscal_year d.
Proof.
  unfold monthly_records. intros Hr Hk.
  apply rbind_ok in Hr as (months & Hmonths & Hr).
  apply rbind_ok in Hr as (years & Hyears & Hr).
  apply rbind_ok in Hr as (names & _ & Hr).
  apply rbind_ok in Hr as (amounts & _ & Hr).
  apply rbind_ok in Hr as (quantities & _ & Hr).
  injection Hr as <-.
  unfold period_col in Hmonths. apply rbind_ok in Hmonths as (cm & Hcm & Hmonths).
  destruct cm as [| | |months']; try discriminate. injection Hmonths as ->.
  apply getitem_In in Hcm. apply In_setitem_other in Hcm; [|discriminate].
  apply In_setitem_same in Hcm. injection Hcm as ->.
  unfold str_col in Hyears. apply rbind_ok in Hyears as (cy & Hcy & Hyears).
  destruct cy as [years'| | |]; try discriminate. injection Hyears as ->.
  apply getitem_In, In_setitem_same in Hcy. injection Hcy as ->.
  change (map fst ?l) with (fst <$> l) in Hk.
  apply list_elem_of_fmap in Hk as ([k aq] & Ek & Hk). cbn in Ek. subst k.
  apply elem_of_lookup_zip_with in Hk as (i & k & aq' & Ek & Hi & _).
  injection Ek as <- _.
  apply lookup_zip_with_Some in Hi as ([ym fy'] & n & Ek & Hz & _).
  apply lookup_zip_with_Some in Hz as (ym' & fy'' & Ez & Hym & Hfy).
  injection Ez as <- <-.
  change (map ?f ?l) with (f <$> l) in Hym.
  change (map ?f ?l) with (f <$> l) in Hfy.
  rewrite list_lookup_fmap in Hym. rewrite list_lookup_fmap in Hfy.
  destruct (dates !! i) as [t|] eqn:Et; [|discriminate].
  cbn in Hym, Hfy. injection Hym as <-. injection Hfy as <-.
  destruct t as [|d]; cbn in Ek; [discriminate|].
  destruct n as [p'|]; [|discriminate]. injection Ek as -> -> -> ->.
  exists d. split; [now apply list_elem_of_lookup_2 in Et|]. auto.
Qed.

(** X15. The frame returned by [get_monthly_trends] has one row for each
    group key (month, fiscal-year label, product), in ascending order of the
    key. The label of a row is the fiscal year of the first day of the row's
    month, so a month and a product share at most one row. *)
Theorem monthly_trends_rows (df : nat) (s s' : store) (m : nat) :
  get_monthly_trends parse_date from_epoch df s = (s', Ok m) ->
  exists rows : list (MonthKey * (float64 * float64)),
    m = length s /\
    s' !! m = Some (monthly_frame rows) /\
    NoDup (map fst rows) /\
    Sorted month_key_le (map fst rows) /\
    (forall y mo fy p aq,
        (y, mo, fy, p, aq) ∈ rows -> fy = get_fiscal_year (mk_datetime y mo 1 0)) /\
    NoDup (map (fun r => (fst (fst (fst r)), snd (fst r))) rows).
Proof.
  intros Hrun.
  apply get_monthly_trends_ok in Hrun as (frame & dates & records & E & Hr & -> & ->).
  exists (groupby_sum month_key_le records).
  assert (Hfy : forall y mo fy p aq,
             (y, mo, fy, p, aq) ∈ groupby_sum month_key_le records ->
             fy = get_fiscal_year (mk_datetime y mo 1 0)).
  { intros y mo fy p [a q] Hin. apply elem_of_groupby_sum in Hin as (Hk & _).
    destruct (monthly_records_keys _ _ _ _ _ _ _ Hr Hk) as (d & _ & -> & -> & ->).
    apply get_fiscal_year_of_month. }
  assert (Hnd : NoDup (map fst (groupby_sum month_key_le records))).
  { rewrite groupby_sum_keys. apply NoDup_group_keys. }
  split; [reflexivity|].
  split; [apply list_lookup_middle; now rewrite length_insert|].
  split; [exact Hnd|]. split; [|split; [exact Hfy|]].
  - rewrite groupby_sum_keys. unfold group_keys.
    apply Sorted_merge_sort. intros a b. apply month_key_le_total.
  - rewrite <- (map_map fst (fun k : MonthKey => (fst (fst k), snd k))).
    apply (NoDup_fmap_2_strong (fun k : MonthKey => (fst (fst k), snd k))
             (map fst (groupby_sum month_key_le records))); [|exact Hnd].
    intros k1 k2 H1 H2 Ek.
    change (map fst ?l) with (fst <$> l) in H1, H2.
    apply list_elem_of_fmap in H1 as ([k1' aq1] & -> & H1).
    apply list_elem_of_fmap in H2 as ([k2' aq2] & -> & H2).
    destruct k1' as [[[y1 m1] f1] p1], k2' as [[[y2 m2] f2] p2]. cbn in *.
    injection Ek as -> -> ->.
    apply Hfy in H1, H2. congruence.
Qed.
End MonthlyTrends.

Lemma monthly_trends_rows_witness :
  exists s',
    get_monthly_trends (fun _ => None) (fun _ => None) 0%nat
      [[("date", ColTime [TS (mk_datetime 2023 4 5 0); TS (mk_datetime 2023 3 9 0);
                          TS (mk_datetime 2023 4 20 0); NaT]);
        ("product_name", ColStr [Some "A"; Some "A"; Some "A"; Some "B"]);
        ("sales_amount", ColNum [b64_of_Z 100; b64_of_Z 80; b64_of_Z 5; b64_of_Z 1]);
        ("quantity", ColNum [b64_of_Z 2; b64_of_Z 1; b64_of_Z 1; b64_of_Z 1])]]
    = (s', Ok 1%nat) /\
    exists rows : list (MonthKey * (float64 * float64)),
      1%nat = length
        [[("date", ColTime [TS (mk_datetime 2023 4 5 0); TS (mk_datetime 2023 3 9 0);
                            TS (mk_datetime 2023 4 20 0); NaT]);
          ("product_name", ColStr [Some "A"; Some "A"; Some "A"; Some "B"]);
          ("sales_amount", ColNum [b64_of_Z 100; b64_of_Z 80; b64_of_Z 5; b64_of_Z 1]);
          ("quantity", ColNum [b64_of_Z 2; b64_of_Z 1; b64_of_Z 1; b64_of_Z 1])]] /\
      s' !! 1%nat = Some (monthly_frame rows) /\
      NoDup (map fst rows) /\
      Sorted month_key_le (map fst rows) /\
      (forall y mo fy p aq,
          (y, mo, fy, p, aq) ∈ rows -> fy = get_fiscal_year (mk_datetime y mo 1 0)) /\
      NoDup (map (fun r => (fst (fst (fst r)), snd (fst r))) rows).
Proof.
  eexists. split.
  - vm_compute. reflexivity.
  - apply (monthly_trends_rows (fun _ => None) (fun _ => None) 0%nat
             [[("date", ColTime [TS (mk_datetime 2023 4 5 0); TS (mk_datetime 2023 3 9 0);
                                 TS (mk_datetime 2023 4 20 0); NaT]);
               ("product_name", ColStr [Some "A"; Some "A"; Some "A"; Some "B"]);
               ("sales_amount", ColNum [b64_of_Z 100; b64_of_Z 80; b64_of_Z 5; b64_of_Z 1]);
               ("quantity", ColNum [b64_of_Z 2; b64_of_Z 1; b64_of_Z 1; b64_of_Z 1])]]).
    vm_compute. reflexivity.
Defined.

(** The example above: two rows, March and April of product A; the row
    without a date is dropped. *)
Example monthly_trends_example :
  monthly_of_frame
    [("date", ColTime [TS (mk_datetime 2023 4 5 0); TS (mk_datetime 2023 3 9 0);
                       TS (mk_datetime 2023 4 20 0); NaT]);
     ("product_name", ColStr [Some "A"; Some "A"; Some "A"; Some "B"]);
     ("sales_amount", ColNum [b64_of_Z 100; b64_of_Z 80; b64_of_Z 5; b64_of_Z 1]);
     ("quantity", ColNum [b64_of_Z 2; b64_of_Z 1; b64_of_Z 1; b64_of_Z 1]);
     ("year_month", ColPeriod [Some (2023, 4); Some (2023, 3); Some (2023, 4); None]);
     ("fiscal_year", ColStr [Some "FY 2023-24"; Some "FY 2022-23"; Some "FY 2023-24";
                             Some "FY nan-an"])] =
  Ok (monthly_frame
        [((2023, 3, "FY 2022-23", "A"), (b64_of_Z 80, b64_of_Z 1));
         ((2023, 4, "FY 2023-24", "A"), (b64_of_Z 105, b64_of_Z 3))]).
Proof. vm_compute. reflexivity. Qed.

(** ** Calls that follow [calculate_ytd_metrics] on the same frame *)

Section SecondCall.
Variable parse_date : string -> option timestamp.
Variable from_epoch : float64 -> option timestamp.

(** Once converted, the [date] column is left as it is by the next
    conversion. *)
Lemma date_assignment_again (frame : DataFrame) (c : column) (dates : list timestamp) :
  getitem frame "date" = Ok c ->
  assign_frame (setitem frame "date" (ColTime dates)) "date"
    (lift1 (to_datetime parse_date from_epoch) (col "date")) =
  Ok (setitem frame "date" (ColTime dates)).
Proof.
  intros Hg.
  assert (Hg' : getitem (setitem frame "date" (ColTime dates)) "date" = Ok (ColTime dates))
    by now apply (getitem_setitem_eq _ _ c).
  rewrite (date_assignment_ok _ _ _ _ dates Hg' eq_refl).
  now rewrite (setitem_getitem _ _ _ Hg').
Qed.

Lemma get_monthly_trends_run (df : nat) (s : store) (frame f1 : DataFrame)
  (dates : list timestamp) :
  s !! df = Some frame ->
  assign_frame frame "date" (lift1 (to_datetime parse_date from_epoch) (col "date")) =
    Ok f1 ->
  getitem f1 "date" = Ok (ColTime dates) ->
  let f3 :=
    setitem
      (setitem f1 "year_month"
         (ColPeriod (map (fun t => match t with
                                   | TS d => Some (year d, month d)
                                   | NaT => None
                                   end) dates)))
      "fiscal_year" (ColStr (map (fun t => Some (fiscal_year_of_cell t)) dates)) in
  get_monthly_trends parse_date from_epoch df s =
  match monthly_of_frame f3 with
  | Ok monthly => (<[df := f3]> s ++ [monthly], Ok (length s))
  | Raise e => (<[df := f3]> s, Raise e)
  end.
Proof.
  intros E Ha Hg f3. unfold get_monthly_trends.
  unfold bind at 1. rewrite assign_run, E, Ha.
  unfold bind at 1. rewrite assign_run, (lookup_insert_same _ _ _ _ E).
  unfold assign_frame at 1, lift1 at 1, col at 1. rewrite Hg. cbn [rbind to_period_M].
  rewrite list_insert_insert_eq.
  unfold bind at 1. rewrite assign_run, (lookup_insert_same _ _ _ _ E).
  unfold assign_frame at 1, lift1 at 1, col at 1.
  rewrite getitem_setitem_ne by discriminate. rewrite Hg.
  cbn [rbind apply_get_fiscal_year]. rewrite list_insert_insert_eq.
  unfold bind at 1, read. rewrite (lookup_insert_same _ _ _ _ E).
  unfold bind, lift, alloc. fold f3.
  destruct (monthly_of_frame f3) as [monthly|e]; [|reflexivity].
  now rewrite length_insert.
Qed.

(** X16. After a successful call of [calculate_ytd_metrics], a second call
    with the same arguments changes no frame of the store and returns a
    frame equal to the first result: the only write of the function, the
    conversion of the [date] column, has nothing left to convert. *)
Theorem metrics_second_call (df : nat) (as_of_date : option datetime)
  (s s1 : store) (m : nat) :
  calculate_ytd_metrics parse_date from_epoch df as_of_date s = (s1, Ok m) ->
  exists mf,
    s1 !! m = Some mf /\
    calculate_ytd_metrics parse_date from_epoch df as_of_date s1 =
      (s1 ++ [mf], Ok (length s1)).
Proof.
  intros Hrun.
  apply calculate_ytd_metrics_ok in Hrun as (frame & frame' & mf & E & Ha & Hm & -> & -> & Hl).
  exists mf. split; [exact Hl|].
  pose proof (lookup_lt_Some _ _ _ E) as Hlt.
  assert (E1 : (<[df := frame']> s ++ [mf]) !! df = Some frame').
  { rewrite lookup_app_l by now rewrite length_insert.
    now apply list_lookup_insert_eq. }
  apply date_assignment in Ha as (c & dates & Hg & _ & ->).
  rewrite calculate_ytd_metrics_run, E1, (date_assignment_again _ _ _ Hg), Hm.
  now rewrite list_insert_id by exact E1.
Qed.

(** X17. The order of the two calls in the module's example run does not
    matter to [get_monthly_trends]: called after a successful
    [calculate_ytd_metrics] on the same sales frame, it returns the frame it
    returns when called first, and leaves the sales frame with the same
    columns. *)
Theorem monthly_trends_after_metrics (df : nat) (as_of_date : option datetime)
  (s s1 s2 : store) (m t : nat) :
  calculate_ytd_metrics parse_date from_epoch df as_of_date s = (s1, Ok m) ->
  get_monthly_trends parse_date from_epoch df s = (s2, Ok t) ->
  exists monthly sales,
    s2 !! t = Some monthly /\ s2 !! df = Some sales /\
    get_monthly_trends parse_date from_epoch df s1 =
      (<[df := sales]> s1 ++ [monthly], Ok (length s1)).
Proof.
  intros Hrun Hmonthly.
  apply calculate_ytd_metrics_ok in Hrun as (frame & frame' & mf & E & Ha & Hm & -> & -> & Hl).
  pose proof (lookup_lt_Some _ _ _ E) as Hlt.
  assert (E1 : (<[df := frame']> s ++ [mf]) !! df = Some frame').
  { rewrite lookup_app_l by now rewrite length_insert.
    now apply list_lookup_insert_eq. }
  pose proof Ha as Ha'.
  apply date_assignment in Ha' as (c & dates & Hg & _ & ->).
  assert (Hg' : getitem (setitem frame "date" (ColTime dates)) "date" = Ok (ColTime dates))
    by now apply (getitem_setitem_eq _ _ c).
  rewrite (get_monthly_trends_run df s frame _ dates E Ha Hg') in Hmonthly.
  rewrite (get_monthly_trends_run df _ _ _ dates E1 (date_assignment_again _ _ _ Hg) Hg').
  cbv zeta in *.
  destruct (monthly_of_frame _) as [monthly|e]; [|discriminate].
  injection Hmonthly as <- <-.
  eexists monthly, _.
  split; [apply list_lookup_middle; now rewrite length_insert|].
  split; [rewrite lookup_app_l by (now rewrite length_insert);
          now apply list_lookup_insert_eq|].
  reflexivity.
Qed.
End SecondCall.

Lemma metrics_second_call_witness :
  exists s1,
    calculate_ytd_metrics (fun _ => Some (TS (mk_datetime 2023 4 5 0))) (fun _ => None)
      0%nat (Some (mk_datetime 2023 4 10 0))
      [[("date", ColStr [Some "2023-04-05"]);
        ("product_name", ColStr [Some "A"]);
        ("sales_amount", ColNum [b64_of_Z 100]);
        ("quantity", ColNum [b64_of_Z 2])]] = (s1, Ok 1%nat) /\
    exists mf,
      s1 !! 1%nat = Some mf /\
      calculate_ytd_metrics (fun _ => Some (TS (mk_datetime 2023 4 5 0))) (fun _ => None)
        0%nat (Some (mk_datetime 2023 4 10 0)) s1 = (s1 ++ [mf], Ok (length s1)).
Proof.
  eexists. split.
  - vm_compute. reflexivity.
  - apply (metrics_second_call (fun _ => Some (TS (mk_datetime 2023 4 5 0)))
             (fun _ => None) 0%nat (Some (mk_datetime 2023 4 10 0))
             [[("date", ColStr [Some "2023-04-05"]);
               ("product_name", ColStr [Some "A"]);
               ("sales_amount", ColNum [b64_of_Z 100]);
               ("quantity", ColNum [b64_of_Z 2])]]).
    vm_compute. reflexivity.
Defined.

Lemma monthly_trends_after_metrics_witness :
  exists s1 s2,
    calculate_ytd_metrics (fun _ => Some (TS (mk_datetime 2023 4 5 0))) (fun _ => None)
      0%nat None
      [[("date", ColStr [Some "2023-04-05"]);
        ("product_name", ColStr [Some "A"]);
        ("sales_amount", ColNum [b64_of_Z 100]);
        ("quantity", ColNum [b64_of_Z 2])]] = (s1, Ok 1%nat) /\
    get_monthly_trends (fun _ => Some (TS (mk_datetime 2023 4 5 0))) (fun _ => None)
      0%nat
      [[("date", ColStr [Some "2023-04-05"]);
        ("product_name", ColStr [Some "A"]);
        ("sales_amount", ColNum [b64_of_Z 100]);
        ("quantity", ColNum [b64_of_Z 2])]] = (s2, Ok 1%nat) /\
    exists monthly sales,
      s2 !! 1%nat = Some monthly /\ s2 !! 0%nat = Some sales /\
      get_monthly_trends (fun _ => Some (TS (mk_datetime 2023 4 5 0))) (fun _ => None)
        0%nat s1 = (<[0%nat := sales]> s1 ++ [monthly], Ok (length s1)).
Proof.
  eexists. eexists. split; [vm_compute; reflexivity|].
  split; [vm_compute; reflexivity|].
  apply (monthly_trends_after_metrics (fun _ => Some (TS (mk_datetime 2023 4 5 0)))
           (fun _ => None) 0%nat None
           [[("date", ColStr [Some "2023-04-05"]);
             ("product_name", ColStr [Some "A"]);
             ("sales_amount", ColNum [b64_of_Z 100]);
             ("quantity", ColNum [b64_of_Z 2])]] _ _ 1%nat 1%nat);
    vm_compute; reflexivity.
Defined.
